(** * jobtrack-automate: status state machine, duplicate/rate guard,
      CAPTCHA gate and the automation task

    Shallow embedding of
      - applications/models.py            (Application, ApplicationActivity, Job)
      - applications/signals.py           (pre_save / post_save receivers)
      - applications/services/status_tracker.py
      - applications/services/application_manager.py
      - applications/automation/captcha_solver.py
      - tasks/automation_tasks.py
    Storage tables are finite maps keyed by primary key, the activity log is
    an append-only list, Python dictionaries are [gmap string _]. *)

From Stdlib Require Import ZArith List Bool DecimalString.
From stdpp Require Import gmap strings list fin_maps.
From Equations Require Import Equations.

Open Scope string_scope.

(** ** status_tracker.py : the transition table *)

Module StatusTable.

(** [VALID_TRANSITIONS], a module-level dict from status to list of statuses. *)
Definition VALID_TRANSITIONS : gmap string (list string) :=
  list_to_map
    [ ("saved", ["applied"; "withdrawn"]);
      ("applied", ["screening"; "interview_scheduled"; "rejected"; "withdrawn"]);
      ("screening", ["interview_scheduled"; "rejected"; "withdrawn"]);
      ("interview_scheduled", ["interviewed"; "rejected"; "withdrawn"]);
      ("interviewed", ["offer"; "rejected"; "withdrawn"]);
      ("offer", ["accepted"; "rejected"; "withdrawn"]);
      ("rejected", []);
      ("accepted", ["withdrawn"]);
      ("withdrawn", []) ].

(** Python's [x in list] on strings. *)
Definition str_in (x : string) (l : list string) : bool :=
  existsb (String.eqb x) l.

(** [StatusTracker.is_valid_transition]. *)
Definition is_valid_transition (current_status new_status : string) : bool :=
  if String.eqb current_status new_status then true
  else
    let allowed := default [] (VALID_TRANSITIONS !! current_status) in
    str_in new_status allowed.

(** [StatusTracker.get_available_transitions]. *)
Definition get_available_transitions (current_status : string) : list string :=
  default [] (VALID_TRANSITIONS !! current_status).

(** The first components of [Application.STATUS_CHOICES] (models.py). *)
Definition STATUS_CHOICES : list string :=
  [ "saved"; "applied"; "screening"; "interview_scheduled"; "interviewed";
    "offer"; "rejected"; "accepted"; "withdrawn" ].

(** The edge list as the design document writes it (section 4.1): seven
    rows, [rejected] and [withdrawn] have none.  This is the reference the
    dictionary above is compared with. *)
Definition spec_edges : list (string * string) :=
  [ ("saved", "applied"); ("saved", "withdrawn");
    ("applied", "screening"); ("applied", "interview_scheduled");
    ("applied", "rejected"); ("applied", "withdrawn");
    ("screening", "interview_scheduled"); ("screening", "rejected");
    ("screening", "withdrawn");
    ("interview_scheduled", "interviewed"); ("interview_scheduled", "rejected");
    ("interview_scheduled", "withdrawn");
    ("interviewed", "offer"); ("interviewed", "rejected");
    ("interviewed", "withdrawn");
    ("offer", "accepted"); ("offer", "rejected"); ("offer", "withdrawn");
    ("accepted", "withdrawn") ].

Definition spec_edge (old_status new_status : string) : Prop :=
  In (old_status, new_status) spec_edges.

Definition spec_edgeb (old_status new_status : string) : bool :=
  existsb (fun e => String.eqb (fst e) old_status && String.eqb new_status (snd e))
          spec_edges.

End StatusTable.

Import StatusTable.

(** ** models.py : rows and tables *)

Module Models.

(** [Job]; only the columns the services read. *)
Record Job := mkJob {
  job_company : nat;
  job_title : string;
  job_url : string;
}.

(** [Application].  [pk] is [None] until the first [save()]; [applied_date]
    is a nullable timestamp (seconds). *)
Record Application := mkApplication {
  pk : option nat;
  user : nat;
  job : nat;
  company : nat;
  status : string;
  applied_date : option Z;
  application_method : string;
}.

(** [ApplicationActivity]: one row of the log. *)
Record ApplicationActivity := mkActivity {
  activity_application : nat;
  activity_type : string;
  description : string;
  created_by : option nat;
}.

(** The persistent store: two tables keyed by primary key, the
    auto-increment sequence of the application table, and the activity log
    in insertion order. *)
Record Db := mkDb {
  jobs : gmap nat Job;
  applications : gmap nat Application;
  next_pk : nat;
  activities : list ApplicationActivity;
}.

Definition set_pk (k : option nat) (a : Application) : Application :=
  mkApplication k (user a) (job a) (company a) (status a) (applied_date a)
                (application_method a).

Definition set_status (s : string) (a : Application) : Application :=
  mkApplication (pk a) (user a) (job a) (company a) s (applied_date a)
                (application_method a).

Definition set_applied_date (d : option Z) (a : Application) : Application :=
  mkApplication (pk a) (user a) (job a) (company a) (status a) d
                (application_method a).

(** [ApplicationActivity.objects.create(...)]. *)
Definition create_activity (act : ApplicationActivity) (db : Db) : Db :=
  mkDb (jobs db) (applications db) (next_pk db) (activities db ++ [act]).

End Models.

Import Models.

(** ** signals.py : receivers run by every [Application.save()] *)

Module Signals.

(** [log_status_change], the [pre_save] receiver: it reads the stored row
    and logs when the status about to be written differs from it.  The
    test [if not instance.pk] also holds for a key of 0. *)
Definition log_status_change (instance : Application) (db : Db) : Db :=
  match pk instance with
  | None | Some O => db
  | Some k =>
      match applications db !! k with
      | None => db
      | Some old_instance =>
          if negb (String.eqb (status old_instance) (status instance)) then
            create_activity
              (mkActivity k "status_change"
                 ("Status changed from " ++ status old_instance ++ " to "
                    ++ status instance)
                 (Some (user instance)))
              db
          else db
      end
  end.

(** [log_application_created], the [post_save] receiver. *)
Definition log_application_created (k : nat) (instance : Application)
    (created : bool) (db : Db) : Db :=
  if created then
    create_activity
      (mkActivity k "status_change"
         ("Application created with status: " ++ status instance)
         (Some (user instance)))
      db
  else db.

(** [Model.save()] for an Application: pre_save receiver, then UPDATE of the
    row (INSERT when there is none, taking a key from the sequence for an
    instance without one), then post_save receiver.  Returns the key, the
    instance as it is after the call, and the store. *)
Definition save (instance : Application) (db : Db) : nat * Application * Db :=
  let db := log_status_change instance db in
  match pk instance with
  | Some k =>
      let created := bool_decide (applications db !! k = None) in
      let db := mkDb (jobs db) (<[k := instance]> (applications db))
                     (next_pk db) (activities db) in
      (k, instance, log_application_created k instance created db)
  | None =>
      let k := next_pk db in
      let instance := set_pk (Some k) instance in
      let db := mkDb (jobs db) (<[k := instance]> (applications db))
                     (S k) (activities db) in
      (k, instance, log_application_created k instance true db)
  end.

End Signals.

Import Signals.

(** ** status_tracker.py and application_manager.py : the writers of status *)

Module Services.

(** Truthiness of a Python string. *)
Definition nonempty (s : string) : bool := negb (String.eqb s "").

(** [not x] for a nullable datetime: true exactly on [None]. *)
Definition unset {A : Type} (x : option A) : bool :=
  match x with Some _ => false | None => true end.

(** [StatusTracker.transition(application, new_status, user, notes)]. *)
Definition transition (application : Application) (new_status : string)
    (usr : option nat) (notes : string) (db : Db) : bool * Application * Db :=
  let current := status application in
  if negb (is_valid_transition current new_status) then
    (false, application, db)
  else
    let old_status := status application in
    let application := set_status new_status application in
    let '(k, application, db) := save application db in
    let description :=
      "Status changed from " ++ old_status ++ " to " ++ new_status in
    let description :=
      if nonempty notes then description ++ ". Notes: " ++ notes
      else description in
    let db := create_activity (mkActivity k "status_change" description usr) db in
    (true, application, db).

(** Python's [str.strip()] on the ASCII range: drops leading and trailing
    white space (codes 9-13, 28-32). *)
Definition is_space (c : Ascii.ascii) : bool :=
  let n := Ascii.nat_of_ascii c in
  (((9 <=? n) && (n <=? 13)) || ((28 <=? n) && (n <=? 32)))%nat.

Fixpoint lstrip (s : string) : string :=
  match s with
  | String c s' => if is_space c then lstrip s' else s
  | EmptyString => EmptyString
  end.

Fixpoint rstrip (s : string) : string :=
  match s with
  | String c s' =>
      match rstrip s' with
      | EmptyString => if is_space c then EmptyString else String c EmptyString
      | r => String c r
      end
  | EmptyString => EmptyString
  end.

Definition strip (s : string) : string := rstrip (lstrip s).

(** [ApplicationManager.update_status(application, new_status, user, notes)];
    [now] is the value of [timezone.now()]. *)
Definition update_status (application : Application) (new_status : string)
    (usr : nat) (notes : string) (now : Z) (db : Db) : Application * Db :=
  let old_status := status application in
  let application := set_status new_status application in
  let application :=
    if String.eqb new_status "applied" && unset (applied_date application)
    then set_applied_date (Some now) application
    else application in
  let '(k, application, db) := save application db in
  let db :=
    create_activity
      (mkActivity k "status_change"
         (strip ("Status changed from " ++ old_status ++ " to " ++ new_status
                   ++ ". " ++ notes))
         (Some usr))
      db in
  (application, db).

(** [Application.mark_as_applied()]. *)
Definition mark_as_applied (self : Application) (now : Z) (db : Db)
    : Application * Db :=
  let self := set_status "applied" self in
  let self := set_applied_date (Some now) self in
  let '(_, self, db) := save self db in
  (self, db).

End Services.

Import Services.

(** ** application_manager.py : duplicate and rate guard *)

Module Guard.

(** The argument of [check_duplicate]: a URL string or a [Job] object
    (identified by its primary key, which is what the ORM compares). *)
Inductive JobOrUrl :=
  | Url (s : string)
  | JobObject (job_pk : nat).

(** The rows of the application table. *)
Definition rows (db : Db) : list Application :=
  (map_to_list (applications db)).*2.

(** [job__job_url = url]: the join of an application row with its job. *)
Definition job_url_is (db : Db) (url : string) (a : Application) : bool :=
  match jobs db !! job a with
  | Some j => String.eqb (job_url j) url
  | None => false
  end.

(** [ApplicationManager.check_duplicate(user, job_or_url)]. *)
Definition check_duplicate (usr : nat) (job_or_url : JobOrUrl) (db : Db) : bool :=
  match job_or_url with
  | Url s =>
      if negb (nonempty s) then false
      else existsb (fun a => Nat.eqb (user a) usr && job_url_is db s a) (rows db)
  | JobObject k =>
      existsb (fun a => Nat.eqb (user a) usr && Nat.eqb (job a) k) (rows db)
  end.

(** Timestamps are seconds since the epoch, in UTC, as [timezone.now()]
    gives them under [USE_TZ = True].  [.date()] of such a value is its
    UTC calendar day, numbered from the epoch. *)
Definition date (t : Z) : Z := (t / 86400)%Z.

(** [TIME_ZONE = 'Africa/Johannesburg'] (config/settings.py): two hours
    ahead of UTC throughout the year (no daylight saving time since 1944). *)
Definition TIME_ZONE_offset : Z := 7200.

(** The [__date] transform of a [DateTimeField] look-up: the ORM converts
    the stored value to the current time zone, which is [TIME_ZONE], and
    takes the calendar day there. *)
Definition date_in_time_zone (t : Z) : Z := date (t + TIME_ZONE_offset).

(** [ApplicationManager.get_daily_application_count(user)] at time [now]:
    [today] is a UTC day, [applied_date__date] a day in [TIME_ZONE]. *)
Definition get_daily_application_count (usr : nat) (now : Z) (db : Db) : Z :=
  let today := date now in
  Z.of_nat
    (length
       (List.filter
          (fun a =>
             Nat.eqb (user a) usr
             && match applied_date a with
                | Some t => Z.eqb (date_in_time_zone t) today
                | None => false
                end
             && String.eqb (application_method a) "automated")
          (rows db))).

End Guard.

Import Guard.

(** ** captcha_solver.py *)

Module Captcha.

(** The double-quote character, as a one-character string. *)
Definition dquote : string := String (Ascii.ascii_of_nat 34) EmptyString.

(** [CaptchaSolver.CAPTCHA_SELECTORS]. *)
Definition CAPTCHA_SELECTORS : list string :=
  [ "#captcha"; ".g-recaptcha"; ".h-captcha";
    "iframe[src*=" ++ dquote ++ "recaptcha" ++ dquote ++ "]";
    "iframe[src*=" ++ dquote ++ "hcaptcha" ++ dquote ++ "]";
    "[data-sitekey]"; "#captcha-container" ].

(** What the driver shows at one moment: for a selector, [None] when
    [find_element] raises [NoSuchElementException], otherwise the value of
    [is_displayed()] of the element found. *)
Definition Page := gmap string bool.

(** The loop of [is_captcha_present] over a list of selectors. *)
Fixpoint scan (selectors : list string) (page : Page) : bool :=
  match selectors with
  | [] => false
  | selector :: rest =>
      match page !! selector with
      | Some true => true
      | Some false => scan rest page
      | None => scan rest page
      end
  end.

(** [CaptchaSolver.is_captcha_present] on the page currently shown. *)
Definition is_captcha_present (page : Page) : bool :=
  scan CAPTCHA_SELECTORS page.

(** The browser as the solver meets it: the page shown at the n-th look,
    and the seconds that look takes (element look-ups wait). *)
Record Driver := mkDriver {
  page_at : nat -> Page;
  look_cost : nat -> N;
}.

(** The clock ([time.time()], in seconds), the number of looks taken so
    far and the arguments of the [time.sleep] calls made, oldest first. *)
Record Run := mkRun {
  clock : Z;
  looks : nat;
  sleeps : list Z;
}.

(** One call of [self.is_captcha_present()]: its answer and the state after. *)
Definition look_answer (d : Driver) (r : Run) : bool :=
  is_captcha_present (page_at d (looks r)).

Definition look_after (d : Driver) (r : Run) : Run :=
  mkRun (clock r + Z.of_N (look_cost d (looks r))) (S (looks r)) (sleeps r).

(** [time.sleep(s)]. *)
Definition sleep (s : Z) (r : Run) : Run :=
  mkRun (clock r + s) (looks r) (sleeps r ++ [s]).

(** The [while time.time() - start_time < timeout] loop. *)
Equations? poll (d : Driver) (timeout start_time : Z) (r : Run) : bool * Run
  by wf (Z.to_nat (timeout - (clock r - start_time))) lt :=
poll d timeout start_time r with Z_lt_dec (clock r - start_time) timeout := {
  | left _ with look_answer d r := {
      | false => (true, look_after d r)
      | true => poll d timeout start_time (sleep 2 (look_after d r)) }
  | right _ => (false, r) }.
Proof. unfold sleep, look_after. simpl. lia. Qed.

(** [CaptchaSolver.wait_for_manual_solve(timeout)]. *)
Definition wait_for_manual_solve (d : Driver) (timeout : Z) (r : Run)
    : bool * Run :=
  if negb (look_answer d r) then (true, look_after d r)
  else
    let r := look_after d r in
    let start_time := clock r in
    poll d timeout start_time r.

End Captcha.

Import Captcha.

(** ** tasks/automation_tasks.py : the automation task *)

Module Task.

(** Exceptions the task body can meet: [User.DoesNotExist], which has a
    handler of its own, and any other exception with its [str()]. *)
Inductive exn :=
  | User_DoesNotExist
  | Exception (msg : string).

Inductive outcome (A : Type) :=
  | Returned (a : A)
  | Raised (e : exn).
Arguments Returned {A} a.
Arguments Raised {A} e.

(** What the task does to the outside world, in order. *)
Inductive Event :=
  | StartBrowser
  | ApplyToJob (url cv_path : string)
  | TakeScreenshot (name : string)
  | CloseBrowser.

(** Computations of the task body: a trace of events and a value or an
    exception; an exception skips the rest. *)
Definition M (A : Type) : Type := list Event * outcome A.

Definition ret {A} (a : A) : M A := ([], Returned a).
Definition raise {A} (e : exn) : M A := ([], Raised e).
Definition emit (ev : Event) : M unit := ([ev], Returned tt).
Definition lift {A} (o : outcome A) : M A := ([], o).

Definition bind {A B} (m : M A) (k : A -> M B) : M B :=
  match m with
  | (tr, Returned a) => let '(tr', r) := k a in ((tr ++ tr')%list, r)
  | (tr, Raised e) => (tr, Raised e)
  end.

(** [try: m finally: h], the shape of a [with] block's [__exit__]. *)
Definition finally {A} (m : M A) (h : M unit) : M A :=
  match m with
  | (tr, r) => ((tr ++ fst h)%list, r)
  end.

Notation "'let!' x ':=' m 'in' k" := (bind m (fun x => k))
  (at level 10, x name, m at level 200, k at level 200).

(** The four handler classes of [_get_site_handler]. *)
Inductive HandlerClass :=
  | PNetHandler | Careers24Handler | LinkedInHandler | IndeedHandler.

Definition handlers : gmap string HandlerClass :=
  list_to_map
    [ ("pnet", PNetHandler); ("careers24", Careers24Handler);
      ("linkedin", LinkedInHandler); ("indeed", IndeedHandler) ].

(** A handler instance: its class and the profile data it was built with. *)
Record Handler := mkHandler {
  handler_class : HandlerClass;
  user_data : gmap string string;
}.

(** [_get_site_handler(job_board, user_data)]. *)
Definition _get_site_handler (job_board : string)
    (udata : gmap string string) : option Handler :=
  match handlers !! job_board with
  | Some handler_class => Some (mkHandler handler_class udata)
  | None => None
  end.

(** [documents.Document] rows, in the order the manager returns them.
    [file_path] stands for the [file] column: the path of the stored file,
    empty for a row that has no file associated with it. *)
Record Document := mkDocument {
  doc_id : nat;
  doc_user : nat;
  doc_type : string;
  is_active : bool;
  file_path : string;
}.

(** Everything the task reads from its surroundings.  [profiles] is the
    [UserProfile] table, keyed by its one-to-one [user] column, each row
    as the dictionary [get_profile_data()] makes of it.  The browser and
    the adapter may raise; the database and the file system are taken to
    answer. *)
Record Env := mkEnv {
  env_db : Db;
  users : gset nat;
  profiles : gmap nat (gmap string string);
  documents : list Document;
  now : Z;
  MAX_DAILY_APPLICATIONS : Z;
  start_browser : outcome unit;
  apply_to_job : Handler -> string -> string -> outcome bool;
}.

(** The profile data of a user who has a profile. *)
Definition profile_data (env : Env) (usr : nat) : gmap string string :=
  default ∅ (profiles env !! usr).

(** The [result] dictionary; its four keys are fixed. *)
Record TaskResult := mkResult {
  success : bool;
  result_job_url : string;
  result_job_board : string;
  message : string;
}.

Definition set_message (m : string) (r : TaskResult) : TaskResult :=
  mkResult (success r) (result_job_url r) (result_job_board r) m.

Definition set_success (b : bool) (r : TaskResult) : TaskResult :=
  mkResult b (result_job_url r) (result_job_board r) (message r).

(** [str(n)] for an integer. *)
Definition str_of_Z (n : Z) : string :=
  DecimalString.NilZero.string_of_int (Z.to_int n).

(** [User.objects.get(id=user_id)]. *)
Definition User_objects_get (env : Env) (user_id : nat) : outcome nat :=
  if bool_decide (user_id ∈ users env) then Returned user_id
  else Raised User_DoesNotExist.

(** [UserProfile.objects.get(user=user).get_profile_data()]; a user without
    a profile row makes the look-up raise [UserProfile.DoesNotExist]. *)
Definition UserProfile_objects_get (env : Env) (usr : nat)
    : outcome (gmap string string) :=
  match profiles env !! usr with
  | Some profile => Returned profile
  | None => Raised (Exception "UserProfile matching query does not exist.")
  end.

(** [doc.file.path]: the property raises [ValueError] when the row has no
    file associated with it. *)
Definition FieldFile_path (doc : Document) : outcome string :=
  if nonempty (file_path doc) then Returned (file_path doc)
  else Raised (Exception "The 'file' attribute has no file associated with it.").

(** [Document.objects.get(id=cv_id, user=user, doc_type='cv')]; [None] is
    [Document.DoesNotExist]. *)
Definition Document_get (env : Env) (cv_id usr : nat) : option Document :=
  List.find
    (fun d => Nat.eqb (doc_id d) cv_id && Nat.eqb (doc_user d) usr
              && String.eqb (doc_type d) "cv")
    (documents env).

(** [Document.objects.filter(user=user, doc_type='cv', is_active=True).first()]. *)
Definition active_cv (env : Env) (usr : nat) : option Document :=
  List.find
    (fun d => Nat.eqb (doc_user d) usr && String.eqb (doc_type d) "cv"
              && is_active d)
    (documents env).

(** Truthiness of [cv_id] (an optional integer) and of [cv_path]. *)
Definition truthy_id (cv_id : option nat) : bool :=
  match cv_id with Some (S _) => true | _ => false end.

Definition truthy_path (cv_path : option string) : bool :=
  match cv_path with Some p => nonempty p | None => false end.

(** The [with BrowserManager(headless=True) as browser:] block. *)
Definition run_automation (env : Env) (handler : Handler)
    (job_url cv_path : string) (result : TaskResult) : M TaskResult :=
  let! _ := emit StartBrowser in
  let! _ := lift (start_browser env) in
  finally
    (let! _ := emit (ApplyToJob job_url cv_path) in
     let! ok := lift (apply_to_job env handler job_url cv_path) in
     if ok : bool then
       ret (set_message "Application submitted successfully"
              (set_success true result))
     else
       let result :=
         set_message "Application submission could not be verified" result in
       let! _ := emit (TakeScreenshot "failed_application") in
       ret result)
    (emit CloseBrowser).

(** The body of the [try] block of [apply_to_job_task]. *)
Definition task_body (env : Env) (user_id : nat) (job_url job_board : string)
    (cv_id : option nat) (dry_run : bool) (result : TaskResult)
    : M TaskResult :=
  let! usr := lift (User_objects_get env user_id) in
  let! udata := lift (UserProfile_objects_get env usr) in
  if check_duplicate usr (Url job_url) (env_db env) then
    ret (set_message "Already applied to this job" result)
  else
    let daily_count := get_daily_application_count usr (now env) (env_db env) in
    let max_daily := MAX_DAILY_APPLICATIONS env in
    if (max_daily <=? daily_count)%Z then
      ret (set_message
             ("Daily limit reached (" ++ str_of_Z max_daily ++ " applications)")
             result)
    else
      let cv_path : option string := None in
      let! cv_path :=
        if truthy_id cv_id then
          match Document_get env (default 0 cv_id) usr with
          | Some doc =>
              let! path := lift (FieldFile_path doc) in ret (Some path)
          | None => ret cv_path
          end
        else ret cv_path in
      let! cv_path :=
        if negb (truthy_path cv_path) then
          match active_cv env usr with
          | Some cv =>
              let! path := lift (FieldFile_path cv) in ret (Some path)
          | None => ret cv_path
          end
        else ret cv_path in
      if negb (truthy_path cv_path) then
        ret (set_message "No CV found. Upload a CV first." result)
      else if dry_run then
        ret (set_message "Dry run completed - no application submitted"
               (set_success true result))
      else
        match _get_site_handler job_board udata with
        | None => ret (set_message ("Unsupported job board: " ++ job_board) result)
        | Some handler =>
            run_automation env handler job_url (default "" cv_path) result
        end.

(** The decorator's arguments: [max_retries=3, default_retry_delay=60]. *)
Definition max_retries : nat := 3.
Definition default_retry_delay : Z := 60.

(** How one execution of the task ends: it returns its result dictionary,
    or it raises [self.retry(exc=exc)], which asks the worker to run the
    task again after [countdown] seconds. *)
Inductive TaskEnd :=
  | Done (result : TaskResult)
  | Retry (exc : exn) (countdown : Z).

(** [apply_to_job_task(self, user_id, job_url, job_board, cv_id, dry_run)];
    [retries] is [self.request.retries].  Returns the events, the store as
    the task leaves it, and how the execution ends. *)
Definition apply_to_job_task (env : Env) (retries : nat) (user_id : nat)
    (job_url job_board : string) (cv_id : option nat) (dry_run : bool)
    : list Event * Db * TaskEnd :=
  let result := mkResult false job_url job_board "" in
  match task_body env user_id job_url job_board cv_id dry_run result with
  | (tr, Returned result) => (tr, env_db env, Done result)
  | (tr, Raised User_DoesNotExist) =>
      (tr, env_db env, Done (set_message "User not found" result))
  | (tr, Raised (Exception msg)) =>
      let result := set_message ("Task failed: " ++ msg) result in
      if (retries <? max_retries)%nat then
        (tr, env_db env, Retry (Exception msg) default_retry_delay)
      else (tr, env_db env, Done result)
  end.

(** The worker: it runs the task, and on [Retry] runs it again with
    [request.retries] one higher, as long as that does not exceed
    [max_retries]; past the budget the retry request itself fails with the
    original exception.  [world k] is what the k-th execution finds. *)
Inductive WorkerEnd :=
  | Finished (result : TaskResult)
  | Failed (exc : exn).

Fixpoint worker (budget : nat) (retries : nat) (world : nat -> Env)
    (user_id : nat) (job_url job_board : string) (cv_id : option nat)
    (dry_run : bool) : list Z * WorkerEnd :=
  match apply_to_job_task (world retries) retries user_id job_url job_board
          cv_id dry_run with
  | (_, _, Done result) => ([], Finished result)
  | (_, _, Retry exc countdown) =>
      match budget with
      | O => ([], Failed exc)
      | S budget' =>
          let '(delays, e) :=
            worker budget' (S retries) world user_id job_url job_board
                   cv_id dry_run in
          (countdown :: delays, e)
      end
  end.

(** A task queued with [apply_to_job_task.delay(...)]. *)
Definition delay (world : nat -> Env) (user_id : nat)
    (job_url job_board : string) (cv_id : option nat) (dry_run : bool)
    : list Z * WorkerEnd :=
  worker max_retries 0 world user_id job_url job_board cv_id dry_run.

End Task.

Import Task.

(** ** Auxiliary notions used in the statements *)

(** The entry the [pre_save] receiver writes for an instance with key [k]
    whose stored row is [old_instance]. *)
Definition pre_save_entry (k : nat) (old_instance instance : Application)
    : list ApplicationActivity :=
  if String.eqb (status old_instance) (status instance) then []
  else [mkActivity k "status_change"
          ("Status changed from " ++ status old_instance ++ " to "
             ++ status instance)
          (Some (user instance))].

(** "Along an edge of the table, or no change". *)
Definition follows_table (x y : string) : Prop := x = y \/ spec_edge x y.

(** The invariant "every writer of [status] follows the table". *)
Definition status_writes_follow_table : Prop :=
  forall (a : Application) (new_status : string) (usr : option nat) (u : nat)
         (notes : string) (now : Z) (db : Db),
    follows_table (status a) (status (transition a new_status usr notes db).1.2)
    /\ follows_table (status a)
         (status (update_status a new_status u notes now db).1)
    /\ follows_table (status a) (status (mark_as_applied a now db).1).

(** Sample rows: one job, and the application of user 7 for it, in three
    states of its life. *)
Definition sample_job : Job :=
  mkJob 1 "Software Developer" "https://www.pnet.co.za/jobs/software-developer".

Definition saved_application : Application :=
  mkApplication (Some 1) 7 1 1 "saved" None "manual".

Definition applied_application : Application :=
  mkApplication (Some 1) 7 1 1 "applied" (Some 1700000000%Z) "manual".

Definition rejected_application : Application :=
  mkApplication (Some 1) 7 1 1 "rejected" (Some 1700000000%Z) "manual".

Definition store_with (a : Application) : Db :=
  mkDb {[1 := sample_job]} {[1 := a]} 2 [].

(** The symmetry of the two shapes of [check_duplicate], in two parts: a
    job the user has an application for is a duplicate in both shapes; a
    job the user has no application for is a duplicate in neither. *)
Definition held_job_duplicate_in_both_shapes : Prop :=
  forall (db : Db) (usr i : nat) (a : Application) (j : Job),
    applications db !! i = Some a -> user a = usr ->
    jobs db !! job a = Some j ->
    check_duplicate usr (JobObject (job a)) db = true
    /\ check_duplicate usr (Url (job_url j)) db = true.

Definition other_job_duplicate_in_neither_shape : Prop :=
  forall (db : Db) (usr k' : nat) (j' : Job),
    jobs db !! k' = Some j' ->
    (forall i a, applications db !! i = Some a -> user a = usr -> job a <> k') ->
    check_duplicate usr (JobObject k') db = false
    /\ check_duplicate usr (Url (job_url j')) db = false.

(** A job saved without a URL (the column is [blank=True]) and the
    application of user 7 for it. *)
Definition job_without_url : Job := mkJob 1 "Software Developer" "".

Definition store_without_url : Db :=
  mkDb {[1 := job_without_url]} {[1 := saved_application]} 2 [].

(** Two job rows with the same URL, and an application for the first. *)
Definition store_two_jobs : Db :=
  mkDb {[1 := sample_job; 2 := sample_job]} {[1 := saved_application]} 2 [].

(** A page with a visible reCAPTCHA widget, and a browser on which the
    widget is gone from the fourth look on; each look takes one second. *)
Definition captcha_page : Page := {[ ".g-recaptcha" := true ]}.

Definition solved_after_three : Driver :=
  mkDriver (fun n => if (n <? 3)%nat then captcha_page else ∅) (fun _ => 1%N).

(** The CV document whose file the task reads: the one named by [cv_id]
    when the user owns such a CV, else the user's active CV. *)
Definition chosen_cv (env : Env) (cv_id : option nat) (usr : nat)
    : option Document :=
  let named :=
    if truthy_id cv_id then Document_get env (default 0 cv_id) usr else None in
  match named with
  | Some doc => Some doc
  | None => active_cv env usr
  end.

(** The [cv_path] the task has after its two look-ups; reading the path of
    a document without a file raises. *)
Definition resolved_cv_path (env : Env) (cv_id : option nat) (usr : nat)
    : outcome (option string) :=
  match chosen_cv env cv_id usr with
  | Some doc =>
      match FieldFile_path doc with
      | Returned path => Returned (Some path)
      | Raised e => Raised e
      end
  | None => Returned None
  end.

(** The ways the task body ends before it asks for a browser. *)
Inductive early_end (env : Env) (user_id : nat) (job_url job_board : string)
    (cv_id : option nat) (dry_run : bool) (result : TaskResult)
    : outcome TaskResult -> Prop :=
  | end_user_not_found :
      user_id ∉ users env ->
      early_end env user_id job_url job_board cv_id dry_run result
        (Raised User_DoesNotExist)
  | end_no_profile :
      profiles env !! user_id = None ->
      early_end env user_id job_url job_board cv_id dry_run result
        (Raised (Exception "UserProfile matching query does not exist."))
  | end_duplicate :
      check_duplicate user_id (Url job_url) (env_db env) = true ->
      early_end env user_id job_url job_board cv_id dry_run result
        (Returned (set_message "Already applied to this job" result))
  | end_daily_limit :
      (MAX_DAILY_APPLICATIONS env
         <= get_daily_application_count user_id (now env) (env_db env))%Z ->
      early_end env user_id job_url job_board cv_id dry_run result
        (Returned
           (set_message
              ("Daily limit reached ("
                 ++ str_of_Z (MAX_DAILY_APPLICATIONS env) ++ " applications)")
              result))
  | end_cv_without_file (doc : Document) :
      chosen_cv env cv_id user_id = Some doc ->
      file_path doc = "" ->
      early_end env user_id job_url job_board cv_id dry_run result
        (Raised
           (Exception "The 'file' attribute has no file associated with it."))
  | end_no_cv :
      early_end env user_id job_url job_board cv_id dry_run result
        (Returned (set_message "No CV found. Upload a CV first." result))
  | end_dry_run :
      dry_run = true ->
      early_end env user_id job_url job_board cv_id dry_run result
        (Returned
           (set_message "Dry run completed - no application submitted"
              (set_success true result)))
  | end_unsupported_board :
      handlers !! job_board = None ->
      early_end env user_id job_url job_board cv_id dry_run result
        (Returned
           (set_message ("Unsupported job board: " ++ job_board) result)).

(** "When the adapter reports success the application is recorded":
    the store the task leaves holds an application of the user in state
    [applied] with its date set, and one more activity than before. *)
Definition adapter_success_marks_applied : Prop :=
  forall (env : Env) (retries user_id : nat) (job_url job_board : string)
         (cv_id : option nat) (dry_run : bool) (tr : list Event) (db' : Db)
         (e : TaskEnd) (cv_path : string),
    apply_to_job_task env retries user_id job_url job_board cv_id dry_run
      = (tr, db', e) ->
    In (ApplyToJob job_url cv_path) tr ->
    (forall h, apply_to_job env h job_url cv_path = Returned true) ->
    (exists r, e = Done r /\ success r = true)
    /\ (exists i a, applications db' !! i = Some a /\ user a = user_id
                    /\ status a = "applied" /\ is_Some (applied_date a))
    /\ length (activities db') = S (length (activities (env_db env))).

(** Surroundings for sample runs: user 7 with an active CV, a store, the
    daily maximum, and what the browser and the adapter will answer. *)
Definition sample_profile : gmap string string :=
  {[ "full_name" := "Thandi Nkosi"; "email" := "thandi@example.com" ]}.

Definition sample_documents : list Document :=
  [ mkDocument 1 7 "cv" true "/media/documents/7/cv.pdf" ].

Definition sample_env (db : Db) (max_daily : Z) (browser : outcome unit)
    (adapter : outcome bool) : Env :=
  mkEnv db {[7]} {[7 := sample_profile]} sample_documents 1700000000
        max_daily browser (fun _ _ _ => adapter).

Definition empty_store : Db := mkDb ∅ ∅ 1 [].

Definition automated_application : Application :=
  mkApplication (Some 1) 7 1 1 "applied" (Some 1700000000%Z) "automated".

Definition other_url : string := "https://www.pnet.co.za/jobs/data-engineer".

(** A worker on which the browser never starts. *)
Definition broken_browser_env : Env :=
  sample_env empty_store 10 (Raised (Exception "chrome not reachable"))
             (Returned true).

(** ** forms.py : the form's own copy of the table *)

Module Forms.

(** The local [valid_transitions] of [ApplicationForm._is_valid_transition]. *)
Definition valid_transitions : gmap string (list string) :=
  list_to_map
    [ ("saved", ["applied"; "withdrawn"]);
      ("applied", ["screening"; "interview_scheduled"; "rejected"; "withdrawn"]);
      ("screening", ["interview_scheduled"; "rejected"; "withdrawn"]);
      ("interview_scheduled", ["interviewed"; "rejected"; "withdrawn"]);
      ("interviewed", ["offer"; "rejected"; "withdrawn"]);
      ("offer", ["accepted"; "rejected"; "withdrawn"]);
      ("rejected", []);
      ("accepted", ["withdrawn"]);
      ("withdrawn", []) ].

(** [ApplicationForm._is_valid_transition]. *)
Definition _is_valid_transition (old_status new_status : string) : bool :=
  let allowed := default [] (valid_transitions !! old_status) in
  str_in new_status allowed || String.eqb old_status new_status.

(** How [ApplicationForm.clean] ends: it returns [cleaned_data], raises
    [ValidationError], or the look-up of the stored row raises
    [Application.DoesNotExist]. *)
Inductive CleanEnd :=
  | Cleaned (cleaned_data : gmap string string)
  | ValidationError (msg : string)
  | DoesNotExist.

(** Truthiness of [self.instance.pk] and of [cleaned_data.get('status')]. *)
Definition truthy_pk (k : option nat) : bool :=
  match k with Some (S _) => true | _ => false end.

Definition truthy_str (s : option string) : bool :=
  match s with Some s => nonempty s | None => false end.

(** [ApplicationForm.clean]; [cleaned_data] is what [super().clean()]
    returned. *)
Definition clean (instance : Application) (cleaned_data : gmap string string)
    (db : Db) : CleanEnd :=
  let status_ := cleaned_data !! "status" in
  if truthy_pk (pk instance) && truthy_str status_ then
    match applications db !! default 0 (pk instance) with
    | None => DoesNotExist
    | Some row =>
        let old_status := status row in
        if negb (_is_valid_transition old_status (default "" status_)) then
          ValidationError
            ("Cannot change status from " ++ old_status ++ " to "
               ++ default "" status_ ++ ".")
        else Cleaned cleaned_data
    end
  else Cleaned cleaned_data.

End Forms.

(** ** Sequences of calls on one application *)

(** A caller's request to one of the two services that move the status. *)
Inductive StatusCall :=
  | ViaTransition (new_status : string) (usr : option nat) (notes : string)
  | ViaUpdateStatus (new_status : string) (usr : nat) (notes : string)
      (now : Z).

Definition run_call (c : StatusCall) (a : Application) (db : Db)
    : Application * Db :=
  match c with
  | ViaTransition new_status usr notes =>
      let '(_, a', db') := transition a new_status usr notes db in (a', db')
  | ViaUpdateStatus new_status usr notes now =>
      update_status a new_status usr notes now db
  end.

(** The calls are made one after the other on the instance the caller
    holds, each on the store the previous one left. *)
Fixpoint run_calls (cs : list StatusCall) (a : Application) (db : Db)
    : Application * Db :=
  match cs with
  | [] => (a, db)
  | c :: rest => let '(a', db') := run_call c a db in run_calls rest a' db'
  end.

Definition is_transition_call (c : StatusCall) : bool :=
  match c with ViaTransition _ _ _ => true | ViaUpdateStatus _ _ _ _ => false end.

(** The statuses in the order of an application's life; [rank] is the
    position in it (9 for any other string). *)
Definition lifecycle : list string :=
  [ "saved"; "applied"; "screening"; "interview_scheduled"; "interviewed";
    "offer"; "accepted"; "rejected"; "withdrawn" ].

Fixpoint index_of (s : string) (l : list string) : nat :=
  match l with
  | [] => 0
  | x :: rest => if String.eqb s x then 0 else S (index_of s rest)
  end.

Definition rank (s : string) : nat := index_of s lifecycle.

(** The test [get_daily_application_count] applies to a row. *)
Definition counts_for (usr : nat) (now : Z) (a : Application) : bool :=
  Nat.eqb (user a) usr
  && match applied_date a with
     | Some t => Z.eqb (date_in_time_zone t) (date now)
     | None => false
     end
  && String.eqb (application_method a) "automated".

(** The store with one row of the application table written. *)
Definition with_row (k : nat) (a : Application) (db : Db) : Db :=
  mkDb (jobs db) (<[k := a]> (applications db)) (next_pk db) (activities db).

(** An application made by the automation, not yet dated. *)
Definition undated_automated_application : Application :=
  mkApplication (Some 1) 7 1 1 "saved" None "automated".

(** ** status_tracker.py : the dashboard summary *)

Module Summary.

(** The argument of [get_status_summary]: a [User] or a queryset of
    applications. *)
Inductive UserOrQueryset :=
  | AUser (u : nat)
  | AQueryset (qs : list Application).

(** The [applications] the function counts in. *)
Definition summary_applications (arg : UserOrQueryset) (db : Db)
    : list Application :=
  match arg with
  | AUser u => List.filter (fun a => Nat.eqb (user a) u) (rows db)
  | AQueryset qs => qs
  end.

(** [applications.filter(status=status).count()]. *)
Definition count_status (apps : list Application) (s : string) : nat :=
  length (List.filter (fun a => String.eqb (status a) s) apps).

(** [StatusTracker.get_status_summary]: the dictionary filled in the order
    of [STATUS_CHOICES]. *)
Definition get_status_summary (arg : UserOrQueryset) (db : Db)
    : gmap string nat :=
  let apps := summary_applications arg db in
  foldl (fun summary s => <[s := count_status apps s]> summary) ∅
        STATUS_CHOICES.

End Summary.

(** ** application_manager.py : [create_application] *)

Module Manager.

(** [Company], the columns [create_application] writes. *)
Record Company := mkCompany {
  company_name : string;
  industry : string;
  company_location : string;
  website : string;
}.

(** The columns of [Job] and [Application] that [create_application]
    writes and that the rows of [Models] do not carry; they are kept under
    the same keys. *)
Record JobDetails := mkJobDetails {
  job_description : string;
  requirements : string;
  salary_range : string;
  job_location : string;
  work_type : string;
  source_platform : string;
}.

Record ApplicationDetails := mkApplicationDetails {
  priority : string;
  notes : string;
}.

(** The store with the company table and the two sequences
    [create_application] draws keys from. *)
Record Store := mkStore {
  store_db : Db;
  companies : gmap nat Company;
  next_company_pk : nat;
  next_job_pk : nat;
  job_details : gmap nat JobDetails;
  application_details : gmap nat ApplicationDetails;
}.

(** What can go wrong: a missing dictionary key, or more than one company
    with the name asked for. *)
Inductive CreateError :=
  | KeyError (key : string)
  | MultipleObjectsReturned.

(** [d.get(key, dflt)]. *)
Definition dict_get (d : gmap string string) (key dflt : string) : string :=
  default dflt (d !! key).

(** The companies [Company.objects.get(name=name)] finds, with their keys. *)
Definition companies_named (name : string) (st : Store)
    : list (nat * Company) :=
  List.filter (fun kc => String.eqb (company_name kc.2) name)
              (map_to_list (companies st)).

(** [Company.objects.get_or_create(name=..., defaults={...})]: the key of
    the company and the store after. *)
Definition get_or_create_company (name : string)
    (company_data : gmap string string) (st : Store)
    : Store * (CreateError + nat) :=
  match companies_named name st with
  | [] =>
      let k := next_company_pk st in
      let c := mkCompany name (dict_get company_data "industry" "")
                 (dict_get company_data "location" "")
                 (dict_get company_data "website" "") in
      (mkStore (store_db st) (<[k := c]> (companies st)) (S k)
               (next_job_pk st) (job_details st) (application_details st),
       inr k)
  | [(k, _)] => (st, inr k)
  | _ => (st, inl MultipleObjectsReturned)
  end.

(** [Job.objects.create(...)]. *)
Definition create_job (company_k : nat) (title : string)
    (job_data : gmap string string) (st : Store) : Store * nat :=
  let k := next_job_pk st in
  let db := store_db st in
  let row := mkJob company_k title (dict_get job_data "job_url" "") in
  let details :=
    mkJobDetails (dict_get job_data "description" "")
      (dict_get job_data "requirements" "")
      (dict_get job_data "salary_range" "")
      (dict_get job_data "location" "")
      (dict_get job_data "work_type" "onsite")
      (dict_get job_data "source_platform" "other") in
  (mkStore (mkDb (<[k := row]> (jobs db)) (applications db) (next_pk db)
                 (activities db))
           (companies st) (next_company_pk st) (S k)
           (<[k := details]> (job_details st)) (application_details st),
   k).

(** [Application.objects.create(...)]: a new instance, saved. *)
Definition create_application_row (usr job_k company_k : nat)
    (app_defaults : gmap string string) (st : Store) : Store * Application :=
  let instance :=
    mkApplication None usr job_k company_k
      (dict_get app_defaults "status" "saved") None
      (dict_get app_defaults "application_method" "manual") in
  let '(k, instance, db) := save instance (store_db st) in
  let details :=
    mkApplicationDetails (dict_get app_defaults "priority" "medium")
      (dict_get app_defaults "notes" "") in
  (mkStore db (companies st) (next_company_pk st) (next_job_pk st)
           (job_details st) (<[k := details]> (application_details st)),
   instance).

(** The body of [create_application], without the transaction. *)
Definition create_application_body (usr : nat)
    (job_data company_data : gmap string string)
    (application_data : option (gmap string string)) (st : Store)
    : Store * (CreateError + Application) :=
  match company_data !! "name" with
  | None => (st, inl (KeyError "name"))
  | Some name =>
      match get_or_create_company name company_data st with
      | (st, inl e) => (st, inl e)
      | (st, inr company_k) =>
          match job_data !! "title" with
          | None => (st, inl (KeyError "title"))
          | Some title =>
              let '(st, job_k) := create_job company_k title job_data st in
              let app_defaults := default ∅ application_data in
              let '(st, application) :=
                create_application_row usr job_k company_k app_defaults st in
              (st, inr application)
          end
      end
  end.

(** [@transaction.atomic]: an exception undoes what the body wrote. *)
Definition atomic {E A} (body : Store -> Store * (E + A)) (st : Store)
    : Store * (E + A) :=
  match body st with
  | (_, inl e) => (st, inl e)
  | (st', inr a) => (st', inr a)
  end.

(** [ApplicationManager.create_application]. *)
Definition create_application (usr : nat)
    (job_data company_data : gmap string string)
    (application_data : option (gmap string string)) (st : Store)
    : Store * (CreateError + Application) :=
  atomic (create_application_body usr job_data company_data application_data)
         st.

End Manager.

(** Sample data for [create_application]: an empty store and a request. *)
Definition empty_manager_store : Manager.Store :=
  Manager.mkStore empty_store ∅ 1 1 ∅ ∅.

Definition sample_job_data : gmap string string :=
  {[ "title" := "Software Developer";
     "job_url" := "https://www.pnet.co.za/jobs/software-developer" ]}.

Definition sample_company_data : gmap string string :=
  {[ "name" := "FNB"; "industry" := "Banking" ]}.

(** A second user's CV, next to the sample documents of user 7. *)
Definition two_users_documents : list Document :=
  [ mkDocument 5 8 "cv" true "/media/documents/8/cv.pdf";
    mkDocument 1 7 "cv" true "/media/documents/7/cv.pdf" ].

(** ** tasks/automation_tasks.py : the search sweep and the clean-up *)

Module Sweep.

(** [AutomationRule], the columns the sweep reads. *)
Record AutomationRule := mkRule {
  rule_id : nat;
  rule_user : nat;
  rule_job_board : string;
  search_keywords : string;
  location_filter : string;
  apply_automatically : bool;
  max_applications_per_day : Z;
  rule_is_active : bool;
}.

(** One search hit, a dictionary; a value [None] is Python's [None] (an
    element without the attribute asked for). *)
Definition Hit : Type := gmap string (option string).

(** What the sweep reads: the store, the profiles, the rules in the order
    of the queryset, and for each rule what the browser and the handler's
    [search_jobs] will do. *)
Record SweepEnv := mkSweepEnv {
  sweep_db : Db;
  sweep_profile : nat -> gmap string string;
  rules : list AutomationRule;
  sweep_start_browser : AutomationRule -> outcome unit;
  search_jobs : AutomationRule -> Handler -> outcome (list Hit);
}.

(** An element of [results]. *)
Inductive Entry :=
  | FoundEntry (rule : nat) (job_board keywords : string) (jobs_found : nat)
  | ErrorEntry (rule : nat) (error : string).


(** A task put on the queue by [apply_to_job_task.delay(...)]. *)
Record Queued := mkQueued {
  queued_user_id : nat;
  queued_job_url : option string;
  queued_job_board : string;
}.

(** [str(e)]. *)
Definition exn_str (e : exn) : string :=
  match e with
  | User_DoesNotExist => "User matching query does not exist."
  | Exception msg => msg
  end.

(** [l[:n]]: a negative [n] counts from the end. *)
Definition slice_to {A} (n : Z) (l : list A) : list A :=
  if (0 <=? n)%Z then take (Z.to_nat n) l
  else take (length l - Z.to_nat (- n)) l.

(** [job.get('url', '')]. *)
Definition hit_url_or_empty (job : Hit) : option string :=
  match job !! "url" with
  | Some v => v
  | None => Some ""
  end.

(** [manager.check_duplicate(user, v)] for such a value: a string goes the
    URL way; [None] goes the [Job] way, where [filter(job=None)] finds no
    row since an application always has a job. *)
Definition check_duplicate_value (usr : nat) (v : option string) (db : Db)
    : bool :=
  match v with
  | Some s => check_duplicate usr (Url s) db
  | None => false
  end.

(** The loop over the hits of one rule: the tasks queued, and the
    [KeyError] that ends the loop when [job['url']] has no key. *)
Fixpoint queue_hits (usr : nat) (board : string) (db : Db) (hits : list Hit)
    : list Queued * option string :=
  match hits with
  | [] => ([], None)
  | job :: rest =>
      if negb (check_duplicate_value usr (hit_url_or_empty job) db) then
        match job !! "url" with
        | None => ([], Some "'url'")
        | Some v =>
            let '(queued, err) := queue_hits usr board db rest in
            (mkQueued usr v board :: queued, err)
        end
      else queue_hits usr board db rest
  end.

(** The body of the loop for one rule: what it appends to [results] and
    what it queues. *)
Definition run_rule (env : SweepEnv) (rule : AutomationRule)
    : list Entry * list Queued :=
  let udata := sweep_profile env (rule_user rule) in
  match _get_site_handler (rule_job_board rule) udata with
  | None => ([], [])
  | Some handler =>
      match sweep_start_browser env rule with
      | Raised e => ([ErrorEntry (rule_id rule) (exn_str e)], [])
      | Returned _ =>
          match search_jobs env rule handler with
          | Raised e => ([ErrorEntry (rule_id rule) (exn_str e)], [])
          | Returned jobs_found =>
              let entry :=
                FoundEntry (rule_id rule) (rule_job_board rule)
                  (search_keywords rule) (length jobs_found) in
              if apply_automatically rule
                 && match jobs_found with [] => false | _ => true end
              then
                let daily_limit := max_applications_per_day rule in
                match queue_hits (rule_user rule) (rule_job_board rule)
                        (sweep_db env) (slice_to daily_limit jobs_found) with
                | (queued, None) => ([entry], queued)
                | (queued, Some msg) =>
                    ([entry; ErrorEntry (rule_id rule) msg], queued)
                end
              else ([entry], [])
          end
      end
  end.

(** The rules the sweep goes through. *)
Definition active_rules (env : SweepEnv) : list AutomationRule :=
  List.filter rule_is_active (rules env).

(** [run_automated_searches]: [rules_processed], [results], and the queue. *)
Definition run_automated_searches (env : SweepEnv)
    : nat * list Entry * list Queued :=
  let results := concat (map (fun r => (run_rule env r).1) (active_rules env)) in
  let queued := concat (map (fun r => (run_rule env r).2) (active_rules env)) in
  (length results, results, queued).

(** An entry of the screenshot directory. *)
Record DirEntry := mkDirEntry {
  entry_name : string;
  is_file : bool;
  mtime : Z;
}.

(** The loop of [cleanup_old_screenshots] over the listing: what is left
    and how many files were removed. *)
Fixpoint remove_old (cutoff : Z) (listing : list DirEntry)
    : list DirEntry * nat :=
  match listing with
  | [] => ([], 0%nat)
  | e :: rest =>
      let '(kept, deleted_count) := remove_old cutoff rest in
      if is_file e then
        if (mtime e <? cutoff)%Z then (kept, S deleted_count)
        else (e :: kept, deleted_count)
      else (e :: kept, deleted_count)
  end.

(** [cleanup_old_screenshots] at time [now]; the directory is [None] when
    it does not exist.  Returns the directory after and [deleted]. *)
Definition cleanup_old_screenshots (dir : option (list DirEntry)) (now : Z)
    : option (list DirEntry) * nat :=
  match dir with
  | None => (None, 0%nat)
  | Some listing =>
      let cutoff := (now - 7 * 86400)%Z in
      let '(kept, deleted_count) := remove_old cutoff listing in
      (Some kept, deleted_count)
  end.

End Sweep.

(** ** captcha_solver.py : the kind of CAPTCHA *)

Module CaptchaType.

(** [driver.find_elements(By.CSS_SELECTOR, "a, b")] is not empty: some
    element matches one of the selectors of the group. *)
Definition found_any (page : Page) (group : list string) : bool :=
  existsb (fun selector => match page !! selector with
                           | Some _ => true
                           | None => false
                           end) group.

(** [CaptchaSolver.get_captcha_type]; [None] for the page stands for a
    driver whose look-ups raise, which the function swallows. *)
Definition get_captcha_type (page : option Page) : option string :=
  match page with
  | None => None
  | Some page =>
      if found_any page
           [ ".g-recaptcha";
             "iframe[src*=" ++ dquote ++ "recaptcha" ++ dquote ++ "]" ]
      then Some "recaptcha"
      else if found_any page
                [ ".h-captcha";
                  "iframe[src*=" ++ dquote ++ "hcaptcha" ++ dquote ++ "]" ]
      then Some "hcaptcha"
      else if found_any page [ "#captcha" ] then Some "custom"
      else None
  end.

End CaptchaType.

(** Sample rules and hits for the sweep: a banking rule of user 7 on PNet
    that applies automatically, and three hits, the second without a URL. *)
Definition sample_rule (limit : Z) : Sweep.AutomationRule :=
  Sweep.mkRule 3 7 "pnet" "python developer" "Johannesburg" true limit true.

Definition hit_with_url (url : string) : Sweep.Hit :=
  {[ "title" := Some "Developer"; "url" := Some url ]}.

Definition hit_without_url : Sweep.Hit := {[ "title" := Some "Developer" ]}.

Definition sample_sweep_env (rule : Sweep.AutomationRule)
    (hits : list Sweep.Hit) : Sweep.SweepEnv :=
  Sweep.mkSweepEnv (store_with applied_application) (fun _ => sample_profile)
    [rule] (fun _ => Returned tt) (fun _ _ => Returned hits).

(** ** api/views.py : the status endpoint *)

Module Api.

(** The three answers of [ApplicationViewSet.update_status]: the
    serialised application, an error, or "not found"; the [400] of the
    serializer carries the framework's field errors. *)
Inductive Response :=
  | Http200 (application : Application)
  | Http400 (error : string)
  | Http400Invalid
  | Http404.

(** [self.get_object()]: the queryset holds the requesting user's
    applications only. *)
Definition get_object (request_user pk_ : nat) (db : Db) : option Application :=
  match applications db !! pk_ with
  | Some row =>
      if Nat.eqb (user row) request_user then Some (set_pk (Some pk_) row)
      else None
  | None => None
  end.

(** [StatusUpdateSerializer]: [status] is a required choice among
    [STATUS_CHOICES]; [notes] is optional, trimmed, [''] by default. *)
Definition validate_status_update (data : gmap string string)
    : option (string * string) :=
  match data !! "status" with
  | Some s =>
      if str_in s STATUS_CHOICES then Some (s, strip (default "" (data !! "notes")))
      else None
  | None => None
  end.

(** [ApplicationViewSet.update_status(request, pk)]. *)
Definition update_status (request_user pk_ : nat) (data : gmap string string)
    (db : Db) : Response * Db :=
  match get_object request_user pk_ db with
  | None => (Http404, db)
  | Some application =>
      match validate_status_update data with
      | None => (Http400Invalid, db)
      | Some (new_status, notes) =>
          let '(success, application, db) :=
            transition application new_status (Some request_user) notes db in
          if success then (Http200 application, db)
          else
            (Http400 ("Cannot transition from " ++ status application
                        ++ " to " ++ new_status),
             db)
      end
  end.

End Api.

(** ** Notions for the guards, the retries and the wait *)

(** The user holds an application for a job advertised at [url]. *)
Definition holds_application_at (db : Db) (usr : nat) (url : string) : Prop :=
  exists i a j,
    applications db !! i = Some a /\ user a = usr
    /\ jobs db !! job a = Some j /\ job_url j = url.

(** The second of the day, in UTC, from which Johannesburg is already on
    the next calendar day: 22:00. *)
Definition next_day_in_time_zone : Z := (86400 - TIME_ZONE_offset)%Z.

(** An automated application made at 19:26 UTC on the day on which the
    sample runs take place (they take place at 22:13 UTC). *)
Definition evening_application : Application :=
  mkApplication (Some 1) 7 1 1 "applied" (Some 1699990000%Z) "automated".

(** A worker whose user has one CV on record, active, with no file. *)
Definition cv_without_file_env : Env :=
  mkEnv empty_store {[7]} {[7 := sample_profile]}
        [mkDocument 1 7 "cv" true ""] 1700000000 10 (Returned tt)
        (fun _ _ _ => Returned true).

(** "The task retries only on exceptions escaping the automation step":
    an execution that asks for a retry has started a browser. *)
Definition retries_only_from_automation_step : Prop :=
  forall (env : Env) (retries user_id : nat) (job_url job_board : string)
         (cv_id : option nat) (dry_run : bool) (tr : list Event) (db' : Db)
         (exc : exn) (countdown : Z),
    apply_to_job_task env retries user_id job_url job_board cv_id dry_run
      = (tr, db', Retry exc countdown) ->
    In StartBrowser tr.

(** Seconds between [start_time] and the [j]-th test of the loop condition
    of [wait_for_manual_solve] (the first test is number 0) when every turn
    before it has slept: each turn takes one look, the look number
    [first + i] of the run, and two seconds of sleep. *)
Fixpoint elapsed (d : Driver) (first j : nat) : Z :=
  match j with
  | O => 0%Z
  | S i => (elapsed d first i + Z.of_N (look_cost d (first + i)) + 2)%Z
  end.

(** * Properties *)

Lemma str_in_In (x : string) (l : list string) : str_in x l = true <-> In x l.
Proof.
  unfold str_in. rewrite existsb_exists. split.
  - intros (y & Hy & He). apply String.eqb_eq in He. now subst.
  - intros H. exists x. split; [assumption | apply String.eqb_refl].
Qed.

Lemma spec_edgeb_iff (o n : string) : spec_edgeb o n = true <-> spec_edge o n.
Proof.
  unfold spec_edgeb, spec_edge. rewrite existsb_exists. split.
  - intros ([a b] & Hin & He). simpl in He.
    apply andb_true_iff in He as [Ha Hb].
    apply String.eqb_eq in Ha, Hb. now subst.

  - intros H. exists (o, n). split; [assumption |].
    simpl. now rewrite !String.eqb_refl.
Qed.

Example ivt_saved_offer : is_valid_transition "saved" "offer" = false.
Proof. vm_compute. reflexivity. Qed.


(** ** The transition table *)

Section Table.

(** The dictionary and the design document's edge list describe the same
    relation, on all strings. *)
Lemma table_agrees (o n : string) :
  str_in n (get_available_transitions o) = spec_edgeb o n.
Proof.
  unfold get_available_transitions, VALID_TRANSITIONS.
  cbn [list_to_map foldr fst snd].
  repeat match goal with
  | |- context [ lookup o (insert ?k _ _) ] =>
      let Hne := fresh "Hne" in
      destruct (decide (k = o)) as [<- | Hne];
      [ rewrite lookup_insert_eq; clear;
        unfold str_in, spec_edgeb, spec_edges; cbn; reflexivity
      | rewrite lookup_insert_ne by exact Hne;
        apply String.eqb_neq in Hne ]
  end.
  rewrite lookup_empty. unfold spec_edgeb, spec_edges. cbn [existsb fst snd default str_in].
  repeat match goal with H : (_ =? o)%string = false |- _ => rewrite H; clear H end.
  reflexivity.
Qed.

Lemma is_valid_transition_eq (o n : string) :
  is_valid_transition o n = String.eqb o n || spec_edgeb o n.
Proof.
  unfold is_valid_transition.
  destruct (String.eqb o n); [reflexivity |].
  apply table_agrees.
Qed.

Lemma is_valid_transition_iff (o n : string) :
  is_valid_transition o n = true <-> o = n \/ spec_edge o n.
Proof.
  rewrite is_valid_transition_eq, orb_true_iff, String.eqb_eq, spec_edgeb_iff.
  reflexivity.
Qed.

(** [rejected] and [withdrawn] are the source of no edge. *)
Lemma no_edge_from_final (o n : string) :
  spec_edge o n -> o <> "rejected" /\ o <> "withdrawn".
Proof.
  unfold spec_edge, spec_edges. cbn [In].
  intros H.
  repeat (destruct H as [H | H];
          [ injection H as <- _; split; discriminate | ]).
  contradiction.
Qed.

End Table.

(** C5.  For every pair of statuses drawn from the nine of
    [STATUS_CHOICES], [is_valid_transition] answers true exactly when the
    pair is an edge of the table of section 4.1 or the two statuses are
    equal; every identity pair is valid, and from [rejected] and from
    [withdrawn] the only valid target is the status itself. *)
Theorem is_valid_transition_matches_table (old_status new_status : string) :
  In old_status STATUS_CHOICES ->
  In new_status STATUS_CHOICES ->
  (is_valid_transition old_status new_status = true
     <-> spec_edge old_status new_status \/ old_status = new_status)
  /\ is_valid_transition old_status old_status = true
  /\ (is_valid_transition "rejected" new_status = true
        -> new_status = "rejected")
  /\ (is_valid_transition "withdrawn" new_status = true
        -> new_status = "withdrawn").
Proof.
  intros _ _. repeat split.
  - intros H. apply is_valid_transition_iff in H. tauto.
  - intros H. apply is_valid_transition_iff. tauto.
  - unfold is_valid_transition. now rewrite String.eqb_refl.
  - intros H. apply is_valid_transition_iff in H as [H | H]; [now symmetry |].
    exfalso. apply no_edge_from_final in H. tauto.
  - intros H. apply is_valid_transition_iff in H as [H | H]; [now symmetry |].
    exfalso. apply no_edge_from_final in H. tauto.
Qed.

Lemma is_valid_transition_matches_table_witness :
  In "saved" STATUS_CHOICES /\ In "applied" STATUS_CHOICES
  /\ (is_valid_transition "saved" "applied" = true
        <-> spec_edge "saved" "applied" \/ "saved" = "applied")
  /\ is_valid_transition "saved" "saved" = true
  /\ (is_valid_transition "rejected" "applied" = true -> "applied" = "rejected")
  /\ (is_valid_transition "withdrawn" "applied" = true -> "applied" = "withdrawn").
Proof.
  split; [cbn; auto 12 |]. split; [cbn; auto 12 |].
  apply (is_valid_transition_matches_table "saved" "applied"); cbn; auto 12.
Defined.

(** ** [save()] and its receivers *)

Section Save.

Lemma create_activity_applications act db :
  applications (create_activity act db) = applications db.
Proof. reflexivity. Qed.

Lemma log_status_change_applications instance db :
  applications (log_status_change instance db) = applications db.
Proof.
  unfold log_status_change.
  destruct (pk instance) as [[| k] |]; try reflexivity.
  destruct (applications db !! S k) as [old |]; [| reflexivity].
  destruct (negb _); reflexivity.
Qed.

Lemma log_application_created_applications k instance created db :
  applications (log_application_created k instance created db) = applications db.
Proof. destruct created; reflexivity. Qed.

Lemma log_status_change_activities instance db :
  activities (log_status_change instance db) =
  app (activities db)
    match pk instance with
    | None | Some O => []
    | Some k =>
        match applications db !! k with
        | Some old_instance => pre_save_entry k old_instance instance
        | None => []
        end
    end.
Proof.
  unfold log_status_change, pre_save_entry.
  destruct (pk instance) as [[| k] |]; try now rewrite app_nil_r.
  destruct (applications db !! S k) as [old |]; [| now rewrite app_nil_r].
  destruct (String.eqb (status old) (status instance)); cbn;
    [now rewrite app_nil_r | reflexivity].
Qed.

(** The instance comes back with its key, unchanged otherwise, and is the
    stored row under that key. *)
Lemma save_row instance db :
  let '(k, instance', db') := save instance db in
  instance' = set_pk (Some k) instance
  /\ applications db' !! k = Some instance'
  /\ (forall i, i <> k -> applications db' !! i = applications db !! i).
Proof.
  unfold save. destruct (pk instance) as [k |] eqn:Hpk.
  - rewrite log_application_created_applications. cbn [applications].
    rewrite log_status_change_applications.
    split; [| split].
    + destruct instance; cbn in *; now subst.
    + apply lookup_insert_eq.
    + intros i Hi. now apply lookup_insert_ne.
  - rewrite log_application_created_applications. cbn [applications].
    rewrite log_status_change_applications.
    split; [| split].
    + unfold log_status_change. now rewrite Hpk.
    + unfold log_status_change. rewrite Hpk. apply lookup_insert_eq.
    + intros i Hi. unfold log_status_change in *. rewrite Hpk in *.
      now apply lookup_insert_ne.
Qed.

(** Saving an instance whose row is stored: the log grows by the entry of
    the [pre_save] receiver when the status differs from the stored one,
    and by nothing otherwise. *)
Lemma save_stored_activities instance db k old_instance :
  pk instance = Some k ->
  k <> 0%nat ->
  applications db !! k = Some old_instance ->
  activities (save instance db).2 =
  app (activities db) (pre_save_entry k old_instance instance).
Proof.
  intros Hpk Hk Hrow. unfold save. rewrite Hpk. cbn [snd].
  rewrite log_status_change_applications.
  rewrite bool_decide_eq_false_2 by (rewrite Hrow; discriminate).
  cbn [log_application_created activities].
  rewrite log_status_change_activities, Hpk.
  destruct k as [| k]; [contradiction |]. rewrite Hrow. reflexivity.
Qed.

End Save.

(** ** The writers of [status] *)

Section Writers.

Lemma transition_rejected application new_status usr notes db :
  is_valid_transition (status application) new_status = false ->
  transition application new_status usr notes db = (false, application, db).
Proof. intros H. unfold transition. now rewrite H. Qed.

Lemma transition_accepted application new_status usr notes db :
  is_valid_transition (status application) new_status = true ->
  exists k a' db',
    save (set_status new_status application) db = (k, a', db')
    /\ transition application new_status usr notes db =
       (true, a',
        create_activity
          (mkActivity k "status_change"
             (if nonempty notes
              then ("Status changed from " ++ status application ++ " to "
                      ++ new_status) ++ ". Notes: " ++ notes
              else "Status changed from " ++ status application ++ " to "
                      ++ new_status)
             usr)
          db').
Proof.
  intros H. unfold transition. rewrite H. cbn [negb].
  destruct (save (set_status new_status application) db) as [[k a'] db'].
  exists k, a', db'. split; reflexivity.
Qed.

Lemma saved_instance_fields instance db :
  let '(k, instance', db') := save instance db in
  pk instance' = Some k /\ status instance' = status instance
  /\ applied_date instance' = applied_date instance
  /\ applications db' !! k = Some instance'.
Proof.
  pose proof (save_row instance db) as H.
  destruct (save instance db) as [[k a'] db'].
  destruct H as (-> & Hrow & _). repeat split; try reflexivity. exact Hrow.
Qed.

End Writers.

(** What each writer of [status] does with the table.
    [StatusTracker.transition] enforces it: when it returns [False] the
    instance and the store are untouched, when it returns [True] the
    status, in memory and in the stored row, is the requested one and the
    move is an edge of the table or no move at all.
    [ApplicationManager.update_status] and [Application.mark_as_applied]
    store the requested status, respectively [applied], whatever the
    current status. *)
Theorem status_writers_and_table (application : Application)
    (new_status : string) (usr : option nat) (u : nat) (notes : string)
    (now : Z) (db : Db) :
  (let '(ok, a', db') := transition application new_status usr notes db in
   if ok then
     status a' = new_status
     /\ follows_table (status application) new_status
     /\ exists k, pk a' = Some k /\ applications db' !! k = Some a'
   else a' = application /\ db' = db)
  /\ (let '(a', db') := update_status application new_status u notes now db in
      status a' = new_status
      /\ exists k, pk a' = Some k /\ applications db' !! k = Some a')
  /\ (let '(a', db') := mark_as_applied application now db in
      status a' = "applied"
      /\ exists k, pk a' = Some k /\ applications db' !! k = Some a').
Proof.
  split; [| split].
  - destruct (is_valid_transition (status application) new_status) eqn:Hv.
    + destruct (transition_accepted application new_status usr notes db Hv)
        as (k & a' & db' & Hs & ->).
      pose proof (saved_instance_fields (set_status new_status application) db) as Hf.
      rewrite Hs in Hf. destruct Hf as (Hpk & Hst & _ & Hrow).
      split; [exact Hst |]. split.
      * apply is_valid_transition_iff in Hv. exact Hv.
      * exists k. split; [exact Hpk | exact Hrow].
    + rewrite (transition_rejected _ _ _ _ _ Hv). split; reflexivity.
  - unfold update_status.
    match goal with |- context [save ?i db] =>
      pose proof (saved_instance_fields i db) as Hf;
      destruct (save i db) as [[k a'] db'] end.
    destruct Hf as (Hpk & Hst & _ & Hrow). split.
    + rewrite Hst. destruct (_ && _); reflexivity.
    + exists k. split; [exact Hpk | exact Hrow].
  - unfold mark_as_applied.
    match goal with |- context [save ?i db] =>
      pose proof (saved_instance_fields i db) as Hf;
      destruct (save i db) as [[k a'] db'] end.
    destruct Hf as (Hpk & Hst & _ & Hrow). split.
    + rewrite Hst. reflexivity.
    + exists k. split; [exact Hpk | exact Hrow].
Qed.

(** C1.  The invariant "status only moves along an edge of the table" is
    kept by [StatusTracker.transition] and broken by the two other writers:
    on the stored application in state [rejected], [mark_as_applied] stores
    [applied] and [update_status] stores [offer]; neither pair is an edge
    of the table, so the three writers do not all follow it. *)
Lemma status_writes_break_table :
  (status <$> applications (mark_as_applied rejected_application 0 (store_with rejected_application)).2 !! 1)
    = Some "applied"
  /\ (status <$> applications (update_status rejected_application "offer" 7 "" 0 (store_with rejected_application)).2 !! 1)
    = Some "offer"
  /\ ~ follows_table "rejected" "applied"
  /\ ~ follows_table "rejected" "offer"
  /\ ~ status_writes_follow_table.
Proof.
  assert (Hno : forall n, n <> "rejected" -> ~ follows_table "rejected" n).
  { intros n Hn [H | H]; [congruence |].
    apply no_edge_from_final in H. tauto. }
  split; [vm_compute; reflexivity |].
  split; [vm_compute; reflexivity |].
  split; [apply Hno; discriminate |].
  split; [apply Hno; discriminate |].
  intros H.
  destruct (H rejected_application "offer" None 7 "" 0%Z
              (store_with rejected_application)) as (_ & _ & Hm).
  revert Hm. apply Hno. vm_compute. discriminate.
Qed.

(** ** The activity log and [applied_date] under [transition] *)

(** C2.  The log entries of one [transition] call on an application whose
    instance is the stored row (under a key other than 0).  A rejected call leaves the store as it
    was.  An accepted call that changes the status appends two entries, the
    one written by the [pre_save] receiver during [save()] and the one
    [transition] creates itself; an accepted call that keeps the status
    appends one. *)
Theorem transition_activity_log (application : Application)
    (new_status : string) (usr : option nat) (notes : string) (db : Db)
    (k : nat) :
  pk application = Some k ->
  k <> 0%nat ->
  applications db !! k = Some application ->
  let '(ok, a', db') := transition application new_status usr notes db in
  if ok then
    length (activities db') =
    length (activities db)
    + (if String.eqb (status application) new_status then 1 else 2)
  else a' = application /\ db' = db.
Proof.
  intros Hpk Hk Hrow.
  destruct (is_valid_transition (status application) new_status) eqn:Hv.
  - destruct (transition_accepted application new_status usr notes db Hv)
      as (k' & a' & db' & Hs & ->).
    pose proof (save_stored_activities (set_status new_status application)
                  db k application Hpk Hk Hrow) as Hact.
    rewrite Hs in Hact. cbn [snd] in Hact.
    cbn [create_activity activities]. rewrite length_app, Hact, length_app.
    unfold pre_save_entry. cbn [status set_status].
    destruct (String.eqb (status application) new_status); cbn [length]; lia.
  - rewrite (transition_rejected _ _ _ _ _ Hv). split; reflexivity.
Qed.

Lemma transition_activity_log_witness :
  pk applied_application = Some 1
  /\ applications (store_with applied_application) !! 1 = Some applied_application
  /\ let '(ok, a', db') :=
       transition applied_application "interview_scheduled" None ""
                  (store_with applied_application) in
     if ok then
       length (activities db') =
       length (activities (store_with applied_application))
       + (if String.eqb (status applied_application) "interview_scheduled"
          then 1 else 2)
     else a' = applied_application /\ db' = store_with applied_application.
Proof.
  split; [reflexivity |]. split; [reflexivity |].
  apply (transition_activity_log applied_application "interview_scheduled"
           None "" (store_with applied_application) 1);
    [reflexivity | discriminate | reflexivity].
Defined.

(** The two entries of scenario B, as they are written. *)
Example transition_scenario_B_log :
  let r := transition applied_application "interview_scheduled" None ""
                      (store_with applied_application) in
  r.1.1 = true
  /\ status r.1.2 = "interview_scheduled"
  /\ activities r.2 =
     [ mkActivity 1 "status_change"
         "Status changed from applied to interview_scheduled" (Some 7);
       mkActivity 1 "status_change"
         "Status changed from applied to interview_scheduled" None ].
Proof. vm_compute. repeat split; reflexivity. Qed.

(** C4.  [transition] never writes [applied_date]: the instance it returns
    has the date it was given, and after an accepted call the stored row is
    that instance.  On the saved application without a date, the accepted
    move into [applied] leaves the date unset, in memory and in the store,
    where [update_status] stamps it. *)
Theorem transition_leaves_applied_date (application : Application)
    (new_status : string) (usr : option nat) (notes : string) (db : Db) :
  (let '(ok, a', db') := transition application new_status usr notes db in
   applied_date a' = applied_date application
   /\ if ok then exists k, applications db' !! k = Some a' else db' = db)
  /\ (let r := transition saved_application "applied" None ""
                          (store_with saved_application) in
      r.1.1 = true /\ status r.1.2 = "applied" /\ applied_date r.1.2 = None
      /\ (applied_date <$> applications r.2 !! 1) = Some None)
  /\ (let r := update_status saved_application "applied" 7 "" 1700000000
                             (store_with saved_application) in
      (applied_date <$> applications r.2 !! 1) = Some (Some 1700000000%Z)).
Proof.
  split; [| split; [vm_compute; repeat split; reflexivity
                   | vm_compute; reflexivity]].
  destruct (is_valid_transition (status application) new_status) eqn:Hv.
  - destruct (transition_accepted application new_status usr notes db Hv)
      as (k & a' & db' & Hs & ->).
    pose proof (saved_instance_fields (set_status new_status application) db) as Hf.
    rewrite Hs in Hf. destruct Hf as (_ & _ & Hd & Hrow).
    split; [exact Hd |]. exists k. exact Hrow.
  - rewrite (transition_rejected _ _ _ _ _ Hv). split; reflexivity.
Qed.

(** ** The duplicate guard *)

Section Duplicates.

Lemma in_rows (db : Db) (a : Application) :
  In a (rows db) <-> exists i, applications db !! i = Some a.
Proof.
  unfold rows. rewrite <- list_elem_of_In, list_elem_of_fmap. split.
  - intros ([i b] & -> & Hin). apply elem_of_map_to_list in Hin. now exists i.
  - intros (i & Hi). exists (i, a). split; [reflexivity |].
    now apply elem_of_map_to_list.
Qed.

Lemma job_url_is_iff (db : Db) (url : string) (a : Application) :
  job_url_is db url a = true
  <-> exists j, jobs db !! job a = Some j /\ job_url j = url.
Proof.
  unfold job_url_is. destruct (jobs db !! job a) as [j |].
  - rewrite String.eqb_eq. split; [intros H; now exists j |].
    intros (j' & [= <-] & H). exact H.
  - split; [discriminate | intros (j & [=] & _)].
Qed.

(** The [Job]-object shape. *)
Lemma check_duplicate_job_iff (usr k : nat) (db : Db) :
  check_duplicate usr (JobObject k) db = true
  <-> exists i a, applications db !! i = Some a /\ user a = usr /\ job a = k.
Proof.
  cbn [check_duplicate]. rewrite existsb_exists. split.
  - intros (a & Hin & H). apply andb_true_iff in H as [Hu Hj].
    apply Nat.eqb_eq in Hu, Hj. apply in_rows in Hin as (i & Hi).
    now exists i, a.
  - intros (i & a & Hi & Hu & Hj). exists a. split.
    + apply in_rows. now exists i.
    + apply andb_true_iff. split; now apply Nat.eqb_eq.
Qed.

(** The URL shape. *)
Lemma check_duplicate_url_iff (usr : nat) (url : string) (db : Db) :
  check_duplicate usr (Url url) db = true
  <-> url <> ""
      /\ exists i a j, applications db !! i = Some a /\ user a = usr
                       /\ jobs db !! job a = Some j /\ job_url j = url.
Proof.
  cbn [check_duplicate]. unfold nonempty. rewrite negb_involutive.
  destruct (String.eqb_spec url "") as [-> | Hne].
  - split; [discriminate | intros [H _]; congruence].
  - rewrite existsb_exists. split.
    + intros (a & Hin & H). split; [exact Hne |].
      apply andb_true_iff in H as [Hu Hj]. apply Nat.eqb_eq in Hu.
      apply job_url_is_iff in Hj as (j & Hj & Hurl).
      apply in_rows in Hin as (i & Hi). now exists i, a, j.
    + intros (_ & i & a & j & Hi & Hu & Hj & Hurl). exists a. split.
      * apply in_rows. now exists i.
      * apply andb_true_iff. split; [now apply Nat.eqb_eq |].
        apply job_url_is_iff. now exists j.
Qed.

End Duplicates.

(** C8 (as amended).  For a user holding an application for a job, the
    [Job]-object shape answers true, and the URL shape answers true when
    the job's URL is not empty and false when it is empty.  For another
    job, one the user holds no application for, the [Job]-object shape
    answers false, and the URL shape answers false when no job the user has
    applied to carries the same URL. *)
Theorem check_duplicate_two_shapes (db : Db) (usr i : nat) (a : Application)
    (j : Job) :
  applications db !! i = Some a ->
  user a = usr ->
  jobs db !! job a = Some j ->
  check_duplicate usr (JobObject (job a)) db = true
  /\ check_duplicate usr (Url (job_url j)) db = nonempty (job_url j)
  /\ forall (k' : nat) (j' : Job),
       jobs db !! k' = Some j' ->
       (forall i' b, applications db !! i' = Some b -> user b = usr ->
                     job b <> k') ->
       check_duplicate usr (JobObject k') db = false
       /\ ((forall i' b jb, applications db !! i' = Some b -> user b = usr ->
                            jobs db !! job b = Some jb ->
                            job_url jb <> job_url j') ->
           check_duplicate usr (Url (job_url j')) db = false).
Proof.
  intros Hi Hu Hj. split; [| split].
  - apply check_duplicate_job_iff. now exists i, a.
  - unfold nonempty. destruct (String.eqb_spec (job_url j) "") as [He | Hne].
    + rewrite He. reflexivity.
    + apply check_duplicate_url_iff. split; [exact Hne |]. now exists i, a, j.
  - intros k' j' Hj' Hnone. split.
    + apply not_true_is_false. intros H.
      apply check_duplicate_job_iff in H as (i' & b & Hb & Hub & Hjb).
      exact (Hnone i' b Hb Hub Hjb).
    + intros Hurl. apply not_true_is_false. intros H.
      apply check_duplicate_url_iff in H as (_ & i' & b & jb & Hb & Hub & Hjb & He).
      exact (Hurl i' b jb Hb Hub Hjb He).
Qed.

Lemma check_duplicate_two_shapes_witness :
  applications (store_with saved_application) !! 1 = Some saved_application
  /\ check_duplicate 7 (JobObject 1) (store_with saved_application) = true
  /\ check_duplicate 7 (Url (job_url sample_job)) (store_with saved_application)
     = true.
Proof.
  split; [reflexivity |].
  destruct (check_duplicate_two_shapes (store_with saved_application) 7 1
              saved_application sample_job) as (H1 & H2 & _);
    [reflexivity | reflexivity | reflexivity |].
  split; [exact H1 | exact H2].
Defined.

(** C8, counterexample.  User 7 holds an application for a job stored
    without a URL: the [Job]-object shape answers true and the URL shape
    false.  And with two job rows carrying one URL, the job the user has not
    applied to is a duplicate in the URL shape. *)
Lemma check_duplicate_shapes_differ :
  check_duplicate 7 (JobObject 1) store_without_url = true
  /\ check_duplicate 7 (Url (job_url job_without_url)) store_without_url = false
  /\ ~ held_job_duplicate_in_both_shapes
  /\ check_duplicate 7 (JobObject 2) store_two_jobs = false
  /\ check_duplicate 7 (Url (job_url sample_job)) store_two_jobs = true
  /\ ~ other_job_duplicate_in_neither_shape.
Proof.
  split; [vm_compute; reflexivity |].
  split; [vm_compute; reflexivity |].
  split.
  { intros H.
    destruct (H store_without_url 7 1 saved_application job_without_url)
      as [_ Hurl]; try reflexivity.
    vm_compute in Hurl. discriminate. }
  split; [vm_compute; reflexivity |].
  split; [vm_compute; reflexivity |].
  intros H.
  destruct (H store_two_jobs 7 2 sample_job) as [_ Hurl].
  - reflexivity.
  - intros i a Hi _ Hj.
    destruct (decide (i = 1)) as [-> | Hne].
    + vm_compute in Hi. injection Hi as <-. vm_compute in Hj. discriminate.
    + unfold store_two_jobs in Hi. cbn [applications] in Hi.
      rewrite lookup_singleton_ne in Hi by congruence. discriminate.
  - vm_compute in Hurl. discriminate.
Qed.

(** C10.  The URL shape answers false on the empty string, whatever the
    store holds, and so does the check the search sweep makes for a hit
    that has no [url] key or an empty one ([job.get('url', '')]). *)
Theorem check_duplicate_without_url (usr : nat) (db : Db)
    (found : gmap string string) :
  found !! "url" = None \/ found !! "url" = Some "" ->
  check_duplicate usr (Url "") db = false
  /\ check_duplicate usr (Url (default "" (found !! "url"))) db = false.
Proof.
  intros H. split; [reflexivity |].
  destruct H as [-> | ->]; reflexivity.
Qed.

Lemma check_duplicate_without_url_witness :
  check_duplicate 7 (JobObject 1) store_without_url = true
  /\ ({[ "title" := "Software Developer" ]} : gmap string string) !! "url" = None
  /\ check_duplicate 7 (Url "") store_without_url = false
  /\ check_duplicate 7
       (Url (default ""
               (({[ "title" := "Software Developer" ]} : gmap string string)
                  !! "url")))
       store_without_url = false.
Proof.
  split; [vm_compute; reflexivity |].
  split; [vm_compute; reflexivity |].
  apply (check_duplicate_without_url 7 store_without_url
           {[ "title" := "Software Developer" ]}).
  left. vm_compute. reflexivity.
Defined.

(** ** The CAPTCHA gate *)

Section CaptchaGate.

Variable d : Driver.

(** The polling loop: it sleeps [n] times, two seconds each, after [n]
    looks that all saw the marker; it answers true on the first look that
    does not see it, and false once the clock has passed the timeout. *)
Lemma poll_spec (timeout start_time : Z) (r : Run) :
  let '(ok, r') := poll d timeout start_time r in
  exists n : nat,
    sleeps r' = app (sleeps r) (replicate n 2%Z)
    /\ (forall i, (looks r <= i < looks r + n)%nat ->
                  is_captcha_present (page_at d i) = true)
    /\ if ok then
         looks r' = (looks r + n + 1)%nat
         /\ is_captcha_present (page_at d (looks r + n)) = false
       else
         looks r' = (looks r + n)%nat
         /\ (timeout <= clock r' - start_time)%Z.
Proof.
  funelim (poll d timeout start_time r).
  - (* the time is up *)
    exists 0%nat. cbn [replicate]. rewrite app_nil_r.
    split; [reflexivity |]. split; [intros i Hi; lia |].
    split; lia.
  - (* the look finds the marker: sleep and go round again *)
    destruct (poll d timeout start_time (sleep 2 (look_after d r)))
      as [ok r'].
    destruct H as (n & Hs & Hall & Hend).
    exists (S n). cbn [sleep look_after sleeps looks] in *.
    split; [rewrite Hs, <- app_assoc; reflexivity |].
    split.
    + intros i Hi. destruct (decide (i = looks r)) as [-> | Hne].
      * exact Heq.
      * apply Hall. lia.
    + destruct ok.
      * destruct Hend as [Hl Hp']. split; [lia |].
        replace (looks r + S n)%nat with (S (looks r) + n)%nat by lia.
        exact Hp'.
      * destruct Hend as [Hl Ht]. split; [lia | exact Ht].
  - (* the look finds no marker *)
    exists 0%nat. cbn [replicate]. rewrite app_nil_r.
    split; [reflexivity |]. split; [intros i Hi; lia |].
    split; [cbn; lia |]. rewrite Nat.add_0_r. exact Heq.
Qed.

(** The time of a test, seen from one turn later. *)
Lemma elapsed_shift (first j : nat) :
  elapsed d first (S j)
  = (Z.of_N (look_cost d first) + 2 + elapsed d (S first) j)%Z.
Proof.
  induction j as [| j IH].
  - cbn [elapsed]. rewrite Nat.add_0_r. lia.
  - change (elapsed d first (S (S j)))
      with (elapsed d first (S j)
            + Z.of_N (look_cost d (first + S j)) + 2)%Z.
    rewrite IH. cbn [elapsed].
    replace (first + S j)%nat with (S first + j)%nat by lia. lia.
Qed.

Lemma elapsed_mono (first j k : nat) :
  (j <= k)%nat -> (elapsed d first j <= elapsed d first k)%Z.
Proof.
  induction 1 as [| k _ IH]; [lia |].
  cbn [elapsed]. pose proof (N2Z.is_nonneg (look_cost d (first + k))). lia.
Qed.

(** The loop, turn by turn: every turn it makes starts within the timeout,
    and the clock at the end is the clock at the start plus the looks taken
    and the seconds slept. *)
Lemma poll_exact (timeout start_time : Z) (r : Run) :
  let '(ok, r') := poll d timeout start_time r in
  let before := (clock r - start_time)%Z in
  exists n : nat,
    sleeps r' = app (sleeps r) (replicate n 2%Z)
    /\ (forall i, (looks r <= i < looks r + n)%nat ->
                  is_captcha_present (page_at d i) = true)
    /\ (forall j, (j < n)%nat ->
                  (before + elapsed d (looks r) j < timeout)%Z)
    /\ if ok then
         looks r' = (looks r + n + 1)%nat
         /\ is_captcha_present (page_at d (looks r + n)) = false
         /\ (before + elapsed d (looks r) n < timeout)%Z
         /\ clock r'
            = (clock r + elapsed d (looks r) n
               + Z.of_N (look_cost d (looks r + n)))%Z
       else
         looks r' = (looks r + n)%nat
         /\ (timeout <= before + elapsed d (looks r) n)%Z
         /\ clock r' = (clock r + elapsed d (looks r) n)%Z.
Proof.
  funelim (poll d timeout start_time r); cbn zeta.
  - (* the time is up *)
    exists 0%nat. cbn [replicate elapsed]. rewrite app_nil_r.
    split; [reflexivity |]. split; [intros i Hi; lia |].
    split; [intros j Hj; lia |]. repeat split; lia.
  - (* the look finds the marker: sleep and go round again *)
    destruct (poll d timeout start_time (sleep 2 (look_after d r)))
      as [ok r'].
    cbn zeta in H. destruct H as (n & Hs & Hall & Hturn & Hend).
    exists (S n). cbn [sleep look_after sleeps looks clock] in *.
    split; [rewrite Hs, <- app_assoc; reflexivity |].
    split.
    { intros i Hi. destruct (decide (i = looks r)) as [-> | Hne].
      - exact Heq.
      - apply Hall. lia. }
    split.
    { intros [| j] Hj.
      - cbn [elapsed]. lia.
      - rewrite elapsed_shift. specialize (Hturn j ltac:(lia)). lia. }
    rewrite elapsed_shift.
    destruct ok.
    + destruct Hend as (Hl & Hp' & Ht & Hc). split; [lia |].
      replace (looks r + S n)%nat with (S (looks r) + n)%nat by lia.
      split; [exact Hp' |]. split; lia.
    + destruct Hend as (Hl & Ht & Hc). split; [lia |]. split; lia.
  - (* the look finds no marker *)
    exists 0%nat. cbn [replicate elapsed]. rewrite app_nil_r.
    split; [reflexivity |]. split; [intros i Hi; lia |].
    split; [intros j Hj; lia |].
    cbn [look_after looks clock]. rewrite Nat.add_0_r.
    split; [lia |]. split; [exact Heq |]. split; lia.
Qed.

End CaptchaGate.

(** C9.  [wait_for_manual_solve], with [first] the number of the first look
    inside the loop and [start_time] the clock after the look before it.

    - When the first look sees no visible marker, the call returns [True]
      after that one look, without sleeping.
    - When it sees the marker, the call goes round the loop some number [n]
      of full turns, each a look that sees the marker followed by a sleep
      of exactly two seconds, every one of them begun before the timeout
      had elapsed.  It returns [True] at the first look that no longer sees
      the marker, provided that look is begun within the timeout, and
      [False] at the first test of the clock that finds the timeout
      elapsed; the clock at the end is the clock at the start plus the
      looks taken and the seconds slept.
    - So when the marker is seen at the first [k] looks of the loop and
      gone at the next, begun within the timeout, the answer is [True]
      after [k] sleeps; when the marker is seen at [k] looks and the
      timeout first elapses at the test after them, the answer is [False]
      after [k] sleeps.
    - The wait ends less than two seconds and one look after the timeout. *)
Theorem wait_for_manual_solve_spec (d : Driver) (timeout : Z) (r : Run) :
  let '(ok, r') := wait_for_manual_solve d timeout r in
  let first := S (looks r) in
  let start_time := (clock r + Z.of_N (look_cost d (looks r)))%Z in
  (look_answer d r = false -> ok = true /\ r' = look_after d r)
  /\ (look_answer d r = true ->
      exists n : nat,
        sleeps r' = app (sleeps r) (replicate n 2%Z)
        /\ (forall i, (first <= i < first + n)%nat ->
                      is_captcha_present (page_at d i) = true)
        /\ (forall j, (j < n)%nat -> (elapsed d first j < timeout)%Z)
        /\ if ok then
             looks r' = (first + n + 1)%nat
             /\ is_captcha_present (page_at d (first + n)) = false
             /\ (elapsed d first n < timeout)%Z
             /\ clock r'
                = (start_time + elapsed d first n
                   + Z.of_N (look_cost d (first + n)))%Z
           else
             looks r' = (first + n)%nat
             /\ (timeout <= elapsed d first n)%Z
             /\ clock r' = (start_time + elapsed d first n)%Z)
  /\ (forall k : nat,
        look_answer d r = true ->
        (forall i, (first <= i < first + k)%nat ->
                   is_captcha_present (page_at d i) = true) ->
        is_captcha_present (page_at d (first + k)) = false ->
        (elapsed d first k < timeout)%Z ->
        ok = true
        /\ sleeps r' = app (sleeps r) (replicate k 2%Z)
        /\ looks r' = (first + k + 1)%nat)
  /\ (forall k : nat,
        look_answer d r = true ->
        (forall i, (first <= i < first + k)%nat ->
                   is_captcha_present (page_at d i) = true) ->
        (forall j, (j < k)%nat -> (elapsed d first j < timeout)%Z) ->
        (timeout <= elapsed d first k)%Z ->
        ok = false
        /\ sleeps r' = app (sleeps r) (replicate k 2%Z)
        /\ looks r' = (first + k)%nat)
  /\ (clock r' - start_time
      < Z.max timeout 0 + 2 + Z.of_N (look_cost d (looks r' - 1)))%Z.
Proof.
  unfold wait_for_manual_solve.
  destruct (look_answer d r) eqn:Hfirst; cbn [negb].
  - pose proof (poll_exact d timeout (clock (look_after d r)) (look_after d r))
      as H.
    destruct (poll d timeout (clock (look_after d r)) (look_after d r))
      as [ok r'].
    cbn zeta in H |- *. destruct H as (n & Hs & Hall & Hturn & Hend).
    cbn [look_after sleeps looks clock] in Hs, Hall, Hturn, Hend.
    rewrite Z.sub_diag in Hturn, Hend. cbn [Z.add] in Hturn, Hend.
    set (first := S (looks r)) in *.
    split; [discriminate |].
    split; [intros _; exists n; repeat split; assumption |].
    split; [| split].
    + (* the marker goes within the timeout *)
      intros k _ Hseen Hgone Htime.
      assert (Hnk : n = k).
      { destruct (Nat.lt_trichotomy n k) as [Hlt | [Heq | Hgt]];
          [exfalso | exact Heq | exfalso].
        - destruct ok.
          + destruct Hend as (_ & Hp & _).
            rewrite (Hseen (first + n)%nat) in Hp by lia. discriminate Hp.
          + destruct Hend as (_ & Ht & _).
            pose proof (elapsed_mono d first n k ltac:(lia)). lia.
        - rewrite (Hall (first + k)%nat) in Hgone by lia. discriminate Hgone. }
      subst k. destruct ok; [| destruct Hend as (_ & Ht & _); lia].
      destruct Hend as (Hl & _). repeat split; assumption.
    + (* the marker stays until the timeout *)
      intros k _ Hseen Hturn' Htime.
      assert (Hnk : n = k).
      { destruct (Nat.lt_trichotomy n k) as [Hlt | [Heq | Hgt]];
          [exfalso | exact Heq | exfalso].
        - destruct ok.
          + destruct Hend as (_ & Hp & _).
            rewrite (Hseen (first + n)%nat) in Hp by lia. discriminate Hp.
          + destruct Hend as (_ & Ht & _).
            specialize (Hturn' n Hlt). lia.
        - specialize (Hturn k Hgt). lia. }
      subst k. destruct ok; [destruct Hend as (_ & _ & Ht & _); lia |].
      destruct Hend as (Hl & _). repeat split; assumption.
    + (* how long the wait can last *)
      destruct ok.
      * destruct Hend as (Hl & _ & Ht & Hc). rewrite Hl, Hc.
        replace (first + n + 1 - 1)%nat with (first + n)%nat by lia. lia.
      * destruct Hend as (Hl & Ht & Hc). rewrite Hl, Hc.
        destruct n as [| m].
        -- cbn [elapsed].
           pose proof (N2Z.is_nonneg (look_cost d (first + 0 - 1))). lia.
        -- specialize (Hturn m ltac:(lia)). cbn [elapsed].
           replace (first + S m - 1)%nat with (first + m)%nat by lia. lia.
  - cbn zeta. split; [intros _; now split |].
    split; [discriminate |]. split; [discriminate |].
    split; [discriminate |].
    cbn [look_after clock looks]. replace (S (looks r) - 1)%nat with (looks r) by lia.
    pose proof (N2Z.is_nonneg (look_cost d (looks r))). lia.
Qed.

(** The browser on which the marker is gone from the fourth look on, every
    look taking one second: with two minutes the third look of the loop is
    begun after six seconds and opens the gate; with five seconds the test
    after the second sleep finds the timeout elapsed. *)
Lemma wait_for_manual_solve_spec_witness :
  (let '(ok, r') := wait_for_manual_solve solved_after_three 120 (mkRun 0 0 []) in
   ok = true /\ sleeps r' = [2%Z; 2%Z] /\ looks r' = 4%nat)
  /\ (let '(ok, r') := wait_for_manual_solve solved_after_three 5 (mkRun 0 0 []) in
      ok = false /\ sleeps r' = [2%Z; 2%Z] /\ looks r' = 3%nat).
Proof.
  assert (Hseen : forall i, (1 <= i < 1 + 2)%nat ->
            is_captcha_present (page_at solved_after_three i) = true).
  { intros i Hi. assert (Hi' : i = 1%nat \/ i = 2%nat) by lia.
    destruct Hi' as [-> | ->]; reflexivity. }
  split.
  - pose proof (wait_for_manual_solve_spec solved_after_three 120
                  (mkRun 0 0 [])) as H.
    destruct (wait_for_manual_solve solved_after_three 120 (mkRun 0 0 []))
      as [ok r'].
    cbn zeta in H. destruct H as (_ & _ & Hgone & _).
    apply (Hgone 2%nat); [reflexivity | exact Hseen | reflexivity | reflexivity].
  - pose proof (wait_for_manual_solve_spec solved_after_three 5
                  (mkRun 0 0 [])) as H.
    destruct (wait_for_manual_solve solved_after_three 5 (mkRun 0 0 []))
      as [ok r'].
    cbn zeta in H. destruct H as (_ & _ & _ & Hstays & _).
    apply (Hstays 2%nat); [reflexivity | exact Hseen | | vm_compute; discriminate].
    intros j Hj. assert (Hj' : j = 0%nat \/ j = 1%nat) by lia.
    destruct Hj' as [-> | ->]; reflexivity.
Defined.

(** Two runs on the browser where the marker is gone from the fourth look
    on: with two minutes to wait the gate opens after two sleeps, with five
    seconds it times out. *)
Example wait_solved_in_time :
  wait_for_manual_solve solved_after_three 120 (mkRun 0 0 [])
  = (true, mkRun 8 4 [2%Z; 2%Z]).
Proof. vm_compute. reflexivity. Qed.

Example wait_timed_out :
  wait_for_manual_solve solved_after_three 5 (mkRun 0 0 [])
  = (false, mkRun 7 3 [2%Z; 2%Z]).
Proof. vm_compute. reflexivity. Qed.

(** ** The automation task *)

Lemma bind_lift_returned {A B} (a : A) (k : A -> M B) :
  bind (lift (Returned a)) k = k a.
Proof. unfold bind, lift. destruct (k a). reflexivity. Qed.

Lemma bind_lift_raised {A B} (e : exn) (k : A -> M B) :
  bind (lift (Raised e)) k = ([], Raised e).
Proof. reflexivity. Qed.

Lemma bind_ret {A B} (a : A) (k : A -> M B) : bind (ret a) k = k a.
Proof. apply bind_lift_returned. Qed.

Section TaskBody.

Variable env : Env.

(** The four ways through the [with BrowserManager] block. *)
Lemma run_automation_cases (handler : Handler) (job_url cv_path : string)
    (result : TaskResult) :
  run_automation env handler job_url cv_path result =
  match start_browser env with
  | Raised e => ([StartBrowser], Raised e)
  | Returned _ =>
      match apply_to_job env handler job_url cv_path with
      | Raised e =>
          ([StartBrowser; ApplyToJob job_url cv_path; CloseBrowser], Raised e)
      | Returned true =>
          ([StartBrowser; ApplyToJob job_url cv_path; CloseBrowser],
           Returned (set_message "Application submitted successfully"
                       (set_success true result)))
      | Returned false =>
          ([StartBrowser; ApplyToJob job_url cv_path;
            TakeScreenshot "failed_application"; CloseBrowser],
           Returned (set_message "Application submission could not be verified"
                       result))
      end
  end.
Proof.
  unfold run_automation.
  destruct (start_browser env) as [[] | e]; [| reflexivity].
  destruct (apply_to_job env handler job_url cv_path) as [[|] | e];
    reflexivity.
Qed.

(** The document the task settles on is a CV of the user: the one named
    by [cv_id], or an active one. *)
Lemma chosen_cv_owned (cv_id : option nat) (usr : nat) (d : Document) :
  chosen_cv env cv_id usr = Some d ->
  In d (documents env) /\ doc_user d = usr /\ doc_type d = "cv"
  /\ (cv_id = Some (doc_id d) \/ is_active d = true).
Proof.
  unfold chosen_cv.
  assert (Hget : forall i, Document_get env i usr = Some d ->
            In d (documents env) /\ doc_user d = usr /\ doc_type d = "cv"
            /\ doc_id d = i).
  { intros i H. apply find_some in H as [Hin Hp].
    apply andb_true_iff in Hp as [Hp Ht].
    apply andb_true_iff in Hp as [Hi Hu].
    apply Nat.eqb_eq in Hi, Hu. apply String.eqb_eq in Ht. tauto. }
  assert (Hact : active_cv env usr = Some d ->
            In d (documents env) /\ doc_user d = usr /\ doc_type d = "cv"
            /\ is_active d = true).
  { intros H. apply find_some in H as [Hin Hp].
    apply andb_true_iff in Hp as [Hp Ha].
    apply andb_true_iff in Hp as [Hu Ht].
    apply Nat.eqb_eq in Hu. apply String.eqb_eq in Ht. tauto. }
  destruct (truthy_id cv_id) eqn:Hid.
  - destruct cv_id as [[| n] |]; try discriminate Hid.
    cbn [default from_option id].
    destruct (Document_get env (S n) usr) as [doc |] eqn:Hdoc.
    + intros [= <-]. destruct (Hget _ Hdoc) as (? & ? & ? & Hi).
      rewrite Hi. tauto.
    + intros H. destruct (Hact H) as (? & ? & ? & ?). tauto.
  - intros H. destruct (Hact H) as (? & ? & ? & ?). tauto.
Qed.

(** What the two look-ups give, by the document settled on. *)
Lemma resolved_cv_path_cases (cv_id : option nat) (usr : nat) :
  match chosen_cv env cv_id usr with
  | None => resolved_cv_path env cv_id usr = Returned None
  | Some d =>
      (file_path d <> ""
       /\ resolved_cv_path env cv_id usr = Returned (Some (file_path d)))
      \/ (file_path d = ""
          /\ resolved_cv_path env cv_id usr
             = Raised (Exception
                         "The 'file' attribute has no file associated with it."))
  end.
Proof.
  unfold resolved_cv_path, FieldFile_path, nonempty.
  destruct (chosen_cv env cv_id usr) as [d |]; [| reflexivity].
  destruct (String.eqb_spec (file_path d) "") as [He | Hne]; cbn [negb].
  - right. now split.
  - left. now split.
Qed.

(** Past the look-ups of user and profile and the two guards, the body is
    the CV look-up, the CV check, the dry-run exit, the choice of handler
    and the browser block. *)
Lemma task_body_past_guards (user_id : nat) (job_url job_board : string)
    (cv_id : option nat) (dry_run : bool) (result : TaskResult)
    (profile : gmap string string) :
  user_id ∈ users env ->
  profiles env !! user_id = Some profile ->
  check_duplicate user_id (Url job_url) (env_db env) = false ->
  (get_daily_application_count user_id (now env) (env_db env)
     < MAX_DAILY_APPLICATIONS env)%Z ->
  task_body env user_id job_url job_board cv_id dry_run result =
  match resolved_cv_path env cv_id user_id with
  | Raised e => ([], Raised e)
  | Returned cv_path =>
      if negb (truthy_path cv_path) then
        ret (set_message "No CV found. Upload a CV first." result)
      else if dry_run then
        ret (set_message "Dry run completed - no application submitted"
               (set_success true result))
      else
        match _get_site_handler job_board profile with
        | None =>
            ret (set_message ("Unsupported job board: " ++ job_board) result)
        | Some handler =>
            run_automation env handler job_url (default "" cv_path) result
        end
  end.
Proof.
  intros Hu Hp Hdup Hmax.
  unfold task_body, User_objects_get, UserProfile_objects_get.
  rewrite bool_decide_eq_true_2 by exact Hu.
  rewrite bind_lift_returned, Hp, bind_lift_returned, Hdup.
  apply Z.leb_gt in Hmax. rewrite Hmax.
  unfold resolved_cv_path, chosen_cv, FieldFile_path.
  destruct (truthy_id cv_id);
    [destruct (Document_get env (default 0 cv_id) user_id) as [doc |] |].
  - destruct (nonempty (file_path doc)) eqn:Hne.
    + rewrite bind_lift_returned, !bind_ret. cbn [truthy_path].
      rewrite Hne. cbn [negb]. rewrite bind_ret. cbn [truthy_path].
      rewrite Hne. reflexivity.
    + reflexivity.
  - rewrite bind_ret. cbn [truthy_path negb].
    destruct (active_cv env user_id) as [cv |].
    + destruct (nonempty (file_path cv)) eqn:Hne.
      * rewrite bind_lift_returned, !bind_ret. cbn [truthy_path].
        rewrite Hne. reflexivity.
      * reflexivity.
    + rewrite bind_ret. reflexivity.
  - rewrite bind_ret. cbn [truthy_path negb].
    destruct (active_cv env user_id) as [cv |].
    + destruct (nonempty (file_path cv)) eqn:Hne.
      * rewrite bind_lift_returned, !bind_ret. cbn [truthy_path].
        rewrite Hne. reflexivity.
      * reflexivity.
    + rewrite bind_ret. reflexivity.
Qed.

(** The body either ends early, with no event, or gets as far as the
    browser block: then user and profile exist, neither guard has fired,
    the CV has a file, the run is not a dry run and the board has a
    handler. *)
Lemma task_body_cases (user_id : nat) (job_url job_board : string)
    (cv_id : option nat) (dry_run : bool) (result : TaskResult) :
  (exists o,
      task_body env user_id job_url job_board cv_id dry_run result = ([], o)
      /\ early_end env user_id job_url job_board cv_id dry_run result o)
  \/ (exists handler cv_path,
        user_id ∈ users env
        /\ is_Some (profiles env !! user_id)
        /\ check_duplicate user_id (Url job_url) (env_db env) = false
        /\ (get_daily_application_count user_id (now env) (env_db env)
              < MAX_DAILY_APPLICATIONS env)%Z
        /\ dry_run = false
        /\ _get_site_handler job_board (profile_data env user_id) = Some handler
        /\ resolved_cv_path env cv_id user_id = Returned (Some cv_path)
        /\ cv_path <> ""
        /\ task_body env user_id job_url job_board cv_id dry_run result
           = run_automation env handler job_url cv_path result).
Proof.
  destruct (bool_decide (user_id ∈ users env)) eqn:Hu.
  2: { left. unfold task_body, User_objects_get. rewrite Hu.
       eexists. split; [reflexivity |]. constructor.
       now apply bool_decide_eq_false in Hu. }
  apply bool_decide_eq_true in Hu.
  destruct (profiles env !! user_id) as [profile |] eqn:Hp.
  2: { left. unfold task_body, User_objects_get, UserProfile_objects_get.
       rewrite bool_decide_eq_true_2 by exact Hu.
       rewrite bind_lift_returned, Hp.
       eexists. split; [reflexivity |]. now constructor. }
  destruct (check_duplicate user_id (Url job_url) (env_db env)) eqn:Hdup.
  { left. unfold task_body, User_objects_get, UserProfile_objects_get.
    rewrite bool_decide_eq_true_2 by exact Hu.
    rewrite bind_lift_returned, Hp, bind_lift_returned, Hdup.
    eexists. split; [reflexivity |]. now constructor. }
  destruct (Z.leb_spec (MAX_DAILY_APPLICATIONS env)
              (get_daily_application_count user_id (now env) (env_db env)))
    as [Hmax | Hmax].
  { left. unfold task_body, User_objects_get, UserProfile_objects_get.
    rewrite bool_decide_eq_true_2 by exact Hu.
    rewrite bind_lift_returned, Hp, bind_lift_returned, Hdup.
    apply Z.leb_le in Hmax. rewrite Hmax.
    eexists. split; [reflexivity |]. apply Z.leb_le in Hmax. now constructor. }
  rewrite (task_body_past_guards user_id job_url job_board cv_id dry_run
             result profile Hu Hp Hdup Hmax).
  pose proof (resolved_cv_path_cases cv_id user_id) as Hcv.
  destruct (chosen_cv env cv_id user_id) as [d |] eqn:Hd.
  2: { rewrite Hcv. left. eexists. split; [reflexivity |]. constructor. }
  destruct Hcv as [[Hne ->] | [He ->]].
  2: { left. eexists. split; [reflexivity |].
       now apply (end_cv_without_file _ _ _ _ _ _ _ d). }
  assert (Ht : truthy_path (Some (file_path d)) = true).
  { cbn. unfold nonempty. apply String.eqb_neq in Hne. now rewrite Hne. }
  rewrite Ht. cbn [negb].
  destruct dry_run.
  { left. eexists. split; [reflexivity |]. now constructor. }
  unfold _get_site_handler.
  destruct (handlers !! job_board) as [cls |] eqn:Hh.
  - right. exists (mkHandler cls profile), (file_path d).
    unfold profile_data. rewrite Hp. cbn [default from_option id].
    repeat split; try assumption; try reflexivity. now exists profile.
  - left. eexists. split; [reflexivity |]. now constructor.
Qed.

(** The events of an execution are those of its body. *)
Lemma task_trace_body (retries user_id : nat) (job_url job_board : string)
    (cv_id : option nat) (dry_run : bool) :
  (apply_to_job_task env retries user_id job_url job_board cv_id dry_run).1.1
  = (task_body env user_id job_url job_board cv_id dry_run
       (mkResult false job_url job_board "")).1.
Proof.
  unfold apply_to_job_task.
  destruct (task_body env user_id job_url job_board cv_id dry_run
              (mkResult false job_url job_board "")) as [tr [r | [| msg]]];
    try destruct (retries <? max_retries)%nat; reflexivity.
Qed.

End TaskBody.

(** C3 (as amended).  When the task has called the adapter, it leaves the
    store as it found it, whatever the adapter answers.  On [True] it
    returns success with the message "Application submitted successfully";
    on [False] it returns a failure saying the submission could not be
    verified; no application is created or transitioned by the task. *)
Theorem adapter_outcome_reported (env : Env) (retries user_id : nat)
    (job_url job_board : string) (cv_id : option nat) (dry_run : bool)
    (tr : list Event) (db' : Db) (e : TaskEnd) (cv_path : string) :
  apply_to_job_task env retries user_id job_url job_board cv_id dry_run
    = (tr, db', e) ->
  In (ApplyToJob job_url cv_path) tr ->
  db' = env_db env
  /\ exists h,
       _get_site_handler job_board (profile_data env user_id) = Some h
       /\ match apply_to_job env h job_url cv_path with
          | Returned true =>
              e = Done (mkResult true job_url job_board
                          "Application submitted successfully")
          | Returned false =>
              e = Done (mkResult false job_url job_board
                          "Application submission could not be verified")
          | Raised User_DoesNotExist =>
              e = Done (mkResult false job_url job_board "User not found")
          | Raised (Exception msg) =>
              e = if (retries <? max_retries)%nat
                  then Retry (Exception msg) default_retry_delay
                  else Done (mkResult false job_url job_board
                               ("Task failed: " ++ msg))
          end.
Proof.
  intros Htask Hin. unfold apply_to_job_task in Htask.
  destruct (task_body_cases env user_id job_url job_board cv_id dry_run
              (mkResult false job_url job_board ""))
    as [(o & Hb & _) | (h & cvp & _ & _ & _ & _ & _ & Hh & _ & _ & Hb)];
    rewrite Hb in Htask.
  - exfalso. destruct o as [r | [| msg]]; try destruct (_ <? _)%nat;
      injection Htask as <- _ _; exact Hin.
  - rewrite run_automation_cases in Htask.
    destruct (start_browser env) as [[] | ex].
    2: { exfalso. destruct ex as [| msg]; try destruct (_ <? _)%nat;
         injection Htask as <- _ _; cbn in Hin;
         destruct Hin as [Hin | []]; discriminate Hin. }
    assert (Hcv : cvp = cv_path).
    { destruct (apply_to_job env h job_url cvp) as [[|] | [| msg]];
        try destruct (_ <? _)%nat; injection Htask as <- _ _; cbn in Hin;
        repeat (destruct Hin as [Hin | Hin]; try discriminate Hin);
        try contradiction; congruence. }
    subst cvp.
    destruct (apply_to_job env h job_url cv_path) as [[|] | [| msg]] eqn:Ha;
      try destruct (retries <? max_retries)%nat eqn:Hr;
      injection Htask as Htr Hdb He; subst db' e;
      (split; [reflexivity |]); exists h; (split; [exact Hh |]);
      rewrite Ha, ?Hr; reflexivity.
Qed.

Lemma adapter_outcome_reported_witness :
  apply_to_job_task (sample_env empty_store 10 (Returned tt) (Returned true))
    0 7 other_url "pnet" None false
  = ([StartBrowser; ApplyToJob other_url "/media/documents/7/cv.pdf";
      CloseBrowser],
     empty_store,
     Done (mkResult true other_url "pnet" "Application submitted successfully")).
Proof.
  destruct (apply_to_job_task
              (sample_env empty_store 10 (Returned tt) (Returned true))
              0 7 other_url "pnet" None false) as [[tr db'] e] eqn:Htask.
  assert (Htr : tr = [StartBrowser;
                      ApplyToJob other_url "/media/documents/7/cv.pdf";
                      CloseBrowser]).
  { vm_compute in Htask. now injection Htask as <- _ _. }
  destruct (adapter_outcome_reported _ _ _ _ _ _ _ _ _ _
              "/media/documents/7/cv.pdf" Htask) as (-> & h & _ & He).
  - rewrite Htr. cbn. auto.
  - cbn in He. rewrite He, Htr. reflexivity.
Defined.

(** C3, counterexample.  Scenario F on an empty store: the adapter answers
    [True], the task returns success, and the store it leaves has no
    application and no activity. *)
Lemma adapter_success_records_nothing :
  (let r := apply_to_job_task
              (sample_env empty_store 10 (Returned tt) (Returned true))
              0 7 other_url "pnet" None false in
   r.2 = Done (mkResult true other_url "pnet"
                 "Application submitted successfully")
   /\ rows r.1.2 = [] /\ activities r.1.2 = [])
  /\ ~ adapter_success_marks_applied.
Proof.
  split; [vm_compute; repeat split; reflexivity |].
  intros H.
  destruct (H (sample_env empty_store 10 (Returned tt) (Returned true))
              0%nat 7%nat other_url "pnet" None false
              [StartBrowser; ApplyToJob other_url "/media/documents/7/cv.pdf";
               CloseBrowser]
              empty_store
              (Done (mkResult true other_url "pnet"
                       "Application submitted successfully"))
              "/media/documents/7/cv.pdf")
    as (_ & _ & Hlen).
  - vm_compute. reflexivity.
  - cbn. auto.
  - reflexivity.
  - cbn in Hlen. discriminate Hlen.
Qed.

Section Guards.

(** Where the day of a timestamp in [TIME_ZONE] falls. *)
Lemma date_in_time_zone_cases (t : Z) :
  ((t mod 86400 < next_day_in_time_zone)%Z /\ date_in_time_zone t = date t)
  \/ ((next_day_in_time_zone <= t mod 86400)%Z
      /\ date_in_time_zone t = (date t + 1)%Z).
Proof.
  unfold date_in_time_zone, date, next_day_in_time_zone, TIME_ZONE_offset.
  pose proof (Z.div_mod t 86400 ltac:(lia)) as Hdm.
  pose proof (Z.mod_pos_bound t 86400 ltac:(lia)) as Hb.
  destruct (Z.lt_ge_cases (t mod 86400) (86400 - 7200)) as [Hlt | Hge].
  - left. split; [exact Hlt |]. symmetry.
    apply (Z.div_unique (t + 7200) 86400 (t / 86400) (t mod 86400 + 7200));
      lia.
  - right. split; [exact Hge |]. symmetry.
    apply (Z.div_unique (t + 7200) 86400 (t / 86400 + 1)
             (t mod 86400 + 7200 - 86400)); lia.
Qed.

Lemma filter_none {A} (p : A -> bool) (l : list A) :
  (forall x, In x l -> p x = false) -> List.filter p l = [].
Proof.
  induction l as [| x l IH]; intros H; cbn; [reflexivity |].
  rewrite (H x) by now left. apply IH. intros y Hy. apply H. now right.
Qed.

Lemma daily_count_rows usr now db :
  get_daily_application_count usr now db
  = Z.of_nat (length (List.filter (counts_for usr now) (rows db))).
Proof. reflexivity. Qed.

Variable env : Env.

(** What the two guards make of an execution that has found the user and
    the profile. *)
Lemma guard_outcomes (retries user_id : nat) (job_url job_board : string)
    (cv_id : option nat) (dry_run : bool) :
  user_id ∈ users env ->
  is_Some (profiles env !! user_id) ->
  let out :=
    apply_to_job_task env retries user_id job_url job_board cv_id dry_run in
  let already :=
    ([], env_db env,
     Done (mkResult false job_url job_board "Already applied to this job")) in
  let limit :=
    ([], env_db env,
     Done (mkResult false job_url job_board
             ("Daily limit reached ("
                ++ str_of_Z (MAX_DAILY_APPLICATIONS env) ++ " applications)"))) in
  if check_duplicate user_id (Url job_url) (env_db env) then
    out = already /\ out <> limit
  else if (MAX_DAILY_APPLICATIONS env
             <=? get_daily_application_count user_id (now env) (env_db env))%Z
  then out = limit /\ out <> already
  else out <> already /\ out <> limit.
Proof.
  intros Hu [profile Hp]. cbn zeta.
  destruct (check_duplicate user_id (Url job_url) (env_db env)) eqn:Hdup.
  { unfold apply_to_job_task, task_body, User_objects_get,
      UserProfile_objects_get.
    rewrite bool_decide_eq_true_2 by exact Hu.
    rewrite bind_lift_returned, Hp, bind_lift_returned, Hdup.
    split; [reflexivity | cbn; discriminate]. }
  destruct (Z.leb_spec (MAX_DAILY_APPLICATIONS env)
              (get_daily_application_count user_id (now env) (env_db env)))
    as [Hmax | Hmax].
  { unfold apply_to_job_task, task_body, User_objects_get,
      UserProfile_objects_get.
    rewrite bool_decide_eq_true_2 by exact Hu.
    rewrite bind_lift_returned, Hp, bind_lift_returned, Hdup.
    apply Z.leb_le in Hmax. rewrite Hmax.
    split; [reflexivity | cbn; discriminate]. }
  unfold apply_to_job_task.
  rewrite (task_body_past_guards env user_id job_url job_board cv_id dry_run
             _ profile Hu Hp Hdup Hmax).
  destruct (resolved_cv_path env cv_id user_id) as [cv_path | [| msg]].
  - destruct (negb (truthy_path cv_path)); [cbn; split; discriminate |].
    destruct dry_run; [cbn; split; discriminate |].
    destruct (_get_site_handler job_board profile) as [handler |];
      [| cbn; split; discriminate].
    rewrite run_automation_cases.
    destruct (start_browser env) as [[] | [| msg]];
      [destruct (apply_to_job env handler job_url (default "" cv_path))
         as [[|] | [| msg]] |..];
      try destruct (retries <? max_retries)%nat; cbn; split; discriminate.
  - cbn; split; discriminate.
  - destruct (retries <? max_retries)%nat; cbn; split; discriminate.
Qed.

End Guards.

(** C6.  The two guards, for an execution that has found the user and the
    profile.

    - The duplicate guard.  The task returns the failure "Already applied
      to this job", with no event at all (no browser is started, no adapter
      is called, whatever board, browser and adapter), exactly when the job
      URL is not empty and the user holds an application for a job
      advertised at that URL.  For an empty URL the guard does not fire,
      also when the user holds an application for a job without URL.
    - The limit guard.  The task returns the failure "Daily limit reached
      (N applications)", again with no event, exactly when the duplicate
      guard has not fired and the rows [get_daily_application_count]
      counts are at least [MAX_DAILY_APPLICATIONS]: the user's automated
      applications whose [applied_date], taken in [TIME_ZONE], falls on the
      UTC day of [now].
    - What the count misses.  When every application of the user was
      stamped on the UTC day of [now], at 22:00 UTC or later, none of them
      is counted: with a maximum above zero the limit guard does not fire,
      however many automated applications the user has made that day. *)
Theorem guards_run_before_browser (env : Env) (retries user_id : nat)
    (job_url job_board : string) (cv_id : option nat) (dry_run : bool) :
  user_id ∈ users env ->
  is_Some (profiles env !! user_id) ->
  let db := env_db env in
  let max_daily := MAX_DAILY_APPLICATIONS env in
  let counted := List.filter (counts_for user_id (now env)) (rows db) in
  let duplicate := job_url <> "" /\ holds_application_at db user_id job_url in
  let out :=
    apply_to_job_task env retries user_id job_url job_board cv_id dry_run in
  let limit_reached :=
    ([], db,
     Done (mkResult false job_url job_board
             ("Daily limit reached ("
                ++ str_of_Z max_daily ++ " applications)"))) in
  (out = ([], db,
          Done (mkResult false job_url job_board "Already applied to this job"))
   <-> duplicate)
  /\ (out = limit_reached
      <-> ~ duplicate /\ (max_daily <= Z.of_nat (length counted))%Z)
  /\ ((0 < max_daily)%Z ->
      (forall a, In a (rows db) -> user a = user_id ->
                 exists t, applied_date a = Some t
                           /\ date t = date (now env)
                           /\ (next_day_in_time_zone <= t mod 86400)%Z) ->
      counted = [] /\ out <> limit_reached).
Proof.
  intros Hu Hp. cbn zeta.
  pose proof (guard_outcomes env retries user_id job_url job_board cv_id
                dry_run Hu Hp) as Hg.
  cbn zeta in Hg.
  pose proof (check_duplicate_url_iff user_id job_url (env_db env)) as Hd.
  fold (holds_application_at (env_db env) user_id job_url) in Hd.
  rewrite <- daily_count_rows.
  assert (Hlimit :
    apply_to_job_task env retries user_id job_url job_board cv_id dry_run
    = ([], env_db env,
       Done (mkResult false job_url job_board
               ("Daily limit reached ("
                  ++ str_of_Z (MAX_DAILY_APPLICATIONS env) ++ " applications)")))
    <-> ~ (job_url <> "" /\ holds_application_at (env_db env) user_id job_url)
        /\ (MAX_DAILY_APPLICATIONS env
            <= get_daily_application_count user_id (now env) (env_db env))%Z).
  { destruct (check_duplicate user_id (Url job_url) (env_db env)).
    - destruct Hg as [_ Hne]. split; [intros H; contradiction |].
      intros [Hnd _]. exfalso. apply Hnd, Hd. reflexivity.
    - destruct (Z.leb_spec (MAX_DAILY_APPLICATIONS env)
                  (get_daily_application_count user_id (now env) (env_db env)))
        as [Hmax | Hmax].
      + destruct Hg as [Heq _]. split; [| intros _; exact Heq].
        intros _. split; [| exact Hmax].
        intros Hdup. apply Hd in Hdup. discriminate Hdup.
      + destruct Hg as [_ Hne]. split; [intros H; contradiction |].
        intros [_ Hle]. lia. }
  split; [| split; [exact Hlimit |]].
  - destruct (check_duplicate user_id (Url job_url) (env_db env)).
    + destruct Hg as [Heq _]. split; [| intros _; exact Heq].
      intros _. apply Hd. reflexivity.
    + assert (Hne :
        apply_to_job_task env retries user_id job_url job_board cv_id dry_run
        <> ([], env_db env,
            Done (mkResult false job_url job_board
                    "Already applied to this job"))).
      { destruct (_ <=? _)%Z; tauto. }
      split; [intros H; contradiction |].
      intros Hdup. apply Hd in Hdup. discriminate Hdup.
  - intros Hpos Hlate.
    assert (Hnone :
      List.filter (counts_for user_id (now env)) (rows (env_db env)) = []).
    { apply filter_none. intros a Hin. unfold counts_for.
      destruct (Nat.eqb_spec (user a) user_id) as [Hua | Hua];
        [| reflexivity].
      destruct (Hlate a Hin Hua) as (t & -> & Hday & Hsec).
      destruct (date_in_time_zone_cases t) as [[Hlt _] | [_ Hnext]]; [lia |].
      replace (date_in_time_zone t =? date (now env))%Z with false;
        [reflexivity |].
      symmetry. apply Z.eqb_neq. lia. }
    split; [exact Hnone |].
    intros Hout. apply Hlimit in Hout as [_ Hle].
    rewrite daily_count_rows, Hnone in Hle. cbn in Hle. lia.
Qed.

(** Scenario D, the user has already applied to the job at this URL;
    Scenario E, one automated application at 19:26 UTC and a daily maximum
    of one, for a board without handler; the same with the application
    made at 22:13 UTC, the moment of the run; and the empty URL for a user
    who holds an application for a job without URL. *)
Lemma guards_run_before_browser_witness :
  apply_to_job_task
    (sample_env (store_with applied_application) 10 (Returned tt)
                (Returned true))
    0 7 (job_url sample_job) "pnet" None false
  = ([], store_with applied_application,
     Done (mkResult false (job_url sample_job) "pnet"
             "Already applied to this job"))
  /\ apply_to_job_task
       (sample_env (store_with evening_application) 1
                   (Raised (Exception "chrome not reachable")) (Returned true))
       0 7 other_url "careerjunction" None false
     = ([], store_with evening_application,
        Done (mkResult false other_url "careerjunction"
                "Daily limit reached (1 applications)"))
  /\ apply_to_job_task
       (sample_env (store_with automated_application) 1 (Returned tt)
                   (Returned true))
       0 7 other_url "pnet" None false
     <> ([], store_with automated_application,
         Done (mkResult false other_url "pnet"
                 "Daily limit reached (1 applications)"))
  /\ apply_to_job_task
       (sample_env store_without_url 10 (Returned tt) (Returned true))
       0 7 "" "pnet" None false
     <> ([], store_without_url,
         Done (mkResult false "" "pnet" "Already applied to this job")).
Proof.
  assert (Hother : forall a,
            ~ (other_url <> ""
               /\ holds_application_at (store_with a) 7 other_url)).
  { intros a [_ (i & a' & j & _ & _ & Hj & Hurl)].
    cbn [store_with jobs] in Hj.
    destruct (decide (job a' = 1%nat)) as [He | Hne].
    - rewrite He, lookup_singleton_eq in Hj. injection Hj as <-.
      discriminate Hurl.
    - rewrite lookup_singleton_ne in Hj by congruence. discriminate Hj. }
  split; [| split; [| split]].
  - apply (guards_run_before_browser
             (sample_env (store_with applied_application) 10 (Returned tt)
                         (Returned true))
             0 7 (job_url sample_job) "pnet" None false).
    + vm_compute. reflexivity.
    + now exists sample_profile.
    + split; [discriminate |].
      exists 1%nat, applied_application, sample_job. now repeat split.
  - apply (guards_run_before_browser
             (sample_env (store_with evening_application) 1
                (Raised (Exception "chrome not reachable")) (Returned true))
             0 7 other_url "careerjunction" None false).
    + vm_compute. reflexivity.
    + now exists sample_profile.
    + split; [apply Hother | vm_compute; discriminate].
  - apply (guards_run_before_browser
             (sample_env (store_with automated_application) 1 (Returned tt)
                (Returned true))
             0 7 other_url "pnet" None false).
    + vm_compute. reflexivity.
    + now exists sample_profile.
    + reflexivity.
    + intros a Hin _. apply in_rows in Hin as (i & Hi).
      cbn [sample_env env_db store_with applications] in Hi.
      destruct (decide (i = 1%nat)) as [-> | Hne].
      * rewrite lookup_singleton_eq in Hi. injection Hi as <-.
        exists 1700000000%Z. repeat split. vm_compute. discriminate.
      * rewrite lookup_singleton_ne in Hi by congruence. discriminate Hi.
  - intros Hout.
    apply (guards_run_before_browser
             (sample_env store_without_url 10 (Returned tt) (Returned true))
             0 7 "" "pnet" None false) in Hout as [Hne _].
    + now apply Hne.
    + vm_compute. reflexivity.
    + now exists sample_profile.
Defined.

(** The run of Scenario E made at 22:13 UTC with the one application of
    the day stamped at that moment and a maximum of one: the count is
    zero, the browser is started and a second application is submitted. *)
Example daily_limit_missed_late_evening :
  get_daily_application_count 7 1700000000 (store_with automated_application)
  = 0%Z
  /\ apply_to_job_task
       (sample_env (store_with automated_application) 1 (Returned tt)
                   (Returned true))
       0 7 other_url "pnet" None false
     = ([StartBrowser; ApplyToJob other_url "/media/documents/7/cv.pdf";
         CloseBrowser],
        store_with automated_application,
        Done (mkResult true other_url "pnet"
                "Application submitted successfully")).
Proof. split; vm_compute; reflexivity. Qed.

(** ** Retries *)

Section Retries.

(** A retry is asked for only below the budget, with the fixed delay, and
    only when the body raised an exception other than [User.DoesNotExist]. *)
Lemma retry_inv (env : Env) (retries user_id : nat)
    (job_url job_board : string) (cv_id : option nat) (dry_run : bool)
    (tr : list Event) (db' : Db) (exc : exn) (countdown : Z) :
  apply_to_job_task env retries user_id job_url job_board cv_id dry_run
    = (tr, db', Retry exc countdown) ->
  countdown = default_retry_delay
  /\ (retries < max_retries)%nat
  /\ exists msg,
       exc = Exception msg
       /\ task_body env user_id job_url job_board cv_id dry_run
            (mkResult false job_url job_board "") = (tr, Raised exc).
Proof.
  unfold apply_to_job_task.
  destruct (task_body env user_id job_url job_board cv_id dry_run
              (mkResult false job_url job_board "")) as [tr0 [r | [| msg]]];
    try discriminate.
  destruct (Nat.ltb_spec retries max_retries) as [Hlt | Hge]; [| discriminate].
  intros [= <- _ <- <-]. split; [reflexivity |]. split; [exact Hlt |].
  now exists msg.
Qed.

(** The worker stays within its budget and always ends with a result. *)
Lemma worker_spec (world : nat -> Env) (user_id : nat)
    (job_url job_board : string) (cv_id : option nat) (dry_run : bool)
    (budget retries : nat) :
  (budget + retries = max_retries)%nat ->
  let '(delays, w) :=
    worker budget retries world user_id job_url job_board cv_id dry_run in
  (length delays <= budget)%nat
  /\ Forall (fun t => t = default_retry_delay) delays
  /\ exists r, w = Finished r.
Proof.
  revert retries. induction budget as [| budget IH]; intros retries Hsum;
    cbn [worker];
    destruct (apply_to_job_task (world retries) retries user_id job_url
                job_board cv_id dry_run) as [[tr db'] [r | exc countdown]] eqn:Ht.
  - split; [cbn; lia |]. split; [constructor |]. now exists r.
  - apply retry_inv in Ht as (_ & Hlt & _). lia.
  - split; [cbn; lia |]. split; [constructor |]. now exists r.
  - apply retry_inv in Ht as (-> & _ & _).
    specialize (IH (S retries) ltac:(lia)).
    destruct (worker budget (S retries) world user_id job_url job_board
                cv_id dry_run) as [delays w].
    destruct IH as (Hlen & Hall & Hfin).
    split; [cbn; lia |]. split; [now constructor | exact Hfin].
Qed.

(** How an execution ends, by what its body did. *)
Lemma task_end_cases (env : Env) (retries user_id : nat)
    (job_url job_board : string) (cv_id : option nat) (dry_run : bool) :
  let body :=
    task_body env user_id job_url job_board cv_id dry_run
      (mkResult false job_url job_board "") in
  apply_to_job_task env retries user_id job_url job_board cv_id dry_run
  = (body.1, env_db env,
     match body.2 with
     | Returned r => Done r
     | Raised User_DoesNotExist =>
         Done (mkResult false job_url job_board "User not found")
     | Raised (Exception msg) =>
         if (retries <? 3)%nat then Retry (Exception msg) 60
         else Done (mkResult false job_url job_board ("Task failed: " ++ msg))
     end).
Proof.
  cbn zeta. unfold apply_to_job_task.
  destruct (task_body env user_id job_url job_board cv_id dry_run
              (mkResult false job_url job_board "")) as [tr [r | [| msg]]];
    try reflexivity.
  cbn [fst snd]. change max_retries with 3%nat.
  destruct (retries <? 3)%nat; reflexivity.
Qed.

(** A task whose every execution raises: the worker asks three times for
    a rerun, and the fourth execution reports the failure. *)
Lemma worker_always_failing (world : nat -> Env) (user_id : nat)
    (job_url job_board : string) (cv_id : option nat) (dry_run : bool)
    (msg : nat -> string) :
  (forall k,
      (task_body (world k) user_id job_url job_board cv_id dry_run
         (mkResult false job_url job_board "")).2
      = Raised (Exception (msg k))) ->
  delay world user_id job_url job_board cv_id dry_run
  = ([60%Z; 60%Z; 60%Z],
     Finished (mkResult false job_url job_board ("Task failed: " ++ msg 3%nat))).
Proof.
  intros Hraise. unfold delay. change max_retries with 3%nat.
  cbn [worker].
  rewrite !task_end_cases. cbn zeta. rewrite !Hraise. reflexivity.
Qed.

End Retries.

(** C7 (as amended).  How one execution of the task ends, [retries] being
    the number of retries made before it.

    - An exception other than [User.DoesNotExist] raised anywhere in the
      body is retried while fewer than three retries have been made, always
      after sixty seconds; once three retries have been made it ends the
      task with the failure "Task failed: ...".
    - A body that returns a result (every guard abort, the dry run, the
      adapter answering true or false) ends the task with that result, and
      [User.DoesNotExist] ends it with "User not found": neither is ever
      retried.
    - A retry comes from one of four places, and only the last two have
      started a browser: the profile look-up (a user without profile), the
      CV look-up (a CV document without a file), the start of the browser,
      the adapter call.
    - The worker runs a queued task at most four times, waits sixty seconds
      before each rerun, and always ends with a result; a task that raises
      at every execution is rerun exactly three times and then reported as
      failed. *)
Theorem retry_policy (world : nat -> Env) (retries user_id : nat)
    (job_url job_board : string) (cv_id : option nat) (dry_run : bool)
    (tr : list Event) (db' : Db) (e : TaskEnd) :
  apply_to_job_task (world retries) retries user_id job_url job_board cv_id
    dry_run = (tr, db', e) ->
  let env := world retries in
  let body :=
    task_body env user_id job_url job_board cv_id dry_run
      (mkResult false job_url job_board "") in
  (forall msg,
      body.2 = Raised (Exception msg) -> (retries < 3)%nat ->
      e = Retry (Exception msg) 60)
  /\ (forall msg,
        body.2 = Raised (Exception msg) -> (3 <= retries)%nat ->
        e = Done (mkResult false job_url job_board ("Task failed: " ++ msg)))
  /\ (forall r, body.2 = Returned r -> e = Done r)
  /\ (body.2 = Raised User_DoesNotExist ->
      e = Done (mkResult false job_url job_board "User not found"))
  /\ (forall exc countdown,
        e = Retry exc countdown ->
        countdown = 60%Z
        /\ (retries < 3)%nat
        /\ body.2 = Raised exc
        /\ ((tr = [] /\ profiles env !! user_id = None
             /\ exc = Exception "UserProfile matching query does not exist.")
            \/ (tr = []
                /\ exc = Exception
                           "The 'file' attribute has no file associated with it."
                /\ exists doc, chosen_cv env cv_id user_id = Some doc
                               /\ file_path doc = "")
            \/ (tr = [StartBrowser] /\ start_browser env = Raised exc)
            \/ (exists h cv_path,
                  tr = [StartBrowser; ApplyToJob job_url cv_path; CloseBrowser]
                  /\ start_browser env = Returned tt
                  /\ apply_to_job env h job_url cv_path = Raised exc)))
  /\ (let '(delays, w) :=
        delay world user_id job_url job_board cv_id dry_run in
      (length delays <= 3)%nat
      /\ Forall (fun t => t = 60%Z) delays
      /\ exists r, w = Finished r)
  /\ (forall msg : nat -> string,
        (forall k,
            (task_body (world k) user_id job_url job_board cv_id dry_run
               (mkResult false job_url job_board "")).2
            = Raised (Exception (msg k))) ->
        delay world user_id job_url job_board cv_id dry_run
        = ([60%Z; 60%Z; 60%Z],
           Finished (mkResult false job_url job_board
                       ("Task failed: " ++ msg 3%nat)))).
Proof.
  intros Htask env body.
  pose proof (task_end_cases env retries user_id job_url job_board cv_id
                dry_run) as Hend.
  cbn zeta in Hend. fold body in Hend. fold env in Htask.
  rewrite Htask in Hend. injection Hend as Htr Hdb He.
  split; [| split; [| split; [| split; [| split; [| split]]]]].
  - intros msg Hb Hlt. rewrite He, Hb.
    apply Nat.ltb_lt in Hlt. now rewrite Hlt.
  - intros msg Hb Hge. rewrite He, Hb.
    apply Nat.ltb_ge in Hge. now rewrite Hge.
  - intros r Hb. now rewrite He, Hb.
  - intros Hb. now rewrite He, Hb.
  - intros exc countdown Hretry. rewrite Hretry in He.
    destruct (snd body) as [r | [| msg]] eqn:Hb; try discriminate He.
    destruct (Nat.ltb_spec retries 3) as [Hlt | Hge]; [| discriminate He].
    injection He as -> ->.
    split; [reflexivity |]. split; [exact Hlt |]. split; [reflexivity |].
    destruct (task_body_cases env user_id job_url job_board cv_id dry_run
                (mkResult false job_url job_board ""))
      as [(o & Hb' & Hearly)
         | (h & cvp & _ & _ & _ & _ & _ & _ & _ & _ & Hb')];
      fold body in Hb'; rewrite Hb' in Hb, Htr; cbn [fst snd] in Hb, Htr.
    + subst o. inversion Hearly as [| Hnp | | | doc Hdoc Hfile | | |].
      * left. repeat split; [exact Htr | exact Hnp].
      * right. left. repeat split; [exact Htr |]. now exists doc.
    + rewrite run_automation_cases in Hb, Htr.
      right. right.
      destruct (start_browser env) as [[] | ex] eqn:Hs.
      * right.
        destruct (apply_to_job env h job_url cvp) as [[|] | ex] eqn:Ha;
          try discriminate Hb.
        cbn [fst snd] in Hb, Htr. injection Hb as ->.
        exists h, cvp. repeat split; [exact Htr | exact Ha].
      * left. cbn [fst snd] in Hb, Htr. injection Hb as ->.
        split; [exact Htr | reflexivity].
  - pose proof (worker_spec world user_id job_url job_board cv_id dry_run
                  max_retries 0 ltac:(lia)) as Hw.
    unfold delay. exact Hw.
  - apply worker_always_failing.
Qed.

(** A browser that never starts: the third execution (two retries made)
    still asks for a retry, the fourth (three made) reports the failure,
    and the worker's three reruns are sixty seconds apart. *)
Lemma retry_policy_witness :
  apply_to_job_task broken_browser_env 2 7 other_url "pnet" None false
    = ([StartBrowser], empty_store,
       Retry (Exception "chrome not reachable") 60)
  /\ apply_to_job_task broken_browser_env 3 7 other_url "pnet" None false
     = ([StartBrowser], empty_store,
        Done (mkResult false other_url "pnet"
                "Task failed: chrome not reachable"))
  /\ delay (fun _ => broken_browser_env) 7 other_url "pnet" None false
     = ([60%Z; 60%Z; 60%Z],
        Finished (mkResult false other_url "pnet"
                    "Task failed: chrome not reachable")).
Proof.
  split; [| split].
  - destruct (apply_to_job_task broken_browser_env 2 7 other_url "pnet" None
                false) as [[tr db'] e] eqn:Htask.
    destruct (retry_policy (fun _ => broken_browser_env) 2 7 other_url "pnet"
                None false tr db' e Htask) as (Hretry & _).
    rewrite (Hretry "chrome not reachable"); [| reflexivity | lia].
    vm_compute in Htask. injection Htask as <- <- _. reflexivity.
  - destruct (apply_to_job_task broken_browser_env 3 7 other_url "pnet" None
                false) as [[tr db'] e] eqn:Htask.
    destruct (retry_policy (fun _ => broken_browser_env) 3 7 other_url "pnet"
                None false tr db' e Htask) as (_ & Hfail & _).
    rewrite (Hfail "chrome not reachable"); [| reflexivity | lia].
    vm_compute in Htask. injection Htask as <- <- _. reflexivity.
  - destruct (apply_to_job_task broken_browser_env 0 7 other_url "pnet" None
                false) as [[tr db'] e] eqn:Htask.
    destruct (retry_policy (fun _ => broken_browser_env) 0 7 other_url "pnet"
                None false tr db' e Htask) as (_ & _ & _ & _ & _ & _ & Hall).
    apply (Hall (fun _ => "chrome not reachable")). intros k. reflexivity.
Defined.

(** C7, counterexample.  User 7 has one CV on record, active, with no file.
    The first execution of the task raises [ValueError] when it reads
    [file.path], before any browser exists, and asks for a retry; so a
    retry does not need an exception from the automation step. *)
Lemma retry_without_browser :
  apply_to_job_task cv_without_file_env 0 7 other_url "pnet" None false
  = ([], empty_store,
     Retry (Exception "The 'file' attribute has no file associated with it.")
           60)
  /\ ~ retries_only_from_automation_step.
Proof.
  split; [vm_compute; reflexivity |].
  intros H.
  apply (H cv_without_file_env 0%nat 7%nat other_url "pnet" None false []
           empty_store
           (Exception "The 'file' attribute has no file associated with it.")
           60%Z).
  vm_compute. reflexivity.
Qed.

(** A browser that never starts: three retries, sixty seconds apart, and
    the fourth execution reports the failure. *)
Example retries_exhausted :
  delay (fun _ => broken_browser_env) 7 other_url "pnet" None false
  = ([60%Z; 60%Z; 60%Z],
     Finished (mkResult false other_url "pnet"
                 "Task failed: chrome not reachable")).
Proof. vm_compute. reflexivity. Qed.

(** ** More on the state machine *)

Section Lifecycle.

(** Every edge of the table goes forward in the order of [lifecycle]. *)
Lemma edge_increases_rank (o n : string) :
  spec_edge o n -> (rank o < rank n)%nat.
Proof.
  unfold spec_edge, spec_edges. cbn [In]. intros H.
  repeat (destruct H as [H | H];
          [ injection H as <- <-; vm_compute; lia | ]).
  contradiction.
Qed.

Lemma rank_lt_neq (o n : string) : (rank o < rank n)%nat -> o <> n.
Proof. intros H ->. lia. Qed.

(** One [transition] call: the status stays or moves forward. *)
Lemma transition_step_rank a new_status usr notes db :
  let a' := (transition a new_status usr notes db).1.2 in
  status a' = status a \/ (rank (status a) < rank (status a'))%nat.
Proof.
  pose proof (status_writers_and_table a new_status usr 0 notes 0%Z db)
    as [H _].
  destruct (transition a new_status usr notes db) as [[ok a'] db'].
  cbn [fst snd]. destruct ok.
  - destruct H as (Hs & [He | He] & _).
    + left. congruence.
    + right. rewrite Hs. now apply edge_increases_rank.
  - destruct H as [-> _]. now left.
Qed.

Lemma run_transitions_rank (cs : list StatusCall) :
  forallb is_transition_call cs = true ->
  forall a db,
    let a' := (run_calls cs a db).1 in
    status a' = status a \/ (rank (status a) < rank (status a'))%nat.
Proof.
  induction cs as [| c cs IH]; intros Hall a db; [now left |].
  cbn [forallb] in Hall. apply andb_true_iff in Hall as [Hc Hcs].
  destruct c as [ns usr notes | ]; [| discriminate Hc].
  cbn [run_calls run_call].
  pose proof (transition_step_rank a ns usr notes db) as Hstep.
  destruct (transition a ns usr notes db) as [[ok a1] db1].
  cbn [fst snd] in Hstep.
  specialize (IH Hcs a1 db1). cbn zeta in *.
  destruct Hstep as [He | Hlt], IH as [He' | Hlt'].
  - left. congruence.
  - right. rewrite <- He. exact Hlt'.
  - right. rewrite He'. exact Hlt.
  - right. lia.
Qed.

Lemma run_calls_app (cs1 cs2 : list StatusCall) a db :
  run_calls (cs1 ++ cs2) a db =
  run_calls cs2 (run_calls cs1 a db).1 (run_calls cs1 a db).2.
Proof.
  revert a db. induction cs1 as [| c cs1 IH]; intros a db; [reflexivity |].
  cbn [run_calls app]. destruct (run_call c a db) as [a1 db1]. apply IH.
Qed.

(** One [transition] call on a final state keeps it. *)
Lemma transition_step_final a new_status usr notes db :
  status a = "rejected" \/ status a = "withdrawn" ->
  status (transition a new_status usr notes db).1.2 = status a.
Proof.
  intros Hf.
  pose proof (status_writers_and_table a new_status usr 0 notes 0%Z db)
    as [H _].
  destruct (transition a new_status usr notes db) as [[ok a'] db'].
  cbn [fst snd]. destruct ok.
  - destruct H as (Hs & [He | He] & _); [congruence |].
    apply no_edge_from_final in He. tauto.
  - destruct H as [-> _]. reflexivity.
Qed.

Lemma run_transitions_final (cs : list StatusCall) :
  forallb is_transition_call cs = true ->
  forall a db,
    status a = "rejected" \/ status a = "withdrawn" ->
    status (run_calls cs a db).1 = status a.
Proof.
  induction cs as [| c cs IH]; intros Hall a db Hf; [reflexivity |].
  cbn [forallb] in Hall. apply andb_true_iff in Hall as [Hc Hcs].
  destruct c as [ns usr notes | ]; [| discriminate Hc].
  cbn [run_calls run_call].
  pose proof (transition_step_final a ns usr notes db Hf) as Hstep.
  destruct (transition a ns usr notes db) as [[ok a1] db1].
  cbn [fst snd] in Hstep.
  rewrite IH; [exact Hstep | exact Hcs | now rewrite Hstep].
Qed.

End Lifecycle.

Lemma forms_table_same (old_status new_status : string) :
  Forms._is_valid_transition old_status new_status
  = is_valid_transition old_status new_status.
Proof.
  unfold Forms._is_valid_transition, is_valid_transition.
  assert (Heq : Forms.valid_transitions = VALID_TRANSITIONS)
    by (vm_compute; reflexivity).
  rewrite Heq.
  destruct (String.eqb old_status new_status);
    [apply orb_true_r | apply orb_false_r].
Qed.

(** X1.  The form's private copy of the table and the tracker's table
    decide the same pairs: [ApplicationForm._is_valid_transition] and
    [StatusTracker.is_valid_transition] agree on every two strings, so the
    form accepts a pair exactly when it is an edge of the table or the two
    statuses are equal. *)
Theorem form_and_tracker_agree (old_status new_status : string) :
  Forms._is_valid_transition old_status new_status
  = is_valid_transition old_status new_status
  /\ (Forms._is_valid_transition old_status new_status = true
      <-> old_status = new_status \/ spec_edge old_status new_status).
Proof.
  split; [apply forms_table_same |].
  rewrite forms_table_same. apply is_valid_transition_iff.
Qed.

(** X2.  [ApplicationForm.clean] on an instance whose row is stored, with a
    non-empty status submitted: the form accepts exactly the moves the
    tracker accepts from the stored status, and otherwise raises
    "Cannot change status from X to Y." naming the stored status.  For an
    instance that has no key yet the form accepts any status. *)
Theorem form_clean_checks_stored_status (instance row : Application)
    (cleaned_data : gmap string string) (db : Db) (k : nat) (s : string) :
  cleaned_data !! "status" = Some s ->
  s <> "" ->
  (pk instance = Some (S k) ->
   applications db !! S k = Some row ->
   Forms.clean instance cleaned_data db =
   if is_valid_transition (status row) s then Forms.Cleaned cleaned_data
   else Forms.ValidationError
          ("Cannot change status from " ++ status row ++ " to " ++ s ++ "."))
  /\ (pk instance = None ->
      Forms.clean instance cleaned_data db = Forms.Cleaned cleaned_data).
Proof.
  intros Hs Hne. unfold Forms.clean. rewrite Hs. split.
  - intros Hpk Hrow. rewrite Hpk.
    cbn [Forms.truthy_pk Forms.truthy_str default from_option id].
    unfold nonempty. apply String.eqb_neq in Hne. rewrite Hne. cbn [negb andb].
    rewrite Hrow, forms_table_same.
    destruct (is_valid_transition (status row) s); reflexivity.
  - intros Hpk. rewrite Hpk. reflexivity.
Qed.

Lemma form_clean_checks_stored_status_witness :
  Forms.clean (set_status "offer" saved_application)
    {[ "status" := "offer" ]} (store_with saved_application)
  = Forms.ValidationError "Cannot change status from saved to offer.".
Proof.
  destruct (form_clean_checks_stored_status
              (set_status "offer" saved_application) saved_application
              {[ "status" := "offer" ]} (store_with saved_application)
              0 "offer") as [H _].
  - vm_compute. reflexivity.
  - discriminate.
  - rewrite H; [vm_compute; reflexivity | reflexivity | reflexivity].
Defined.

(** X3.  The table is closed and has no loops: for every string [s], each
    status listed by [get_available_transitions s] is one of the nine of
    [STATUS_CHOICES], differs from [s], and lies later in the life cycle
    than [s]; a string that is not one of the nine has no target at all. *)
Theorem available_transitions_closed (s t : string) :
  (In t (get_available_transitions s) ->
   In s STATUS_CHOICES /\ In t STATUS_CHOICES /\ s <> t
   /\ (rank s < rank t)%nat)
  /\ (~ In s STATUS_CHOICES -> get_available_transitions s = []).
Proof.
  split.
  - intros H. apply str_in_In in H. rewrite table_agrees in H.
    apply spec_edgeb_iff in H.
    pose proof (edge_increases_rank s t H) as Hr.
    split; [| split; [| split; [now apply rank_lt_neq | exact Hr]]];
      unfold spec_edge, spec_edges in H; cbn [In] in H;
      repeat (destruct H as [H | H];
              [ injection H as <- <-; cbn; auto 12 | ]);
      contradiction.
  - intros Hn. destruct (get_available_transitions s) as [| t' l] eqn:Hg;
      [reflexivity |].
    exfalso. apply Hn.
    assert (Hin : In t' (get_available_transitions s))
      by (rewrite Hg; now left).
    apply str_in_In in Hin. rewrite table_agrees in Hin.
    apply spec_edgeb_iff in Hin.
    unfold spec_edge, spec_edges in Hin; cbn [In] in Hin;
      repeat (destruct Hin as [Hin | Hin];
              [ injection Hin as <- <-; cbn; auto 12 | ]);
      contradiction.
Qed.

Lemma available_transitions_closed_witness :
  In "screening" STATUS_CHOICES /\ "applied" <> "screening"
  /\ get_available_transitions "archived" = [].
Proof.
  destruct (available_transitions_closed "applied" "screening") as [H _].
  destruct (available_transitions_closed "archived" "x") as [_ H'].
  destruct H as (_ & H2 & H3 & _); [vm_compute; auto |].
  split; [exact H2 |]. split; [exact H3 |].
  apply H'. cbn. intros H. repeat (destruct H as [H | H]; [discriminate H |]).
  exact H.
Defined.

(** X4.  Under [StatusTracker.transition] alone the status never goes
    back: after any sequence of calls, the final states [rejected] and
    [withdrawn] are kept for ever, and a status that has been left by some
    prefix of the calls is not the status at the end. *)
Theorem transition_never_goes_back (cs1 cs2 : list StatusCall)
    (a : Application) (db : Db) :
  forallb is_transition_call (cs1 ++ cs2) = true ->
  (status a = "rejected" \/ status a = "withdrawn" ->
   status (run_calls (cs1 ++ cs2) a db).1 = status a)
  /\ (status (run_calls cs1 a db).1 <> status a ->
      status (run_calls (cs1 ++ cs2) a db).1 <> status a).
Proof.
  intros Hall. split.
  - intros Hf. now apply run_transitions_final.
  - intros Hleft. rewrite forallb_app in Hall.
    apply andb_true_iff in Hall as [H1 H2].
    rewrite run_calls_app.
    destruct (run_transitions_rank cs1 H1 a db) as [He | Hlt];
      [contradiction |].
    destruct (run_transitions_rank cs2 H2 (run_calls cs1 a db).1
                (run_calls cs1 a db).2) as [He | Hlt'].
    + rewrite He. exact Hleft.
    + apply not_eq_sym, rank_lt_neq. lia.
Qed.

Lemma transition_never_goes_back_witness :
  status (run_calls
            ([ViaTransition "applied" None ""]
               ++ [ViaTransition "saved" None ""; ViaTransition "rejected" None "";
                   ViaTransition "offer" None ""])
            saved_application (store_with saved_application)).1
  = "rejected".
Proof.
  pose proof (transition_never_goes_back
                [ViaTransition "applied" None ""]
                [ViaTransition "saved" None ""; ViaTransition "rejected" None "";
                 ViaTransition "offer" None ""]
                saved_application (store_with saved_application) eq_refl)
    as [_ H].
  assert (Hne : status (run_calls
            ([ViaTransition "applied" None ""]
               ++ [ViaTransition "saved" None ""; ViaTransition "rejected" None "";
                   ViaTransition "offer" None ""])
            saved_application (store_with saved_application)).1
          <> status saved_application).
  { apply H. vm_compute. discriminate. }
  vm_compute. reflexivity.
Defined.

(** ** [applied_date] and the daily count *)

Section AppliedDate.

Lemma update_status_applied_date a new_status usr notes now db :
  applied_date (update_status a new_status usr notes now db).1 =
  if String.eqb new_status "applied" && unset (applied_date a)
  then Some now else applied_date a.
Proof.
  unfold update_status.
  match goal with |- context [save ?i db] =>
    pose proof (saved_instance_fields i db) as Hf;
    destruct (save i db) as [[k a'] db'] end.
  destruct Hf as (_ & _ & Hd & _). cbn [fst]. rewrite Hd.
  cbn [set_status applied_date].
  destruct (String.eqb new_status "applied" && unset (applied_date a));
    reflexivity.
Qed.

Lemma transition_applied_date a new_status usr notes db :
  applied_date (transition a new_status usr notes db).1.2 = applied_date a.
Proof.
  destruct (is_valid_transition (status a) new_status) eqn:Hv.
  - destruct (transition_accepted a new_status usr notes db Hv)
      as (k & a' & db' & Hs & ->).
    pose proof (saved_instance_fields (set_status new_status a) db) as Hf.
    rewrite Hs in Hf. destruct Hf as (_ & _ & Hd & _). exact Hd.
  - now rewrite (transition_rejected _ _ _ _ _ Hv).
Qed.

Lemma run_call_keeps_date c a db d :
  applied_date a = Some d -> applied_date (run_call c a db).1 = Some d.
Proof.
  intros Hd. destruct c as [ns usr notes | ns usr notes now]; cbn [run_call].
  - pose proof (transition_applied_date a ns usr notes db) as H.
    destruct (transition a ns usr notes db) as [[ok a'] db'].
    cbn [fst snd] in *. congruence.
  - rewrite update_status_applied_date, Hd. cbn [unset].
    now rewrite andb_false_r.
Qed.

End AppliedDate.

(** X5.  [applied_date] is written at most once by the two services:
    whatever sequence of [transition] and [update_status] calls is made on
    an application that has a date, the date at the end is the one it had.
    [mark_as_applied] is the exception: it replaces the date by the current
    time. *)
Theorem applied_date_set_once (cs : list StatusCall) (a : Application)
    (db : Db) (d now : Z) :
  applied_date a = Some d ->
  applied_date (run_calls cs a db).1 = Some d
  /\ applied_date (mark_as_applied a now db).1 = Some now.
Proof.
  intros Hd. split.
  - revert a db Hd. induction cs as [| c cs IH]; intros a db Hd; [exact Hd |].
    cbn [run_calls].
    pose proof (run_call_keeps_date c a db d Hd) as Hc.
    destruct (run_call c a db) as [a1 db1]. now apply IH.
  - unfold mark_as_applied.
    match goal with |- context [save ?i db] =>
      pose proof (saved_instance_fields i db) as Hf;
      destruct (save i db) as [[k a'] db'] end.
    destruct Hf as (_ & _ & Hd' & _). exact Hd'.
Qed.

Lemma applied_date_set_once_witness :
  applied_date
    (run_calls [ViaUpdateStatus "screening" 7 "" 1800000000;
                ViaUpdateStatus "applied" 7 "" 1800000000;
                ViaTransition "rejected" None ""]
       applied_application (store_with applied_application)).1
  = Some 1700000000%Z
  /\ applied_date
       (mark_as_applied applied_application 1800000000
          (store_with applied_application)).1
     = Some 1800000000%Z.
Proof.
  apply (applied_date_set_once _ applied_application
           (store_with applied_application) 1700000000 1800000000).
  reflexivity.
Defined.

Section DailyCount.

Lemma filter_length_perm {A} (p : A -> bool) (l l' : list A) :
  Permutation l l' ->
  length (List.filter p l) = length (List.filter p l').
Proof.
  induction 1 as [| x l l' _ IH | x y l | l l' l'' _ IH1 _ IH2]; cbn.
  - reflexivity.
  - destruct (p x); cbn; congruence.
  - destruct (p x), (p y); reflexivity.
  - congruence.
Qed.

Lemma rows_insert_fresh (m : gmap nat Application) k a :
  m !! k = None ->
  Permutation (map_to_list (<[k := a]> m)).*2 (a :: (map_to_list m).*2).
Proof.
  intros H. rewrite (map_to_list_insert m k a H). reflexivity.
Qed.

Lemma rows_insert_stored (m : gmap nat Application) k a old :
  m !! k = Some old ->
  Permutation (map_to_list (<[k := a]> m)).*2
              (a :: (map_to_list (delete k m)).*2)
  /\ Permutation (map_to_list m).*2 (old :: (map_to_list (delete k m)).*2).
Proof.
  intros H. split.
  - rewrite <- (insert_delete_eq m k a).
    apply rows_insert_fresh, lookup_delete_eq.
  - rewrite <- (insert_id m k old H) at 1.
    rewrite <- (insert_delete_eq m k old).
    apply rows_insert_fresh, lookup_delete_eq.
Qed.

(** Writing a row: the count moves by what the new row and the row it
    replaces, if any, contribute. *)
Lemma daily_count_with_row usr now db k a :
  get_daily_application_count usr now (with_row k a db)
  = (get_daily_application_count usr now db
     + (if counts_for usr now a then 1 else 0)
     - match applications db !! k with
       | Some old => if counts_for usr now old then 1 else 0
       | None => 0
       end)%Z.
Proof.
  rewrite !daily_count_rows. unfold rows, with_row. cbn [applications].
  destruct (applications db !! k) as [old |] eqn:Hk.
  - destruct (rows_insert_stored (applications db) k a old Hk) as [H1 H2].
    rewrite (filter_length_perm _ _ _ H1), (filter_length_perm _ _ _ H2).
    cbn [List.filter].
    destruct (counts_for usr now a), (counts_for usr now old); cbn [length]; lia.
  - rewrite (filter_length_perm _ _ _ (rows_insert_fresh _ k a Hk)).
    cbn [List.filter]. destruct (counts_for usr now a); cbn [length]; lia.
Qed.

Lemma daily_count_same_applications usr now db db' :
  applications db' = applications db ->
  get_daily_application_count usr now db'
  = get_daily_application_count usr now db.
Proof. intros H. rewrite !daily_count_rows. unfold rows. now rewrite H. Qed.

Lemma save_applications instance db k :
  pk instance = Some k ->
  applications (save instance db).2 = <[k := instance]> (applications db).
Proof.
  intros Hpk. unfold save. rewrite Hpk. cbn [snd].
  rewrite log_application_created_applications. cbn [applications].
  now rewrite log_status_change_applications.
Qed.

End DailyCount.

(** X6.  What a new row adds to [get_daily_application_count]: a row
    written under a free key leaves the count of a user as it was when the
    row belongs to another user, is not [automated], has no
    [applied_date], or its [applied_date], taken in [TIME_ZONE], falls on
    another day than the UTC day of [now]; it raises the count by one when
    it is the user's, automated, and so dated.  In UTC terms, the user's
    automated row counts exactly when it was stamped on the UTC day of
    [now] before 22:00, or on the UTC day before at 22:00 or later. *)
Theorem daily_count_counts_automated_today (usr : nat) (now : Z) (db : Db)
    (k : nat) (a : Application) :
  applications db !! k = None ->
  let before := get_daily_application_count usr now db in
  let after := get_daily_application_count usr now (with_row k a db) in
  (user a <> usr -> after = before)
  /\ (application_method a <> "automated" -> after = before)
  /\ (applied_date a = None -> after = before)
  /\ (forall t, applied_date a = Some t -> date_in_time_zone t <> date now ->
                after = before)
  /\ (forall t, user a = usr -> application_method a = "automated" ->
                applied_date a = Some t -> date_in_time_zone t = date now ->
                after = (before + 1)%Z)
  /\ (forall t, user a = usr -> application_method a = "automated" ->
                applied_date a = Some t ->
                after
                = (before
                   + if ((date t =? date now)
                         && (t mod 86400 <? next_day_in_time_zone))
                        || ((date t + 1 =? date now)
                            && (next_day_in_time_zone <=? t mod 86400))
                     then 1 else 0)%Z).
Proof.
  intros Hk before after. subst before after.
  rewrite daily_count_with_row, Hk. unfold counts_for.
  repeat split.
  - intros Hu. apply Nat.eqb_neq in Hu. rewrite Hu. cbn. lia.
  - intros Hm. apply String.eqb_neq in Hm. rewrite Hm, andb_false_r. lia.
  - intros ->. rewrite andb_false_r. cbn. lia.
  - intros t -> Hd. apply Z.eqb_neq in Hd. rewrite Hd, andb_false_r. cbn. lia.
  - intros t Hu Hm -> Hd.
    apply Nat.eqb_eq in Hu. apply String.eqb_eq in Hm. apply Z.eqb_eq in Hd.
    rewrite Hu, Hm, Hd. cbn. lia.
  - intros t Hu Hm ->.
    apply Nat.eqb_eq in Hu. apply String.eqb_eq in Hm. rewrite Hu, Hm.
    rewrite andb_true_r. cbn [andb].
    destruct (date_in_time_zone_cases t) as [[Hsec ->] | [Hsec ->]].
    + apply Z.ltb_lt in Hsec as Hlt. rewrite Hlt, andb_true_r.
      replace (next_day_in_time_zone <=? t mod 86400)%Z with false
        by (symmetry; apply Z.leb_gt; exact Hsec).
      rewrite andb_false_r, orb_false_r. lia.
    + apply Z.leb_le in Hsec as Hle. rewrite Hle, andb_true_r.
      replace (t mod 86400 <? next_day_in_time_zone)%Z with false
        by (symmetry; apply Z.ltb_ge; exact Hsec).
      rewrite andb_false_r, orb_false_l. lia.
Qed.

(** On 14 November, 22:21 UTC: a row stamped the evening before at 22:30
    UTC is counted, a row stamped eight minutes ago, at 22:13 UTC, is
    not. *)
Lemma daily_count_counts_automated_today_witness :
  get_daily_application_count 7 1700000500
    (with_row 2
       (mkApplication (Some 2) 7 1 1 "applied" (Some 1699914600%Z) "automated")
       (store_with applied_application))
  = (get_daily_application_count 7 1700000500
       (store_with applied_application) + 1)%Z
  /\ get_daily_application_count 7 1700000500
       (with_row 2 automated_application (store_with applied_application))
     = get_daily_application_count 7 1700000500
         (store_with applied_application).
Proof.
  split.
  - destruct (daily_count_counts_automated_today 7 1700000500
                (store_with applied_application) 2
                (mkApplication (Some 2) 7 1 1 "applied" (Some 1699914600%Z)
                   "automated"))
      as (_ & _ & _ & _ & H & _); [reflexivity |].
    apply (H 1699914600%Z); reflexivity.
  - destruct (daily_count_counts_automated_today 7 1700000500
                (store_with applied_application) 2 automated_application)
      as (_ & _ & _ & H & _); [reflexivity |].
    apply (H 1700000000%Z); [reflexivity | vm_compute; discriminate].
Defined.

(** X7.  [update_status] and the daily count.  Moving a stored, automated,
    not yet dated application of a user to [applied] at time [now] stamps
    it with [now]; the count of that user at [now] rises by one when [now]
    is before 22:00 UTC, and stays as it was in the last two hours of the
    UTC day, when [TIME_ZONE] is already on the next day. *)
Theorem update_status_counts_application (a : Application) (k usr : nat)
    (u : nat) (notes : string) (now : Z) (db : Db) :
  pk a = Some k ->
  applications db !! k = Some a ->
  user a = usr ->
  application_method a = "automated" ->
  applied_date a = None ->
  get_daily_application_count usr now
    (update_status a "applied" u notes now db).2
  = (get_daily_application_count usr now db
     + if (now mod 86400 <? next_day_in_time_zone)%Z then 1 else 0)%Z.
Proof.
  intros Hpk Hrow Hu Hm Hd. unfold update_status.
  change (applied_date (set_status "applied" a)) with (applied_date a).
  rewrite Hd.
  replace ("applied" =? "applied")%string with true by reflexivity.
  cbn [unset andb].
  match goal with |- context [save ?i db] =>
    pose proof (save_applications i db k Hpk) as Hs;
    destruct (save i db) as [[k' a'] db'] end.
  cbn [snd] in Hs |- *.
  rewrite (daily_count_same_applications _ _ db'
             (create_activity _ db') eq_refl).
  rewrite (daily_count_same_applications usr now
             (with_row k (set_applied_date (Some now) (set_status "applied" a)) db)
             db') by exact Hs.
  rewrite daily_count_with_row, Hrow. unfold counts_for.
  cbn [set_applied_date set_status user applied_date application_method].
  apply Nat.eqb_eq in Hu. apply String.eqb_eq in Hm.
  rewrite Hu, Hm, Hd. cbn [andb]. rewrite andb_true_r.
  destruct (date_in_time_zone_cases now) as [[Hsec ->] | [Hsec ->]].
  - apply Z.ltb_lt in Hsec as Hlt. rewrite Hlt, Z.eqb_refl. lia.
  - replace (now mod 86400 <? next_day_in_time_zone)%Z with false
      by (symmetry; apply Z.ltb_ge; exact Hsec).
    replace (date now + 1 =? date now)%Z with false
      by (symmetry; apply Z.eqb_neq; lia).
    lia.
Qed.

(** The same application moved to [applied] at 19:26 UTC is counted at
    once; moved at 22:13 UTC it is not. *)
Lemma update_status_counts_application_witness :
  get_daily_application_count 7 1699990000
    (update_status undated_automated_application "applied" 7 "" 1699990000
       (store_with undated_automated_application)).2
  = 1%Z
  /\ get_daily_application_count 7 1700000000
       (update_status undated_automated_application "applied" 7 "" 1700000000
          (store_with undated_automated_application)).2
     = 0%Z.
Proof.
  split.
  - rewrite (update_status_counts_application undated_automated_application
               1 7 7 "" 1699990000 (store_with undated_automated_application));
      reflexivity.
  - rewrite (update_status_counts_application undated_automated_application
               1 7 7 "" 1700000000 (store_with undated_automated_application));
      reflexivity.
Defined.

(** X8.  [StatusTracker.transition] and the daily count: a call on an
    application whose instance is the stored row changes no user's count
    for any day, whether it is accepted or not; in particular a move to
    [applied] made through the tracker is not counted. *)
Theorem transition_keeps_daily_count (a : Application) (k : nat)
    (new_status : string) (usr : option nat) (notes : string) (db : Db)
    (u : nat) (now : Z) :
  pk a = Some k ->
  applications db !! k = Some a ->
  get_daily_application_count u now (transition a new_status usr notes db).2
  = get_daily_application_count u now db.
Proof.
  intros Hpk Hrow.
  destruct (is_valid_transition (status a) new_status) eqn:Hv.
  - destruct (transition_accepted a new_status usr notes db Hv)
      as (k' & a' & db' & Hs & ->).
    pose proof (save_applications (set_status new_status a) db k Hpk) as Ha.
    rewrite Hs in Ha. cbn [snd] in Ha |- *.
    rewrite (daily_count_same_applications u now
               (with_row k (set_status new_status a) db)
               (create_activity _ db')) by exact Ha.
    rewrite daily_count_with_row, Hrow. unfold counts_for.
    cbn [set_status user applied_date application_method]. lia.
  - now rewrite (transition_rejected _ _ _ _ _ Hv).
Qed.

Lemma transition_keeps_daily_count_witness :
  get_daily_application_count 7 1700000000
    (transition undated_automated_application "applied" None ""
       (store_with undated_automated_application)).2
  = 0%Z.
Proof.
  rewrite (transition_keeps_daily_count undated_automated_application 1
             "applied" None "" (store_with undated_automated_application)
             7 1700000000); reflexivity.
Defined.

(** ** The dashboard summary *)

Section StatusSummary.

Import Summary.

Lemma foldl_insert_lookup (f : string -> nat) (l : list string)
    (m0 : gmap string nat) (s : string) :
  foldl (fun m x => <[x := f x]> m) m0 l !! s
  = if bool_decide (s ∈ l) then Some (f s) else m0 !! s.
Proof.
  revert m0. induction l as [| x l IH]; intros m0; [reflexivity |].
  cbn [foldl]. rewrite IH.
  destruct (bool_decide (s ∈ l)) eqn:Hl.
  - apply bool_decide_eq_true in Hl.
    rewrite bool_decide_eq_true_2 by (now right). reflexivity.
  - apply bool_decide_eq_false in Hl.
    destruct (decide (s = x)) as [-> | Hne].
    + rewrite bool_decide_eq_true_2 by (now left). apply lookup_insert_eq.
    + rewrite bool_decide_eq_false_2
        by (intros [? | ?]%elem_of_cons; contradiction).
      now apply lookup_insert_ne.
Qed.

Lemma count_status_cons a apps s :
  count_status (a :: apps) s
  = ((if String.eqb (status a) s then 1 else 0) + count_status apps s)%nat.
Proof.
  unfold count_status. cbn [List.filter].
  destruct (String.eqb (status a) s); reflexivity.
Qed.

(** A status among the nine is counted under exactly one key. *)
Lemma one_key_per_status (x : string) :
  In x STATUS_CHOICES ->
  sum_list (map (fun s => if String.eqb x s then 1 else 0) STATUS_CHOICES)
  = 1%nat.
Proof.
  cbn [In STATUS_CHOICES]. intros H.
  repeat (destruct H as [H | H]; [subst x; vm_compute; reflexivity |]).
  contradiction.
Qed.

Lemma sum_list_map_plus {A} (g h : A -> nat) (l : list A) :
  sum_list (map (fun s => g s + h s)%nat l)
  = (sum_list (map g l) + sum_list (map h l))%nat.
Proof. induction l as [| x l IH]; cbn; [reflexivity | lia]. Qed.

Lemma summary_total apps :
  Forall (fun a => In (status a) STATUS_CHOICES) apps ->
  sum_list (map (count_status apps) STATUS_CHOICES) = length apps.
Proof.
  induction 1 as [| a apps Ha _ IH].
  - vm_compute. reflexivity.
  - rewrite (map_ext _ _ (count_status_cons a apps)).
    rewrite (sum_list_map_plus
               (fun s => if String.eqb (status a) s then 1%nat else 0%nat)
               (count_status apps)).
    rewrite IH, (one_key_per_status _ Ha). reflexivity.
Qed.

End StatusSummary.

(** X9.  [get_status_summary] has exactly the nine statuses as keys, each
    with the number of applications in that status (zero included), and
    when every application counted has one of the nine statuses the nine
    numbers add up to the number of applications. *)
Theorem status_summary_counts (arg : Summary.UserOrQueryset) (db : Db)
    (s : string) :
  let apps := Summary.summary_applications arg db in
  let summary := Summary.get_status_summary arg db in
  (In s STATUS_CHOICES -> summary !! s = Some (Summary.count_status apps s))
  /\ (~ In s STATUS_CHOICES -> summary !! s = None)
  /\ (Forall (fun a => In (status a) STATUS_CHOICES) apps ->
      sum_list (map (fun s => default 0%nat (summary !! s)) STATUS_CHOICES)
      = length apps).
Proof.
  intros apps summary. subst summary. unfold Summary.get_status_summary.
  fold apps. split; [| split].
  - intros Hin. rewrite foldl_insert_lookup.
    rewrite bool_decide_eq_true_2 by (now apply list_elem_of_In).
    reflexivity.
  - intros Hn. rewrite foldl_insert_lookup.
    rewrite bool_decide_eq_false_2 by (now rewrite list_elem_of_In).
    apply lookup_empty.
  - intros Hall. rewrite <- (summary_total apps Hall).
    apply (f_equal sum_list), map_ext_in. intros x Hx. rewrite foldl_insert_lookup.
    rewrite bool_decide_eq_true_2 by (now apply list_elem_of_In).
    reflexivity.
Qed.

Lemma status_summary_counts_witness :
  Summary.get_status_summary (Summary.AUser 7) (store_with applied_application)
    !! "applied" = Some 1%nat
  /\ Summary.get_status_summary (Summary.AUser 7)
       (store_with applied_application) !! "offer" = Some 0%nat.
Proof.
  split.
  - destruct (status_summary_counts (Summary.AUser 7)
                (store_with applied_application) "applied") as [H _].
    rewrite H; [vm_compute; reflexivity | cbn; auto 12].
  - destruct (status_summary_counts (Summary.AUser 7)
                (store_with applied_application) "offer") as [H _].
    rewrite H; [vm_compute; reflexivity | cbn; auto 12].
Defined.

(** ** [create_application] *)

Section CreateApplication.

Import Manager.

Variables (usr : nat) (job_data company_data : gmap string string)
          (application_data : option (gmap string string)).

(** The row [Application.objects.create] writes, and the log entry of the
    [post_save] receiver. *)
Lemma create_application_row_eq (job_k company_k : nat)
    (d : gmap string string) (st : Store) :
  create_application_row usr job_k company_k d st =
  let db := store_db st in
  let k := next_pk db in
  let a := mkApplication (Some k) usr job_k company_k
             (dict_get d "status" "saved") None
             (dict_get d "application_method" "manual") in
  (mkStore
     (mkDb (jobs db) (<[k := a]> (applications db)) (S k)
           (app (activities db)
                [mkActivity k "status_change"
                   ("Application created with status: " ++ status a)
                   (Some usr)]))
     (companies st) (next_company_pk st) (next_job_pk st) (job_details st)
     (<[k := mkApplicationDetails (dict_get d "priority" "medium")
               (dict_get d "notes" "")]> (application_details st)),
   a).
Proof. reflexivity. Qed.

(** With both keys present and the company step done, the call succeeds
    and is the job step followed by the application step. *)
Lemma create_application_ok (st st1 : Store) (name title : string)
    (company_k : nat) :
  company_data !! "name" = Some name ->
  job_data !! "title" = Some title ->
  get_or_create_company name company_data st = (st1, inr company_k) ->
  create_application usr job_data company_data application_data st =
  (let st2 := (create_job company_k title job_data st1).1 in
   let job_k := (create_job company_k title job_data st1).2 in
   ((create_application_row usr job_k company_k
       (default ∅ application_data) st2).1,
    inr (create_application_row usr job_k company_k
           (default ∅ application_data) st2).2)).
Proof.
  intros Hn Ht Hc.
  unfold create_application, atomic, create_application_body.
  rewrite Hn, Hc, Ht.
  destruct (create_job company_k title job_data st1) as [st2 job_k].
  cbn [fst snd].
  destruct (create_application_row usr job_k company_k
              (default ∅ application_data) st2) as [st3 a].
  reflexivity.
Qed.

(** The company step with at most one company of that name. *)
Lemma get_or_create_company_ok (name : string) (st : Store) :
  (length (companies_named name st) <= 1)%nat ->
  exists st1 company_k,
    get_or_create_company name company_data st = (st1, inr company_k)
    /\ store_db st1 = store_db st
    /\ next_job_pk st1 = next_job_pk st.
Proof.
  intros Hlen. unfold get_or_create_company.
  destruct (companies_named name st) as [| [k c] [| kc' rest]].
  - eexists. eexists. split; [reflexivity |]. split; reflexivity.
  - eexists. eexists. split; [reflexivity |]. split; reflexivity.
  - cbn in Hlen. lia.
Qed.

End CreateApplication.

(** X10.  [create_application] with a company name and a job title given,
    and at most one company of that name on file, succeeds.  The
    application it returns is stored under the next key of the sequence,
    belongs to the user, has the status and method asked for (defaults
    [saved] and [manual]) and no [applied_date], even when it is created as
    [applied]; its job is stored with the title and URL given; the log
    gains the one entry "Application created with status: ..."; and from
    then on [check_duplicate] answers true for the user and that job, and
    for the user and the job's URL when the URL is not empty. *)
Theorem create_application_stores (usr : nat)
    (job_data company_data : gmap string string)
    (application_data : option (gmap string string)) (st : Manager.Store)
    (name title : string) :
  company_data !! "name" = Some name ->
  job_data !! "title" = Some title ->
  (length (Manager.companies_named name st) <= 1)%nat ->
  exists st' a,
    Manager.create_application usr job_data company_data application_data st
      = (st', inr a)
    /\ pk a = Some (next_pk (Manager.store_db st))
    /\ user a = usr
    /\ status a
       = Manager.dict_get (default ∅ application_data) "status" "saved"
    /\ application_method a
       = Manager.dict_get (default ∅ application_data)
           "application_method" "manual"
    /\ applied_date a = None
    /\ applications (Manager.store_db st') !! next_pk (Manager.store_db st)
       = Some a
    /\ jobs (Manager.store_db st') !! job a
       = Some (mkJob (company a) title
                 (Manager.dict_get job_data "job_url" ""))
    /\ activities (Manager.store_db st')
       = app (activities (Manager.store_db st))
           [mkActivity (next_pk (Manager.store_db st)) "status_change"
              ("Application created with status: " ++ status a) (Some usr)]
    /\ check_duplicate usr (JobObject (job a)) (Manager.store_db st') = true
    /\ check_duplicate usr (Url (Manager.dict_get job_data "job_url" ""))
         (Manager.store_db st')
       = nonempty (Manager.dict_get job_data "job_url" "").
Proof.
  intros Hn Ht Hlen.
  destruct (get_or_create_company_ok company_data name st Hlen)
    as (st1 & ck & Hc & Hdb & Hjk).
  rewrite (create_application_ok usr job_data company_data application_data
             st st1 name title ck Hn Ht Hc).
  cbn zeta. rewrite create_application_row_eq. cbn zeta.
  unfold Manager.create_job. cbn [fst snd Manager.store_db next_pk jobs
    applications activities pk user status application_method applied_date
    job company].
  rewrite Hdb.
  set (k := next_pk (Manager.store_db st)).
  set (jk := Manager.next_job_pk st1).
  set (url := Manager.dict_get job_data "job_url" "").
  set (a := mkApplication (Some k) usr jk ck _ None _).
  eexists. exists a.
  split; [reflexivity |].
  assert (Hrow : forall m : gmap nat Application, <[k := a]> m !! k = Some a)
    by (intros m; apply lookup_insert_eq).
  assert (Hjob : forall m : gmap nat Job,
             <[jk := mkJob ck title url]> m !! jk = Some (mkJob ck title url))
    by (intros m; apply lookup_insert_eq).
  repeat (split; [first [reflexivity | apply Hrow | apply Hjob] |]).
  split.
  - apply check_duplicate_job_iff. exists k, a. cbn [applications].
    split; [apply Hrow |]. split; reflexivity.
  - unfold nonempty. destruct (String.eqb_spec url "") as [He | Hne].
    + rewrite He. reflexivity.
    + apply check_duplicate_url_iff. split; [exact Hne |].
      exists k, a, (mkJob ck title url). cbn [applications jobs].
      split; [apply Hrow |]. split; [reflexivity |].
      split; [apply Hjob | reflexivity].
Qed.

Lemma create_application_stores_witness :
  exists st' a,
    Manager.create_application 7 sample_job_data sample_company_data None
      empty_manager_store = (st', inr a)
    /\ pk a = Some 1%nat /\ status a = "saved"
    /\ check_duplicate 7
         (Url "https://www.pnet.co.za/jobs/software-developer")
         (Manager.store_db st') = true.
Proof.
  destruct (create_application_stores 7 sample_job_data sample_company_data
              None empty_manager_store "FNB" "Software Developer")
    as (st' & a & Hc & Hpk & _ & Hs & _ & _ & _ & _ & _ & _ & Hd);
    [reflexivity | reflexivity | vm_compute; lia |].
  exists st', a. split; [exact Hc |]. split; [exact Hpk |].
  split; [exact Hs | exact Hd].
Defined.

(** X11.  The company of a new application comes from
    [Company.objects.get_or_create]: when no company has the name asked
    for, one is added under the next key with the industry, location and
    website given (empty by default); when exactly one has it, the company
    table is left as it is and that company is used. *)
Theorem create_application_company (usr : nat)
    (job_data company_data : gmap string string)
    (application_data : option (gmap string string)) (st : Manager.Store)
    (name title : string) :
  company_data !! "name" = Some name ->
  job_data !! "title" = Some title ->
  (length (Manager.companies_named name st) <= 1)%nat ->
  exists st' a,
    Manager.create_application usr job_data company_data application_data st
      = (st', inr a)
    /\ (Manager.companies_named name st = [] ->
        company a = Manager.next_company_pk st
        /\ Manager.companies st'
           = <[Manager.next_company_pk st :=
                 Manager.mkCompany name
                   (Manager.dict_get company_data "industry" "")
                   (Manager.dict_get company_data "location" "")
                   (Manager.dict_get company_data "website" "")]>
               (Manager.companies st))
    /\ (forall k c, Manager.companies_named name st = [(k, c)] ->
        company a = k /\ Manager.companies st' = Manager.companies st).
Proof.
  intros Hn Ht Hlen.
  destruct (get_or_create_company_ok company_data name st Hlen)
    as (st1 & ck & Hc & _ & _).
  rewrite (create_application_ok usr job_data company_data application_data
             st st1 name title ck Hn Ht Hc).
  cbn zeta. rewrite create_application_row_eq. cbn zeta.
  eexists. eexists. split; [reflexivity |].
  unfold Manager.get_or_create_company in Hc.
  cbn [company Manager.companies Manager.create_job fst snd].
  split.
  - intros He. rewrite He in Hc. injection Hc as <- <-. split; reflexivity.
  - intros k c He. rewrite He in Hc. injection Hc as <- <-. split; reflexivity.
Qed.

Lemma create_application_company_witness :
  exists st' a,
    Manager.create_application 7 sample_job_data sample_company_data None
      empty_manager_store = (st', inr a)
    /\ company a = 1%nat
    /\ Manager.companies st' !! 1%nat
       = Some (Manager.mkCompany "FNB" "Banking" "" "").
Proof.
  destruct (create_application_company 7 sample_job_data sample_company_data
              None empty_manager_store "FNB" "Software Developer")
    as (st' & a & Hc & Hnew & _);
    [reflexivity | reflexivity | vm_compute; lia |].
  destruct Hnew as [Hk Hcs]; [reflexivity |].
  exists st', a. split; [exact Hc |]. split; [exact Hk |].
  rewrite Hcs. vm_compute. reflexivity.
Defined.

(** X12.  [create_application] fails without a trace.  It raises
    [KeyError] when [company_data] has no [name], [MultipleObjectsReturned]
    when more than one company has that name, and [KeyError] when
    [job_data] has no [title]; in each case the store it leaves is the
    store it was given.  In the last case the body had already added the
    company when none had the name: the transaction takes it back. *)
Theorem create_application_fails_clean (usr : nat)
    (job_data company_data : gmap string string)
    (application_data : option (gmap string string)) (st : Manager.Store) :
  (forall st' e,
      Manager.create_application usr job_data company_data application_data st
        = (st', inl e) -> st' = st)
  /\ (company_data !! "name" = None ->
      Manager.create_application usr job_data company_data application_data st
        = (st, inl (Manager.KeyError "name")))
  /\ (forall name,
        company_data !! "name" = Some name ->
        (2 <= length (Manager.companies_named name st))%nat ->
        Manager.create_application usr job_data company_data application_data
          st = (st, inl Manager.MultipleObjectsReturned))
  /\ (forall name,
        company_data !! "name" = Some name ->
        (length (Manager.companies_named name st) <= 1)%nat ->
        job_data !! "title" = None ->
        Manager.create_application usr job_data company_data application_data
          st = (st, inl (Manager.KeyError "title"))
        /\ (Manager.companies_named name st = [] ->
            Manager.companies
              (Manager.create_application_body usr job_data company_data
                 application_data st).1
              !! Manager.next_company_pk st
            = Some (Manager.mkCompany name
                      (Manager.dict_get company_data "industry" "")
                      (Manager.dict_get company_data "location" "")
                      (Manager.dict_get company_data "website" "")))).
Proof.
  split; [| split; [| split]].
  - intros st' e. unfold Manager.create_application, Manager.atomic.
    destruct (Manager.create_application_body usr job_data company_data
                application_data st) as [st0 [e0 | a0]];
      intros [= -> _]; reflexivity.
  - intros Hn. unfold Manager.create_application, Manager.atomic,
      Manager.create_application_body. now rewrite Hn.
  - intros name Hn Hlen.
    unfold Manager.create_application, Manager.atomic,
      Manager.create_application_body, Manager.get_or_create_company.
    rewrite Hn.
    destruct (Manager.companies_named name st) as [| [k c] [| kc rest]];
      cbn in Hlen; try lia. reflexivity.
  - intros name Hn Hlen Ht.
    unfold Manager.create_application, Manager.atomic,
      Manager.create_application_body, Manager.get_or_create_company.
    rewrite Hn.
    destruct (Manager.companies_named name st) as [| [k c] [| kc rest]];
      cbn in Hlen; try lia; rewrite Ht; cbn [fst Manager.companies].
    + split; [reflexivity |]. intros _. apply lookup_insert_eq.
    + split; [reflexivity |]. discriminate.
Qed.

Lemma create_application_fails_clean_witness :
  Manager.create_application 7 ∅ sample_company_data None empty_manager_store
  = (empty_manager_store, inl (Manager.KeyError "title"))
  /\ Manager.companies
       (Manager.create_application_body 7 ∅ sample_company_data None
          empty_manager_store).1 !! 1%nat
     = Some (Manager.mkCompany "FNB" "Banking" "" "").
Proof.
  destruct (create_application_fails_clean 7 ∅ sample_company_data None
              empty_manager_store) as (_ & _ & _ & H).
  destruct (H "FNB") as [H1 H2];
    [reflexivity | vm_compute; lia | reflexivity |].
  split; [exact H1 |]. apply H2. reflexivity.
Defined.

Section CompanyReuse.

Import Manager.

Lemma filter_perm {A} (p : A -> bool) (l l' : list A) :
  Permutation l l' -> Permutation (List.filter p l) (List.filter p l').
Proof.
  induction 1 as [| x l l' _ IH | x y l | l l' l'' _ IH1 _ IH2]; cbn.
  - constructor.
  - destruct (p x); [now constructor | exact IH].
  - destruct (p x), (p y); try reflexivity. constructor.
  - now transitivity (List.filter p l').
Qed.

(** After a company has been added under a free key, it is the one company
    of its name when there was none before. *)
Lemma companies_named_added (name : string) (c : Company) (k : nat)
    (m : gmap nat Company) :
  List.filter (fun kc => String.eqb (company_name kc.2) name) (map_to_list m)
    = [] ->
  m !! k = None ->
  company_name c = name ->
  List.filter (fun kc => String.eqb (company_name kc.2) name)
              (map_to_list (<[k := c]> m))
  = [(k, c)].
Proof.
  intros Hnone Hk Hc.
  apply Permutation_singleton_r.
  rewrite (filter_perm _ _ _ (map_to_list_insert m k c Hk)).
  cbn [List.filter snd]. rewrite Hc, String.eqb_refl, Hnone. reflexivity.
Qed.

End CompanyReuse.

(** X13.  [create_application] called twice with the same data (company
    name and job title given, at most one company of that name, the
    company sequence pointing at a free key) succeeds twice: the second
    call reuses the company of the first and leaves the company table as
    the first left it, but adds a second job and a second application
    under the next keys, although [check_duplicate] already answers true
    for the user and the first job. *)
Theorem create_application_twice (usr : nat)
    (job_data company_data : gmap string string)
    (application_data : option (gmap string string)) (st : Manager.Store)
    (name title : string) :
  company_data !! "name" = Some name ->
  job_data !! "title" = Some title ->
  (length (Manager.companies_named name st) <= 1)%nat ->
  Manager.companies st !! Manager.next_company_pk st = None ->
  exists st1 a1 st2 a2,
    Manager.create_application usr job_data company_data application_data st
      = (st1, inr a1)
    /\ Manager.create_application usr job_data company_data application_data
         st1 = (st2, inr a2)
    /\ check_duplicate usr (JobObject (job a1)) (Manager.store_db st1) = true
    /\ company a2 = company a1
    /\ Manager.companies st2 = Manager.companies st1
    /\ job a2 = S (job a1)
    /\ pk a1 = Some (next_pk (Manager.store_db st))
    /\ pk a2 = Some (S (next_pk (Manager.store_db st)))
    /\ applications (Manager.store_db st2) !! next_pk (Manager.store_db st)
       = Some a1.
Proof.
  intros Hn Ht Hlen Hfree.
  (* the first call *)
  assert (Hstep : exists st0 ck c,
             Manager.get_or_create_company name company_data st
               = (st0, inr ck)
             /\ Manager.store_db st0 = Manager.store_db st
             /\ Manager.next_job_pk st0 = Manager.next_job_pk st
             /\ Manager.companies_named name st0 = [(ck, c)]).
  { unfold Manager.get_or_create_company.
    destruct (Manager.companies_named name st) as [| [k c] [| kc rest]] eqn:He;
      cbn in Hlen; try lia.
    - eexists. eexists. eexists. split; [reflexivity |].
      split; [reflexivity |]. split; [reflexivity |].
      unfold Manager.companies_named. cbn [Manager.companies].
      apply companies_named_added; [exact He | exact Hfree | reflexivity].
    - exists st, k, c. repeat split; exact He. }
  destruct Hstep as (st0 & ck & c & Hc & Hdb & Hjk & Hone).
  pose proof (create_application_ok usr job_data company_data
                application_data st st0 name title ck Hn Ht Hc) as H1.
  cbn zeta in H1. rewrite create_application_row_eq in H1. cbn zeta in H1.
  unfold Manager.create_job in H1.
  cbn [fst snd Manager.store_db next_pk jobs applications activities
       Manager.companies Manager.next_company_pk Manager.next_job_pk
       Manager.job_details Manager.application_details] in H1.
  rewrite Hdb, Hjk in H1.
  match type of H1 with _ = (?s, inr ?a) => set (st1 := s) in *; set (a1 := a) in * end.
  (* the second call *)
  assert (Hc2 : Manager.get_or_create_company name company_data st1
                = (st1, inr ck)).
  { unfold Manager.get_or_create_company.
    replace (Manager.companies_named name st1)
      with (Manager.companies_named name st0) by reflexivity.
    rewrite Hone. reflexivity. }
  pose proof (create_application_ok usr job_data company_data
                application_data st1 st1 name title ck Hn Ht Hc2) as H2.
  cbn zeta in H2. rewrite create_application_row_eq in H2. cbn zeta in H2.
  unfold Manager.create_job in H2.
  cbn [fst snd Manager.store_db next_pk jobs applications activities
       Manager.companies Manager.next_company_pk Manager.next_job_pk
       Manager.job_details Manager.application_details st1] in H2.
  match type of H2 with _ = (?s, inr ?a) => set (st2 := s) in *; set (a2 := a) in * end.
  exists st1, a1, st2, a2.
  split; [exact H1 |]. split; [exact H2 |].
  split.
  { apply check_duplicate_job_iff.
    exists (next_pk (Manager.store_db st)), a1.
    split; [apply lookup_insert_eq |]. split; reflexivity. }
  repeat (split; [reflexivity |]).
  subst st2. cbn [Manager.store_db applications].
  rewrite lookup_insert_ne by lia. apply lookup_insert_eq.
Qed.

Lemma create_application_twice_witness :
  exists st1 a1 st2 a2,
    Manager.create_application 7 sample_job_data sample_company_data None
      empty_manager_store = (st1, inr a1)
    /\ Manager.create_application 7 sample_job_data sample_company_data None
         st1 = (st2, inr a2)
    /\ company a2 = company a1
    /\ job a2 = S (job a1).
Proof.
  destruct (create_application_twice 7 sample_job_data sample_company_data
              None empty_manager_store "FNB" "Software Developer")
    as (st1 & a1 & st2 & a2 & H1 & H2 & _ & Hc & _ & Hj & _);
    [reflexivity | reflexivity | vm_compute; lia | reflexivity |].
  exists st1, a1, st2, a2. repeat split; assumption.
Defined.

(** ** More on the automation task *)

Section TaskOutcomes.

Variable env : Env.

(** A path the task resolves is the file of the document it settled on. *)
Lemma resolved_cv_path_owned (cv_id : option nat) (usr : nat) (p : string) :
  resolved_cv_path env cv_id usr = Returned (Some p) ->
  exists d, chosen_cv env cv_id usr = Some d /\ file_path d = p.
Proof.
  intros Hr. pose proof (resolved_cv_path_cases env cv_id usr) as Hc.
  destruct (chosen_cv env cv_id usr) as [d |].
  - exists d. split; [reflexivity |].
    destruct Hc as [[_ Hc] | [_ Hc]]; rewrite Hc in Hr; congruence.
  - rewrite Hc in Hr. discriminate Hr.
Qed.

(** The document settled on, in terms of the two look-ups. *)
Lemma chosen_cv_none (cv_id : option nat) (usr : nat) :
  chosen_cv env cv_id usr = None
  <-> (truthy_id cv_id = false
       \/ Document_get env (default 0 cv_id) usr = None)
      /\ active_cv env usr = None.
Proof.
  unfold chosen_cv. destruct (truthy_id cv_id).
  - destruct (Document_get env (default 0 cv_id) usr) as [doc |].
    + split; [discriminate | intros [[H | H] _]; discriminate H].
    + split; [intros H; split; [now right | exact H] | intros [_ H]; exact H].
  - split; [intros H; split; [now left | exact H] | intros [_ H]; exact H].
Qed.

(** An execution past the guards, by the document settled on. *)
Lemma past_guards_cases (retries user_id : nat) (job_url job_board : string)
    (cv_id : option nat) (dry_run : bool) :
  user_id ∈ users env ->
  is_Some (profiles env !! user_id) ->
  check_duplicate user_id (Url job_url) (env_db env) = false ->
  (get_daily_application_count user_id (now env) (env_db env)
     < MAX_DAILY_APPLICATIONS env)%Z ->
  let out :=
    apply_to_job_task env retries user_id job_url job_board cv_id dry_run in
  let no_cv :=
    ([], env_db env,
     Done (mkResult false job_url job_board "No CV found. Upload a CV first."))
  in
  match chosen_cv env cv_id user_id with
  | None => out = no_cv
  | Some doc =>
      out <> no_cv
      /\ if nonempty (file_path doc) then
           dry_run = true ->
           out = ([], env_db env,
                  Done (mkResult true job_url job_board
                          "Dry run completed - no application submitted"))
         else
           out = ([], env_db env,
                  if (retries <? 3)%nat then
                    Retry (Exception
                             "The 'file' attribute has no file associated with it.")
                          60
                  else
                    Done (mkResult false job_url job_board
                            ("Task failed: "
                               ++ "The 'file' attribute has no file associated with it.")))
  end.
Proof.
  intros Hu [profile Hp] Hdup Hmax. cbn zeta. unfold apply_to_job_task.
  rewrite (task_body_past_guards env user_id job_url job_board cv_id dry_run
             _ profile Hu Hp Hdup Hmax).
  pose proof (resolved_cv_path_cases env cv_id user_id) as Hc.
  destruct (chosen_cv env cv_id user_id) as [doc |].
  2: { rewrite Hc. reflexivity. }
  unfold nonempty.
  destruct Hc as [[Hne ->] | [He ->]].
  - apply String.eqb_neq in Hne as Hb. rewrite Hb. cbn [negb truthy_path].
    unfold nonempty. rewrite Hb. cbn [negb]. split.
    + destruct dry_run; [cbn; discriminate |].
      destruct (_get_site_handler job_board profile) as [handler |];
        [| cbn; discriminate].
      rewrite run_automation_cases.
      destruct (start_browser env) as [[] | [| msg]];
        [destruct (apply_to_job env handler job_url _) as [[|] | [| msg]] |..];
        try destruct (retries <? max_retries)%nat; cbn; discriminate.
    + intros ->. reflexivity.
  - rewrite He. cbn [String.eqb negb]. change max_retries with 3%nat.
    destruct (retries <? 3)%nat; split; first [discriminate | reflexivity].
Qed.

End TaskOutcomes.

(** X14.  A dry run never touches a browser.  Whatever the surroundings, a
    call with [dry_run] set produces no event.  It returns success, with
    the dry-run message and for every board name (one without a handler
    included) and every retry count, when user and profile are found, both
    guards are passed and the CV document the task settles on (the one
    named by [cv_id] when the user owns such a CV, else the user's active
    CV) has a file. *)
Theorem dry_run_opens_no_browser (env : Env) (retries user_id : nat)
    (job_url job_board : string) (cv_id : option nat) (d : Document) :
  let out :=
    apply_to_job_task env retries user_id job_url job_board cv_id true in
  out.1.1 = []
  /\ (user_id ∈ users env ->
      is_Some (profiles env !! user_id) ->
      check_duplicate user_id (Url job_url) (env_db env) = false ->
      (get_daily_application_count user_id (now env) (env_db env)
         < MAX_DAILY_APPLICATIONS env)%Z ->
      chosen_cv env cv_id user_id = Some d ->
      file_path d <> "" ->
      out = ([], env_db env,
             Done (mkResult true job_url job_board
                     "Dry run completed - no application submitted"))).
Proof.
  cbn zeta. split.
  - rewrite task_trace_body.
    destruct (task_body_cases env user_id job_url job_board cv_id true
                (mkResult false job_url job_board ""))
      as [(o & Hb & _) | (h & cvp & _ & _ & _ & _ & Hdry & _)].
    + now rewrite Hb.
    + discriminate Hdry.
  - intros Hu Hp Hdup Hmax Hd Hfile.
    pose proof (past_guards_cases env retries user_id job_url job_board cv_id
                  true Hu Hp Hdup Hmax) as Hc.
    cbn zeta in Hc. rewrite Hd in Hc. destruct Hc as [_ Hc].
    unfold nonempty in Hc. apply String.eqb_neq in Hfile.
    rewrite Hfile in Hc. now apply Hc.
Qed.

(** A dry run for a board without handler, on a worker whose browser would
    not start, with a [cv_id] that names no document: the active CV is
    taken and the run succeeds without an event. *)
Lemma dry_run_opens_no_browser_witness :
  apply_to_job_task
    (sample_env empty_store 10 (Raised (Exception "chrome not reachable"))
                (Returned false))
    0 7 other_url "careerjunction" (Some 99) true
  = ([], empty_store,
     Done (mkResult true other_url "careerjunction"
             "Dry run completed - no application submitted")).
Proof.
  apply (dry_run_opens_no_browser
           (sample_env empty_store 10
              (Raised (Exception "chrome not reachable")) (Returned false))
           0 7 other_url "careerjunction" (Some 99)
           (mkDocument 1 7 "cv" true "/media/documents/7/cv.pdf")).
  - vm_compute. reflexivity.
  - now exists sample_profile.
  - vm_compute. reflexivity.
  - vm_compute. reflexivity.
  - vm_compute. reflexivity.
  - discriminate.
Defined.

(** X15.  Without a CV nothing is attempted.  For an execution that has
    found user and profile and passed both guards, the task returns the
    failure "No CV found. Upload a CV first.", with no event and for a dry
    run as well, exactly when it settles on no CV document: [cv_id] is
    unset or names no CV of the user, and the user has no active CV.  A CV
    document without a file does not give that answer: reading
    [file.path] raises, and the task asks for a retry, or reports "Task
    failed: ..." once three retries have been made. *)
Theorem no_cv_stops_the_task (env : Env) (retries user_id : nat)
    (job_url job_board : string) (cv_id : option nat) (dry_run : bool) :
  user_id ∈ users env ->
  is_Some (profiles env !! user_id) ->
  check_duplicate user_id (Url job_url) (env_db env) = false ->
  (get_daily_application_count user_id (now env) (env_db env)
     < MAX_DAILY_APPLICATIONS env)%Z ->
  let out :=
    apply_to_job_task env retries user_id job_url job_board cv_id dry_run in
  let no_file := "The 'file' attribute has no file associated with it." in
  (out = ([], env_db env,
          Done (mkResult false job_url job_board
                  "No CV found. Upload a CV first."))
   <-> (truthy_id cv_id = false
        \/ Document_get env (default 0 cv_id) user_id = None)
       /\ active_cv env user_id = None)
  /\ (forall doc,
        chosen_cv env cv_id user_id = Some doc ->
        file_path doc = "" ->
        out = ([], env_db env,
               if (retries <? 3)%nat then Retry (Exception no_file) 60
               else Done (mkResult false job_url job_board
                            ("Task failed: " ++ no_file)))).
Proof.
  intros Hu Hp Hdup Hmax. cbn zeta.
  pose proof (past_guards_cases env retries user_id job_url job_board cv_id
                dry_run Hu Hp Hdup Hmax) as Hc.
  cbn zeta in Hc. rewrite <- chosen_cv_none.
  destruct (chosen_cv env cv_id user_id) as [doc |].
  - destruct Hc as [Hne Hc]. split.
    + split; [intros H; contradiction | discriminate].
    + intros doc' [= <-] Hfile. unfold nonempty in Hc. rewrite Hfile in Hc.
      exact Hc.
  - split; [split; [reflexivity | intros _; exact Hc] | discriminate].
Qed.

(** User 7 with no CV of their own (the [cv_id] names the CV of user 8):
    "No CV found", on a dry run too.  User 7 with a CV document that has
    no file: the first execution asks for a retry. *)
Lemma no_cv_stops_the_task_witness :
  apply_to_job_task
    (mkEnv empty_store {[7]} {[7 := sample_profile]}
           [mkDocument 5 8 "cv" true "/media/documents/8/cv.pdf"]
           1700000000 10 (Returned tt) (fun _ _ _ => Returned true))
    0 7 other_url "pnet" (Some 5) true
  = ([], empty_store,
     Done (mkResult false other_url "pnet" "No CV found. Upload a CV first."))
  /\ apply_to_job_task cv_without_file_env 0 7 other_url "pnet" None true
     = ([], empty_store,
        Retry (Exception "The 'file' attribute has no file associated with it.")
              60).
Proof.
  split.
  - apply (no_cv_stops_the_task
             (mkEnv empty_store {[7]} {[7 := sample_profile]}
                [mkDocument 5 8 "cv" true "/media/documents/8/cv.pdf"]
                1700000000 10 (Returned tt) (fun _ _ _ => Returned true))
             0 7 other_url "pnet" (Some 5) true).
    + vm_compute. reflexivity.
    + now exists sample_profile.
    + vm_compute. reflexivity.
    + vm_compute. reflexivity.
    + split; [right |]; reflexivity.
  - destruct (no_cv_stops_the_task cv_without_file_env 0 7 other_url "pnet"
                None true) as [_ H].
    + vm_compute. reflexivity.
    + now exists sample_profile.
    + vm_compute. reflexivity.
    + vm_compute. reflexivity.
    + apply (H (mkDocument 1 7 "cv" true "")); reflexivity.
Defined.

(** X16.  The CV the adapter is given is the user's own: whenever the task
    calls the adapter, the path it passes is the non-empty file path of a
    CV document that belongs to the user, either the document named by
    [cv_id] or one marked active.  A [cv_id] naming another user's document
    is never used. *)
Theorem adapter_gets_users_own_cv (env : Env) (retries user_id : nat)
    (job_url job_board : string) (cv_id : option nat) (dry_run : bool)
    (cv_path : string) :
  In (ApplyToJob job_url cv_path)
     (apply_to_job_task env retries user_id job_url job_board cv_id
        dry_run).1.1 ->
  cv_path <> ""
  /\ exists d, In d (documents env) /\ doc_user d = user_id
               /\ doc_type d = "cv" /\ file_path d = cv_path
               /\ (cv_id = Some (doc_id d) \/ is_active d = true).
Proof.
  intros Hin. rewrite task_trace_body in Hin.
  destruct (task_body_cases env user_id job_url job_board cv_id dry_run
              (mkResult false job_url job_board ""))
    as [(o & Hb & _) | (h & p & _ & _ & _ & _ & _ & _ & Hr & Hne & Hb)].
  - rewrite Hb in Hin. contradiction.
  - rewrite Hb, run_automation_cases in Hin.
    assert (Hp : p = cv_path).
    { destruct (start_browser env) as [[] | e];
        [destruct (apply_to_job env h job_url p) as [[|] | e] |];
        cbn in Hin;
        repeat (destruct Hin as [Hin | Hin]; try discriminate Hin);
        try contradiction; congruence. }
    subst p. split; [exact Hne |].
    destruct (resolved_cv_path_owned env cv_id user_id cv_path Hr)
      as (d & Hd & Hfile).
    exists d.
    destruct (chosen_cv_owned env cv_id user_id d Hd) as (? & ? & ? & ?).
    tauto.
Qed.

Lemma adapter_gets_users_own_cv_witness :
  In (ApplyToJob other_url "/media/documents/7/cv.pdf")
     (apply_to_job_task
        (mkEnv empty_store {[7]} {[7 := sample_profile]}
               two_users_documents 1700000000 10 (Returned tt)
               (fun _ _ _ => Returned true))
        0 7 other_url "pnet" (Some 5) false).1.1
  /\ "/media/documents/7/cv.pdf" <> "".
Proof.
  assert (Hin : In (ApplyToJob other_url "/media/documents/7/cv.pdf")
     (apply_to_job_task
        (mkEnv empty_store {[7]} {[7 := sample_profile]}
               two_users_documents 1700000000 10 (Returned tt)
               (fun _ _ _ => Returned true))
        0 7 other_url "pnet" (Some 5) false).1.1)
    by (vm_compute; auto).
  split; [exact Hin |].
  exact (proj1 (adapter_gets_users_own_cv _ _ _ _ _ _ _ _ Hin)).
Defined.

(** X17.  The browser is always given back.  The events of one execution
    are one of four sequences: none at all; [StartBrowser] alone, when the
    browser failed to start; start, adapter call, close; or start, adapter
    call, screenshot, close, when the adapter answered [False].  So a
    browser that started is closed whatever the adapter does (true, false
    or an exception), and a screenshot is taken only after the adapter
    answered [False]. *)
Theorem browser_always_closed (env : Env) (retries user_id : nat)
    (job_url job_board : string) (cv_id : option nat) (dry_run : bool) :
  let tr := (apply_to_job_task env retries user_id job_url job_board cv_id
               dry_run).1.1 in
  tr = []
  \/ (tr = [StartBrowser] /\ exists e, start_browser env = Raised e)
  \/ (exists h cv_path,
        start_browser env = Returned tt
        /\ apply_to_job env h job_url cv_path <> Returned false
        /\ tr = [StartBrowser; ApplyToJob job_url cv_path; CloseBrowser])
  \/ (exists h cv_path,
        start_browser env = Returned tt
        /\ apply_to_job env h job_url cv_path = Returned false
        /\ tr = [StartBrowser; ApplyToJob job_url cv_path;
                 TakeScreenshot "failed_application"; CloseBrowser]).
Proof.
  cbn zeta. rewrite task_trace_body.
  destruct (task_body_cases env user_id job_url job_board cv_id dry_run
              (mkResult false job_url job_board ""))
    as [(o & Hb & _) | (h & p & _ & _ & _ & _ & _ & _ & _ & _ & Hb)].
  - left. now rewrite Hb.
  - right. rewrite Hb, run_automation_cases.
    destruct (start_browser env) as [[] | e] eqn:Hs.
    + right.
      destruct (apply_to_job env h job_url p) as [[|] | e] eqn:Ha.
      * left. exists h, p. rewrite Ha. repeat split. discriminate.
      * right. exists h, p. repeat split. exact Ha.
      * left. exists h, p. rewrite Ha. repeat split. discriminate.
    + left. split; [reflexivity |]. now exists e.
Qed.

(** X18.  What a result says.  Every result the task returns echoes the
    job URL and the board it was called with, and it reports success only
    in two cases: a dry run, which produced no event, or an adapter call
    that answered [True]. *)
Theorem success_means_submitted_or_dry_run (env : Env) (retries user_id : nat)
    (job_url job_board : string) (cv_id : option nat) (dry_run : bool)
    (tr : list Event) (db' : Db) (r : TaskResult) :
  apply_to_job_task env retries user_id job_url job_board cv_id dry_run
    = (tr, db', Done r) ->
  result_job_url r = job_url
  /\ result_job_board r = job_board
  /\ (success r = true ->
      (dry_run = true /\ tr = [])
      \/ exists h cv_path,
           apply_to_job env h job_url cv_path = Returned true
           /\ In (ApplyToJob job_url cv_path) tr).
Proof.
  intros Htask. unfold apply_to_job_task in Htask.
  destruct (task_body_cases env user_id job_url job_board cv_id dry_run
              (mkResult false job_url job_board ""))
    as [(o & Hb & Hend)
       | (h & p & _ & _ & _ & _ & Hdry & _ & _ & _ & Hb)].
  - rewrite Hb in Htask.
    destruct Hend; try destruct (retries <? max_retries)%nat;
      cbn in Htask; try discriminate Htask;
      injection Htask as <- _ <-; cbn;
      repeat split; try discriminate; try reflexivity.
    all: intros _; left; now split.
  - rewrite Hb, run_automation_cases in Htask.
    destruct (start_browser env) as [[] | [| msg]].
    + destruct (apply_to_job env h job_url p) as [[|] | [| msg]] eqn:Ha;
        try destruct (retries <? max_retries)%nat;
        try discriminate Htask;
        injection Htask as <- _ <-; cbn;
        repeat split; try discriminate.
      all: intros _; right; exists h, p; (split; [exact Ha | cbn; auto]).
    + injection Htask as <- _ <-; cbn; repeat split; discriminate.
    + destruct (retries <? max_retries)%nat; try discriminate Htask.
      injection Htask as <- _ <-; cbn; repeat split; discriminate.
Qed.

Lemma success_means_submitted_or_dry_run_witness :
  result_job_url
    (mkResult true other_url "pnet" "Application submitted successfully")
  = other_url
  /\ exists h cv_path,
       apply_to_job (sample_env empty_store 10 (Returned tt) (Returned true))
         h other_url cv_path = Returned true.
Proof.
  destruct (success_means_submitted_or_dry_run
              (sample_env empty_store 10 (Returned tt) (Returned true))
              0 7 other_url "pnet" None false
              [StartBrowser; ApplyToJob other_url "/media/documents/7/cv.pdf";
               CloseBrowser]
              empty_store
              (mkResult true other_url "pnet"
                 "Application submitted successfully"))
    as (Hu & _ & Hs); [vm_compute; reflexivity |].
  split; [exact Hu |].
  destruct (Hs eq_refl) as [[Hd _] | (h & p & Ha & _)]; [discriminate Hd |].
  now exists h, p.
Defined.

(** ** The search sweep *)

Section SweepFacts.

Import Sweep.

Lemma in_take {A} (x : A) (n : nat) (l : list A) : In x (take n l) -> In x l.
Proof.
  revert n. induction l as [| y l IH]; intros [| n]; cbn; try tauto.
  intros [-> | H]; [now left | right; eauto].
Qed.

Lemma in_slice_to {A} (x : A) (n : Z) (l : list A) :
  In x (slice_to n l) -> In x l.
Proof. unfold slice_to. destruct (0 <=? n)%Z; apply in_take. Qed.

Lemma slice_to_length {A} (n : Z) (l : list A) :
  length (slice_to n l)
  = if (0 <=? n)%Z then Nat.min (Z.to_nat n) (length l)
    else (length l - Z.to_nat (- n))%nat.
Proof.
  unfold slice_to. destruct (0 <=? n)%Z; rewrite length_take; lia.
Qed.

(** What the inner loop queues. *)
Lemma queue_hits_spec (usr : nat) (board : string) (db : Db)
    (hits : list Hit) :
  (length (queue_hits usr board db hits).1 <= length hits)%nat
  /\ forall q, In q (queue_hits usr board db hits).1 ->
       queued_user_id q = usr /\ queued_job_board q = board
       /\ check_duplicate_value usr (queued_job_url q) db = false
       /\ exists hit, In hit hits /\ hit !! "url" = Some (queued_job_url q).
Proof.
  induction hits as [| job rest [IHl IHq]]; cbn [queue_hits].
  - split; [cbn; lia | intros q []].
  - destruct (check_duplicate_value usr (hit_url_or_empty job) db) eqn:Hd;
      cbn [negb].
    + split; [cbn; lia |]. intros q Hq.
      destruct (IHq q Hq) as (? & ? & ? & hit & ? & ?).
      repeat split; try assumption. exists hit. split; [now right | assumption].
    + destruct (job !! "url") as [v |] eqn:Hu.
      * destruct (queue_hits usr board db rest) as [queued err].
        cbn [fst length] in *. split; [lia |].
        intros q [<- | Hq].
        -- cbn. repeat split.
           ++ unfold hit_url_or_empty in Hd. now rewrite Hu in Hd.
           ++ exists job. split; [now left | exact Hu].
        -- destruct (IHq q Hq) as (? & ? & ? & hit & ? & ?).
           repeat split; try assumption.
           exists hit. split; [now right | assumption].
      * split; [cbn; lia | intros q []].
Qed.

(** The inner loop on hits that all carry the URL of a job the user has
    not applied to: every one of them is queued, in order. *)
Lemma queue_hits_all_new (usr : nat) (board : string) (db : Db)
    (hits : list Hit) :
  (forall hit, In hit hits ->
     exists url, hit !! "url" = Some url
                 /\ check_duplicate_value usr url db = false) ->
  queue_hits usr board db hits
  = (map (fun hit => mkQueued usr (default None (hit !! "url")) board) hits,
     None).
Proof.
  induction hits as [| job rest IH]; intros Hnew; cbn [queue_hits map].
  - reflexivity.
  - destruct (Hnew job ltac:(now left)) as (url & Hurl & Hd).
    unfold hit_url_or_empty. rewrite Hurl, Hd. cbn [negb].
    rewrite IH by (intros hit Hin; apply Hnew; now right).
    reflexivity.
Qed.


Lemma in_active_rules (env : SweepEnv) (r : AutomationRule) :
  In r (active_rules env) <-> In r (rules env) /\ rule_is_active r = true.
Proof. unfold active_rules. apply filter_In. Qed.

End SweepFacts.



(** X20.  What the sweep queues.  Every task put on the queue comes from
    an active rule that applies automatically: it carries that rule's user
    and board, its URL is the [url] value of one of the hits the rule's
    search returned, and [check_duplicate] answered false for that user and
    value when the sweep looked (an empty URL, for which the check always
    answers false, is queued like any other). *)
Theorem sweep_queues_new_jobs_only (env : Sweep.SweepEnv) (q : Sweep.Queued) :
  In q (Sweep.run_automated_searches env).2 ->
  exists r handler hits hit,
    In r (Sweep.rules env) /\ Sweep.rule_is_active r = true
    /\ Sweep.apply_automatically r = true
    /\ Sweep.search_jobs env r handler = Returned hits
    /\ In hit hits /\ hit !! "url" = Some (Sweep.queued_job_url q)
    /\ Sweep.queued_user_id q = Sweep.rule_user r
    /\ Sweep.queued_job_board q = Sweep.rule_job_board r
    /\ Sweep.check_duplicate_value (Sweep.rule_user r)
         (Sweep.queued_job_url q) (Sweep.sweep_db env) = false.
Proof.
  unfold Sweep.run_automated_searches. cbn [snd]. intros Hq.
  apply in_concat in Hq as (l & Hl & Hq).
  apply in_map_iff in Hl as (r & <- & Hr).
  apply in_active_rules in Hr as [Hin Hact].
  unfold Sweep.run_rule in Hq.
  destruct (_get_site_handler _ _) as [handler |]; [| contradiction].
  destruct (Sweep.sweep_start_browser env r) as [[] | ex]; [| contradiction].
  destruct (Sweep.search_jobs env r handler) as [found | ex] eqn:Hs;
    [| contradiction].
  destruct (Sweep.apply_automatically r) eqn:Hauto; [| contradiction].
  cbn [andb] in Hq.
  destruct found as [| h0 found']; [contradiction |].
  pose proof (queue_hits_spec (Sweep.rule_user r) (Sweep.rule_job_board r)
                (Sweep.sweep_db env)
                (Sweep.slice_to (Sweep.max_applications_per_day r)
                   (h0 :: found'))) as [_ Hspec].
  destruct (Sweep.queue_hits _ _ _ _) as [queued [msg |]];
    cbn [fst snd] in Hq, Hspec;
    destruct (Hspec q Hq) as (Hu & Hb & Hd & hit & Hhit & Hurl);
    exists r, handler, (h0 :: found'), hit;
    repeat split; try assumption;
    now apply in_slice_to in Hhit.
Qed.

Lemma sweep_queues_new_jobs_only_witness :
  (Sweep.run_automated_searches
     (sample_sweep_env (sample_rule 5)
        [hit_with_url (job_url sample_job); hit_with_url other_url;
         hit_with_url ""])).2
  = [Sweep.mkQueued 7 (Some other_url) "pnet"; Sweep.mkQueued 7 (Some "") "pnet"]
  /\ Sweep.check_duplicate_value 7 (Some other_url)
       (store_with applied_application) = false.
Proof.
  assert (Hrun : (Sweep.run_automated_searches
     (sample_sweep_env (sample_rule 5)
        [hit_with_url (job_url sample_job); hit_with_url other_url;
         hit_with_url ""])).2
  = [Sweep.mkQueued 7 (Some other_url) "pnet"; Sweep.mkQueued 7 (Some "") "pnet"])
    by (vm_compute; reflexivity).
  split; [exact Hrun |].
  destruct (sweep_queues_new_jobs_only
              (sample_sweep_env (sample_rule 5)
                 [hit_with_url (job_url sample_job); hit_with_url other_url;
                  hit_with_url ""])
              (Sweep.mkQueued 7 (Some other_url) "pnet"))
    as (r & _ & _ & _ & Hr & _ & _ & _ & _ & _ & Hu & _ & Hd).
  - rewrite Hrun. now left.
  - destruct Hr as [<- | []]. exact Hd.
Defined.

(** X21.  How many tasks one rule can queue.  A rule that does not apply
    automatically queues nothing.  With a daily limit of zero or more a
    rule queues at most that many tasks in one sweep.  A negative limit
    does not switch queuing off: the slice [jobs_found[:limit]] then drops
    that many hits from the end, and the rest is gone through.  When every
    hit has a URL the user has not applied to, the tasks queued are, in
    order, those of the first [limit] hits for a limit of zero or more, and
    those of all hits but the last [-limit] for a negative limit. *)
Theorem sweep_rule_cap (env : Sweep.SweepEnv) (r : Sweep.AutomationRule) :
  let queued := (Sweep.run_rule env r).2 in
  let limit := Sweep.max_applications_per_day r in
  (Sweep.apply_automatically r = false -> queued = [])
  /\ ((0 <= limit)%Z -> (length queued <= Z.to_nat limit)%nat)
  /\ (forall handler found,
        (limit < 0)%Z ->
        _get_site_handler (Sweep.rule_job_board r)
          (Sweep.sweep_profile env (Sweep.rule_user r)) = Some handler ->
        Sweep.search_jobs env r handler = Returned found ->
        (length queued <= length found - Z.to_nat (- limit))%nat)
  /\ (forall handler found,
        Sweep.apply_automatically r = true ->
        _get_site_handler (Sweep.rule_job_board r)
          (Sweep.sweep_profile env (Sweep.rule_user r)) = Some handler ->
        Sweep.sweep_start_browser env r = Returned tt ->
        Sweep.search_jobs env r handler = Returned found ->
        (forall hit, In hit found ->
           exists url,
             hit !! "url" = Some url
             /\ Sweep.check_duplicate_value (Sweep.rule_user r) url
                  (Sweep.sweep_db env) = false) ->
        queued
        = map (fun hit =>
                 Sweep.mkQueued (Sweep.rule_user r)
                   (default None (hit !! "url")) (Sweep.rule_job_board r))
              (take (if (0 <=? limit)%Z then Z.to_nat limit
                     else (length found - Z.to_nat (- limit))%nat)
                    found)).
Proof.
  cbn zeta. split; [| split; [| split]].
  4: { intros handler found Hauto Hh Hstart Hsearch Hnew.
       unfold Sweep.run_rule. rewrite Hh, Hstart, Hsearch, Hauto. cbn [andb].
       destruct found as [| h0 found']; [cbn; now rewrite take_nil |].
       rewrite (queue_hits_all_new (Sweep.rule_user r) (Sweep.rule_job_board r)
                  (Sweep.sweep_db env)
                  (Sweep.slice_to (Sweep.max_applications_per_day r)
                     (h0 :: found'))).
       - cbn [snd]. unfold Sweep.slice_to. destruct (0 <=? _)%Z; reflexivity.
       - intros hit Hin. apply Hnew. eapply in_slice_to. exact Hin. }
  all: unfold Sweep.run_rule.
  all: destruct (_get_site_handler _ _) as [handler |];
    [| intros; cbn; first [reflexivity | lia | discriminate]].
  all: destruct (Sweep.sweep_start_browser env r) as [[] | ex];
    [| intros; cbn; first [reflexivity | lia]].
  all: destruct (Sweep.search_jobs env r handler) as [found | ex] eqn:Hs;
    [| intros; cbn; first [reflexivity | lia]].
  all: destruct (Sweep.apply_automatically r);
    [| intros; cbn; first [reflexivity | lia]].
  all: cbn [andb].
  all: destruct found as [| h0 found'];
    [intros; cbn; first [discriminate | lia] |].
  all: pose proof (queue_hits_spec (Sweep.rule_user r) (Sweep.rule_job_board r)
                (Sweep.sweep_db env)
                (Sweep.slice_to (Sweep.max_applications_per_day r)
                   (h0 :: found'))) as [Hlen _].
  all: rewrite slice_to_length in Hlen.
  all: destruct (Sweep.queue_hits _ _ _ _) as [queued err] eqn:Hqh.
  all: cbn [fst] in Hlen.
  all: replace (match err with
           | Some msg => _ | None => _ end).2 with queued
    by (destruct err; reflexivity).
  - discriminate.
  - intros Hpos. apply Z.leb_le in Hpos. rewrite Hpos in Hlen. lia.
  - intros handler' found0 Hneg [= <-] Hs'. rewrite Hs in Hs'.
    injection Hs' as <-.
    apply Z.leb_gt in Hneg. rewrite Hneg in Hlen. exact Hlen.
Qed.

(** Three new hits: with a limit of one the first is queued; with a limit
    of minus one the first two are. *)
Lemma sweep_rule_cap_witness :
  (length (Sweep.run_rule
             (sample_sweep_env (sample_rule 1)
                [hit_with_url other_url; hit_with_url ""; hit_with_url "https://x"])
             (sample_rule 1)).2 <= 1)%nat
  /\ (Sweep.run_rule
        (sample_sweep_env (sample_rule (-1))
           [hit_with_url other_url; hit_with_url ""; hit_with_url "https://x"])
        (sample_rule (-1))).2
     = [Sweep.mkQueued 7 (Some other_url) "pnet";
        Sweep.mkQueued 7 (Some "") "pnet"].
Proof.
  split.
  - destruct (sweep_rule_cap
                (sample_sweep_env (sample_rule 1)
                   [hit_with_url other_url; hit_with_url "";
                    hit_with_url "https://x"])
                (sample_rule 1)) as (_ & H & _).
    apply H. cbn. lia.
  - destruct (sweep_rule_cap
                (sample_sweep_env (sample_rule (-1))
                   [hit_with_url other_url; hit_with_url "";
                    hit_with_url "https://x"])
                (sample_rule (-1))) as (_ & _ & _ & H).
    rewrite (H (mkHandler PNetHandler sample_profile)
               [hit_with_url other_url; hit_with_url "";
                hit_with_url "https://x"]);
      try reflexivity.
    intros hit [<- | [<- | [<- | []]]]; eexists; split; reflexivity.
Defined.

(** A limit of -1 with three new hits: two tasks are queued. *)
Example negative_limit_still_queues :
  (Sweep.run_rule
     (sample_sweep_env (sample_rule (-1))
        [hit_with_url other_url; hit_with_url ""; hit_with_url "https://x"])
     (sample_rule (-1))).2
  = [Sweep.mkQueued 7 (Some other_url) "pnet"; Sweep.mkQueued 7 (Some "") "pnet"].
Proof. vm_compute. reflexivity. Qed.

(** X22.  A hit without a [url] key.  When the first hit of a rule that
    applies automatically (limit at least one) has no [url] key, the
    duplicate check on the default [''] answers false, the look-up
    [job['url']] raises, and the rule ends with two entries in [results],
    its count of jobs found and the error ['url'], and nothing queued; so
    [rules_processed] counts this one rule twice. *)
Theorem sweep_hit_without_url (env : Sweep.SweepEnv) (r : Sweep.AutomationRule)
    (handler : Handler) (hit : Sweep.Hit) (rest : list Sweep.Hit) :
  _get_site_handler (Sweep.rule_job_board r)
    (Sweep.sweep_profile env (Sweep.rule_user r)) = Some handler ->
  Sweep.sweep_start_browser env r = Returned tt ->
  Sweep.search_jobs env r handler = Returned (hit :: rest) ->
  Sweep.apply_automatically r = true ->
  (1 <= Sweep.max_applications_per_day r)%Z ->
  hit !! "url" = None ->
  Sweep.run_rule env r
  = ([Sweep.FoundEntry (Sweep.rule_id r) (Sweep.rule_job_board r)
        (Sweep.search_keywords r) (S (length rest));
      Sweep.ErrorEntry (Sweep.rule_id r) "'url'"],
     []).
Proof.
  intros Hh Hb Hs Hauto Hlim Hurl. unfold Sweep.run_rule.
  rewrite Hh, Hb, Hs, Hauto. cbn [andb].
  unfold Sweep.slice_to.
  replace (0 <=? Sweep.max_applications_per_day r)%Z with true
    by (symmetry; apply Z.leb_le; lia).
  destruct (Z.to_nat (Sweep.max_applications_per_day r)) as [| n] eqn:Hn;
    [lia |].
  cbn [take firstn Sweep.queue_hits].
  unfold Sweep.hit_url_or_empty. rewrite Hurl.
  cbn [Sweep.check_duplicate_value check_duplicate]. reflexivity.
Qed.

Lemma sweep_hit_without_url_witness :
  Sweep.run_automated_searches
    (sample_sweep_env (sample_rule 5)
       [hit_without_url; hit_with_url other_url])
  = (2%nat,
     [Sweep.FoundEntry 3 "pnet" "python developer" 2;
      Sweep.ErrorEntry 3 "'url'"],
     []).
Proof.
  unfold Sweep.run_automated_searches, Sweep.active_rules.
  cbn [sample_sweep_env Sweep.rules List.filter sample_rule
       Sweep.rule_is_active map concat].
  rewrite (sweep_hit_without_url
             (sample_sweep_env (sample_rule 5)
                [hit_without_url; hit_with_url other_url])
             (sample_rule 5) (mkHandler PNetHandler sample_profile)
             hit_without_url [hit_with_url other_url]);
    [reflexivity | vm_compute; reflexivity | reflexivity | reflexivity
    | reflexivity | cbn; lia | vm_compute; reflexivity].
Defined.

(** ** The screenshot clean-up *)

Section CleanupFacts.

Import Sweep.

Lemma remove_old_spec (cutoff : Z) (listing : list DirEntry) :
  (remove_old cutoff listing).1
  = List.filter (fun e => negb (is_file e && (mtime e <? cutoff)%Z)) listing
  /\ ((remove_old cutoff listing).2 + length (remove_old cutoff listing).1
      = length listing)%nat.
Proof.
  induction listing as [| e rest [IH1 IH2]]; [split; reflexivity |].
  cbn [remove_old List.filter].
  destruct (remove_old cutoff rest) as [kept n]. cbn [fst snd] in *.
  destruct (is_file e); [destruct (mtime e <? cutoff)%Z |];
    cbn [fst snd andb negb length]; subst kept; split;
    first [reflexivity | lia].
Qed.

Lemma filter_twice {A} (p : A -> bool) (l : list A) :
  List.filter p (List.filter p l) = List.filter p l.
Proof.
  induction l as [| x l IH]; [reflexivity |]. cbn.
  destruct (p x) eqn:Hp; [cbn; rewrite Hp; congruence | exact IH].
Qed.

End CleanupFacts.

(** X23.  [cleanup_old_screenshots] removes exactly the regular files
    last modified more than seven days before [now]: what is left is every
    entry that is not a regular file or is at most seven days old (a file
    of exactly seven days stays), [deleted] is the number of entries gone,
    and cleaning again at the same time removes nothing.  A missing
    directory gives [deleted = 0]. *)
Theorem cleanup_removes_only_old_files (listing : list Sweep.DirEntry)
    (now : Z) :
  let '(dir', deleted) := Sweep.cleanup_old_screenshots (Some listing) now in
  exists kept,
    dir' = Some kept
    /\ (forall e, In e kept <->
                  In e listing
                  /\ (Sweep.is_file e = false
                      \/ (now - 7 * 86400 <= Sweep.mtime e)%Z))
    /\ (deleted + length kept = length listing)%nat
    /\ Sweep.cleanup_old_screenshots (Some kept) now = (Some kept, 0%nat)
    /\ Sweep.cleanup_old_screenshots None now = (None, 0%nat).
Proof.
  unfold Sweep.cleanup_old_screenshots.
  destruct (remove_old_spec (now - 7 * 86400) listing) as [Hk Hn].
  destruct (Sweep.remove_old (now - 7 * 86400) listing) as [kept n].
  cbn [fst snd] in Hk, Hn. exists kept. split; [reflexivity |].
  split; [| split; [exact Hn | split; [| reflexivity]]].
  - intros e. rewrite Hk, filter_In. split; intros [Hin Hp]; split;
      try exact Hin.
    + destruct (Sweep.is_file e); [| now left]. right.
      cbn [andb negb] in Hp. apply negb_true_iff, Z.ltb_ge in Hp. exact Hp.
    + destruct Hp as [-> | Hp]; [reflexivity |].
      apply Z.ltb_ge in Hp. rewrite Hp, andb_false_r. reflexivity.
  - destruct (remove_old_spec (now - 7 * 86400) kept) as [Hk' Hn'].
    destruct (Sweep.remove_old (now - 7 * 86400) kept) as [kept' n'].
    cbn [fst snd] in Hk', Hn'.
    assert (Hsame : kept' = kept)
      by (rewrite Hk', Hk; apply filter_twice).
    clear Hk'. subst kept'. f_equal. lia.
Qed.

(** A run: an old file goes, a file of exactly seven days, a recent file
    and an old directory stay. *)
Example cleanup_run :
  Sweep.cleanup_old_screenshots
    (Some [ Sweep.mkDirEntry "failed_application_old.png" true 1000;
            Sweep.mkDirEntry "failed_application_edge.png" true 395200;
            Sweep.mkDirEntry "failed_application_new.png" true 900000;
            Sweep.mkDirEntry "archive" false 0 ])
    1000000
  = (Some [ Sweep.mkDirEntry "failed_application_edge.png" true 395200;
            Sweep.mkDirEntry "failed_application_new.png" true 900000;
            Sweep.mkDirEntry "archive" false 0 ],
     1%nat).
Proof. vm_compute. reflexivity. Qed.

(** ** The status endpoint *)

(** X25.  The status endpoint, call by call.  A key that names no
    application, or an application of another user, gives [404]; a missing
    status or one that is not among the nine gives [400]; in both cases
    the store is not touched.  For the user's own application and a status
    [s] among the nine, the answer is [200] with the application in status
    [s] exactly when the tracker allows the move from the stored status,
    and otherwise [400] "Cannot transition from X to s", X being the
    stored status, with the store untouched. *)
Theorem status_endpoint_answers (request_user pk_ : nat)
    (data : gmap string string) (db : Db) :
  ((forall row, applications db !! pk_ = Some row -> user row <> request_user)
   -> Api.update_status request_user pk_ data db = (Api.Http404, db))
  /\ (forall row,
        applications db !! pk_ = Some row -> user row = request_user ->
        ((forall s, data !! "status" = Some s -> ~ In s STATUS_CHOICES) ->
         Api.update_status request_user pk_ data db = (Api.Http400Invalid, db))
        /\ (forall s,
              data !! "status" = Some s -> In s STATUS_CHOICES ->
              if is_valid_transition (status row) s then
                exists a db',
                  Api.update_status request_user pk_ data db
                    = (Api.Http200 a, db')
                  /\ status a = s /\ applications db' !! pk_ = Some a
              else
                Api.update_status request_user pk_ data db
                = (Api.Http400 ("Cannot transition from " ++ status row
                                  ++ " to " ++ s), db))).
Proof.
  split.
  - intros Hother. unfold Api.update_status, Api.get_object.
    destruct (applications db !! pk_) as [row |] eqn:Hrow; [| reflexivity].
    specialize (Hother row eq_refl). apply Nat.eqb_neq in Hother.
    now rewrite Hother.
  - intros row Hrow Hown. unfold Api.update_status, Api.get_object.
    rewrite Hrow. apply Nat.eqb_eq in Hown. rewrite Hown. split.
    + intros Hbad. unfold Api.validate_status_update.
      destruct (data !! "status") as [s |] eqn:Hs; [| reflexivity].
      destruct (str_in s STATUS_CHOICES) eqn:Hin; [| reflexivity].
      apply str_in_In in Hin. exfalso. exact (Hbad s eq_refl Hin).
    + intros s Hs Hin. unfold Api.validate_status_update. rewrite Hs.
      apply str_in_In in Hin. rewrite Hin.
      set (notes := strip (default "" (data !! "notes"))).
      set (application := set_pk (Some pk_) row).
      change (status row) with (status application).
      destruct (is_valid_transition (status application) s) eqn:Hv.
      * destruct (transition_accepted application s (Some request_user)
                    notes db Hv) as (k & a' & db' & Hsave & ->).
        pose proof (save_row (set_status s application) db) as Hsr.
        rewrite Hsave in Hsr. destruct Hsr as (Ha & Hstored & _).
        pose proof (saved_instance_fields (set_status s application) db) as Hf.
        rewrite Hsave in Hf. destruct Hf as (Hpk & Hst & _ & _).
        assert (Hk : k = pk_).
        { rewrite Ha in Hpk. cbn in Hpk. unfold save in Hsave.
          cbn [pk set_status application set_pk] in Hsave.
          now injection Hsave as <- _ _. }
        subst k. eexists. eexists. split; [reflexivity |].
        split; [exact Hst | exact Hstored].
      * rewrite (transition_rejected _ _ _ _ _ Hv). reflexivity.
Qed.

Lemma status_endpoint_answers_witness :
  Api.update_status 8 1 {[ "status" := "applied" ]}
    (store_with saved_application)
  = (Api.Http404, store_with saved_application)
  /\ Api.update_status 7 1 {[ "status" := "offer" ]}
       (store_with saved_application)
     = (Api.Http400 "Cannot transition from saved to offer",
        store_with saved_application).
Proof.
  destruct (status_endpoint_answers 8 1 {[ "status" := "applied" ]}
              (store_with saved_application)) as [H404 _].
  destruct (status_endpoint_answers 7 1 {[ "status" := "offer" ]}
              (store_with saved_application)) as [_ Hown].
  split.
  - apply H404. intros row [= <-]. discriminate.
  - destruct (Hown saved_application eq_refl eq_refl) as [_ Hs].
    specialize (Hs "offer" eq_refl). cbn in Hs. apply Hs. auto 12.
Defined.

(** ** The kind of CAPTCHA *)

(** X24.  Detection and naming use different selector lists.  When
    [is_captcha_present] sees a visible marker and [get_captcha_type]
    still answers [None], the visible marker is a [[data-sitekey]] element
    or the [#captcha-container]: every visible marker of the other five
    selectors is named ([recaptcha], [hcaptcha] or [custom]).  Naming does
    not look at visibility, so a hidden widget is named without being
    detected. *)
Theorem captcha_detected_but_not_named (page : Page) :
  (is_captcha_present page = true ->
   CaptchaType.get_captcha_type (Some page) = None ->
   page !! "[data-sitekey]" = Some true
   \/ page !! "#captcha-container" = Some true)
  /\ (is_captcha_present page = true ->
      page !! "[data-sitekey]" <> Some true ->
      page !! "#captcha-container" <> Some true ->
      exists kind, CaptchaType.get_captcha_type (Some page) = Some kind)
  /\ is_captcha_present {[ ".h-captcha" := false ]} = false
  /\ CaptchaType.get_captcha_type (Some {[ ".h-captcha" := false ]})
     = Some "hcaptcha".
Proof.
  assert (Hmain : is_captcha_present page = true ->
            CaptchaType.get_captcha_type (Some page) = None ->
            page !! "[data-sitekey]" = Some true
            \/ page !! "#captcha-container" = Some true).
  { unfold is_captcha_present, CAPTCHA_SELECTORS,
      CaptchaType.get_captcha_type, CaptchaType.found_any.
    cbn [scan existsb].
    repeat match goal with
    | |- context [page !! ?s] =>
        let o := fresh "o" in
        remember (page !! s) as o; destruct o as [[|] |]
    end; cbn; intros; try discriminate; auto. }
  split; [exact Hmain |]. split.
  - intros Hp H1 H2.
    destruct (CaptchaType.get_captcha_type (Some page)) as [kind |] eqn:Hk;
      [now exists kind |].
    destruct (Hmain Hp eq_refl); contradiction.
  - split; vm_compute; reflexivity.
Qed.

Lemma captcha_detected_but_not_named_witness :
  is_captcha_present {[ "[data-sitekey]" := true ]} = true
  /\ CaptchaType.get_captcha_type (Some {[ "[data-sitekey]" := true ]}) = None
  /\ (({[ "[data-sitekey]" := true ]} : Page) !! "[data-sitekey]" = Some true
      \/ ({[ "[data-sitekey]" := true ]} : Page) !! "#captcha-container"
         = Some true).
Proof.
  assert (H1 : is_captcha_present {[ "[data-sitekey]" := true ]} = true)
    by (vm_compute; reflexivity).
  assert (H2 : CaptchaType.get_captcha_type
                 (Some {[ "[data-sitekey]" := true ]}) = None)
    by (vm_compute; reflexivity).
  split; [exact H1 |]. split; [exact H2 |].
  exact (proj1 (captcha_detected_but_not_named _) H1 H2).
Defined.

(** ** The wait is bounded *)

Section WaitBound.

Variable d : Driver.

(** Every sleep of the loop starts inside the time window, so the number
    of sleeps is bounded by the time that was left. *)
Lemma poll_sleeps_bound (timeout start_time : Z) (r : Run) :
  let r' := (poll d timeout start_time r).2 in
  let n := (length (sleeps r') - length (sleeps r))%nat in
  (length (sleeps r) <= length (sleeps r'))%nat
  /\ (clock r <= clock r')%Z
  /\ (n = 0%nat
      \/ (clock r - start_time + 2 * (Z.of_nat n - 1) < timeout)%Z).
Proof.
  funelim (poll d timeout start_time r); cbn zeta in *.
  - cbn [snd]. split; [lia |]. split; [lia |]. left. lia.
  - destruct H as (Hlen & Hclock & Hn).
    cbn [sleep look_after sleeps clock] in Hlen, Hclock, Hn.
    rewrite length_app in Hlen, Hn. cbn [length] in Hlen, Hn.
    split; [lia |]. split; [lia |]. right.
    destruct Hn as [Hn | Hn]; lia.
  - cbn [snd look_after sleeps clock]. split; [lia |]. split; [lia |].
    left. lia.
Qed.

End WaitBound.

(** X26.  The manual-resolution wait is bounded by its timeout: counting
    from the end of the first look, every sleep begins before the timeout
    has passed, so with [n] sleeps made, [n] is zero or
    [2 * (n - 1) < timeout]; with a timeout of zero or less the function
    never sleeps.  The clock never runs backwards. *)
Theorem wait_sleeps_within_timeout (d : Driver) (timeout : Z) (r : Run) :
  let r' := (wait_for_manual_solve d timeout r).2 in
  let n := (length (sleeps r') - length (sleeps r))%nat in
  (n = 0%nat \/ (2 * (Z.of_nat n - 1) < timeout)%Z)
  /\ ((timeout <= 0)%Z -> sleeps r' = sleeps r)
  /\ (clock r <= clock r')%Z.
Proof.
  cbn zeta. unfold wait_for_manual_solve.
  pose proof (N2Z.is_nonneg (look_cost d (looks r))) as Hcost.
  destruct (look_answer d r); cbn [negb].
  - pose proof (poll_sleeps_bound d timeout (clock (look_after d r))
                  (look_after d r)) as (Hlen & Hclock & Hn).
    cbn zeta in *.
    pose proof (poll_spec d timeout (clock (look_after d r)) (look_after d r))
      as Hspec.
    destruct (poll d timeout (clock (look_after d r)) (look_after d r))
      as [ok r'].
    cbn [snd look_after sleeps clock] in *.
    destruct Hspec as (n & Hs & _).
    split; [destruct Hn as [Hn | Hn]; [now left | right; lia] |].
    split; [| lia].
    intros Ht.
    assert (Hz : (length (sleeps r') - length (sleeps r) = 0)%nat) by lia.
    rewrite Hs, length_app, length_replicate in Hz.
    assert (n = 0%nat) by lia. subst n. rewrite Hs. apply app_nil_r.
  - cbn [snd look_after sleeps clock]. split; [left; lia |].
    split; [reflexivity | lia].
Qed.

Lemma wait_sleeps_within_timeout_witness :
  sleeps (wait_for_manual_solve solved_after_three 0 (mkRun 0 0 [])).2 = [].
Proof.
  destruct (wait_sleeps_within_timeout solved_after_three 0 (mkRun 0 0 []))
    as (_ & H & _).
  apply H. lia.
Defined.
